(** * Travel planner: flight toolkit and planning workflow

    A shallow embedding of [flight_toolkit.py] (the Amadeus flight-offer
    tool) and of [TourMoreAI.py] (the five-agent planning workflow),
    followed by the properties of the specification that concern them.

    Conventions of the embedding.
    - Python values that travel as JSON (the aggregator's answer, the
      keyword arguments of the request, error bodies) are [pyval]s; a
      [dict] is an association list in insertion order, read at its first
      binding.
    - A Python [str] is a [string] whose characters are read as code
      points below 256.
    - A raised exception is a value of [exn]; code that may raise lives in
      [result] (pure helpers) or in a monad that also threads the log of
      remote calls.
    - What the code obtains from outside -- the clock, the aggregator, the
      language-model agents, [repr] and [json.loads] -- is a [Variable] of
      the section that uses it. *)

From Stdlib Require Import ZArith String Ascii List Bool Lia.
From Stdlib Require Import DecimalPos DecimalZ DecimalString.
Import ListNotations.
Open Scope string_scope.
Open Scope Z_scope.
Set Warnings "-register-all".

(** ** Python values, exceptions and the builtins the code uses *)

Module Py.

Inductive pyval : Type :=
| PNone
| PBool (b : bool)
| PInt (n : Z)
| PFloat (text : string)          (* a float, by the text [json.dumps] prints for it *)
| PStr (s : string)
| PList (xs : list pyval)
| PDict (kvs : list (string * pyval)).

(** [amadeus.ResponseError]: what [str(error)] prints, and the HTTP
    response it carries ([None] when the error has no response; the inner
    option is the response's [body], which may be [None]). *)
Record response_error : Type := mk_response_error {
  re_str : string;
  re_response : option (option string)
}.

Inductive exn : Type :=
| ResponseError (e : response_error)
| ValueError (msg : string)
| KeyError (key : string)
| TypeError (msg : string)
| AttributeError (msg : string)
| OverflowError (msg : string)
| OtherError (msg : string).       (* any other subclass of [Exception] *)

(** [inl e]: the computation raised [e]; [inr a]: it returned [a]. *)
Definition result (A : Type) : Type := (exn + A)%type.

Definition ret {A} (a : A) : result A := inr a.
Definition raise {A} (e : exn) : result A := inl e.
Definition bind {A B} (m : result A) (k : A -> result B) : result B :=
  match m with
  | inl e => inl e
  | inr a => k a
  end.

(** [try: body except <class> as e: handler e]; [handler] answers [None]
    for an exception its [except] clause does not match. *)
Definition try_except {A} (body : result A) (handler : exn -> option (result A))
  : result A :=
  match body with
  | inr a => inr a
  | inl e => match handler e with
             | Some r => r
             | None => inl e
             end
  end.

Fixpoint mapM {A B} (f : A -> result B) (l : list A) : result (list B) :=
  match l with
  | [] => ret []
  | x :: t => bind (f x) (fun y => bind (mapM f t) (fun ys => ret (y :: ys)))
  end.

Definition type_name (v : pyval) : string :=
  match v with
  | PNone => "NoneType"
  | PBool _ => "bool"
  | PInt _ => "int"
  | PFloat _ => "float"
  | PStr _ => "str"
  | PList _ => "list"
  | PDict _ => "dict"
  end.

(** Truth value testing: [not v] is [negb (truthy v)]. *)
Definition truthy (v : pyval) : bool :=
  match v with
  | PNone => false
  | PBool b => b
  | PInt n => negb (n =? 0)
  | PFloat t => negb ((t =? "0.0")%string || (t =? "-0.0")%string)
  | PStr s => negb (s =? "")%string
  | PList xs => match xs with [] => false | _ => true end
  | PDict kvs => match kvs with [] => false | _ => true end
  end.

Definition str_truthy (s : string) : bool := negb (s =? "")%string.

Fixpoint lookup (k : string) (kvs : list (string * pyval)) : option pyval :=
  match kvs with
  | [] => None
  | (k', v) :: t => if (k =? k')%string then Some v else lookup k t
  end.

(** [needle in hay] on two strings. *)
Fixpoint str_contains (needle hay : string) : bool :=
  String.prefix needle hay ||
  match hay with
  | EmptyString => false
  | String _ t => str_contains needle t
  end.

Definition is_str (k : string) (v : pyval) : bool :=
  match v with
  | PStr s => (s =? k)%string
  | _ => false
  end.

Fixpoint chars (s : string) : list pyval :=
  match s with
  | EmptyString => []
  | String c t => PStr (String c EmptyString) :: chars t
  end.

(** [v[k]] for a string key [k]. *)
Definition getitem (v : pyval) (k : string) : result pyval :=
  match v with
  | PDict kvs => match lookup k kvs with
                 | Some x => ret x
                 | None => raise (KeyError k)
                 end
  | PList _ => raise (TypeError "list indices must be integers or slices, not str")
  | PStr _ => raise (TypeError "string indices must be integers, not 'str'")
  | _ => raise (TypeError ("'" ++ type_name v ++ "' object is not subscriptable"))
  end.

(** [v.get(k, default)]. *)
Definition get (v : pyval) (k : string) (default : pyval) : result pyval :=
  match v with
  | PDict kvs => match lookup k kvs with
                 | Some x => ret x
                 | None => ret default
                 end
  | _ => raise (AttributeError ("'" ++ type_name v ++ "' object has no attribute 'get'"))
  end.

(** The items [for x in v] visits. *)
Definition iter (v : pyval) : result (list pyval) :=
  match v with
  | PList xs => ret xs
  | PDict kvs => ret (map (fun kv => PStr (fst kv)) kvs)
  | PStr s => ret (chars s)
  | _ => raise (TypeError ("'" ++ type_name v ++ "' object is not iterable"))
  end.

(** [len(v)]. *)
Definition len (v : pyval) : result Z :=
  match v with
  | PList xs => ret (Z.of_nat (List.length xs))
  | PDict kvs => ret (Z.of_nat (List.length kvs))
  | PStr s => ret (Z.of_nat (String.length s))
  | _ => raise (TypeError ("object of type '" ++ type_name v ++ "' has no len()"))
  end.

(** [k in v] for a string [k]. *)
Definition contains (k : string) (v : pyval) : result bool :=
  match v with
  | PDict kvs => ret (match lookup k kvs with Some _ => true | None => false end)
  | PList xs => ret (existsb (is_str k) xs)
  | PStr s => ret (str_contains k s)
  | _ => raise (TypeError ("argument of type '" ++ type_name v ++ "' is not iterable"))
  end.

Section Repr.

(** The builtin [repr]. *)
Variable repr : pyval -> string.

(** [str(v)], which is also how an f-string renders [{v}]. *)
Definition str (v : pyval) : string :=
  match v with
  | PStr s => s
  | _ => repr v
  end.

(** [str(e)] for an exception [e]. *)
Definition exn_str (e : exn) : string :=
  match e with
  | ResponseError r => re_str r
  | KeyError k => repr (PStr k)
  | ValueError m | TypeError m | AttributeError m
  | OverflowError m | OtherError m => m
  end.

End Repr.

End Py.

(** ** [json.dumps(obj, indent=n)] *)

Module Json.
Import Py.

Definition chr (n : nat) : string := String (ascii_of_nat n) EmptyString.
Definition dquote : string := chr 34.
Definition newline : string := chr 10.

Definition hex_digit (n : nat) : string :=
  match n with
  | 10%nat => "a" | 11%nat => "b" | 12%nat => "c"
  | 13%nat => "d" | 14%nat => "e" | 15%nat => "f"
  | _ => NilZero.string_of_uint (Nat.to_uint n)
  end.

(** One character under [ensure_ascii=True]: quote and backslash are
    escaped, printable ASCII is kept, the rest becomes [\uXXXX]. *)
Definition escape_char (c : ascii) : string :=
  let n := nat_of_ascii c in
  if (n =? 34)%nat then "\" ++ dquote
  else if (n =? 92)%nat then "\\"
  else if (n =? 8)%nat then "\b"
  else if (n =? 12)%nat then "\f"
  else if (n =? 10)%nat then "\n"
  else if (n =? 13)%nat then "\r"
  else if (n =? 9)%nat then "\t"
  else if ((32 <=? n)%nat && (n <=? 126)%nat)%bool then String c EmptyString
  else "\u00" ++ hex_digit (n / 16) ++ hex_digit (n mod 16).

Fixpoint escape (s : string) : string :=
  match s with
  | EmptyString => EmptyString
  | String c t => escape_char c ++ escape t
  end.

Definition encode_string (s : string) : string := dquote ++ escape s ++ dquote.

Definition int_text (n : Z) : string := NilZero.string_of_int (Z.to_int n).

Fixpoint spaces (n : nat) : string :=
  match n with
  | O => EmptyString
  | S k => String " " (spaces k)
  end.

(** ['\n' + ' ' * indent * level]. *)
Definition newline_indent (indent level : nat) : string :=
  newline ++ spaces (indent * level).

Fixpoint encode (indent level : nat) (v : pyval) : string :=
  match v with
  | PNone => "null"
  | PBool true => "true"
  | PBool false => "false"
  | PInt n => int_text n
  | PFloat t => t
  | PStr s => encode_string s
  | PList [] => "[]"
  | PList (x :: xs) =>
      let nl := newline_indent indent (S level) in
      "[" ++ nl ++ encode indent (S level) x
      ++ (fix items (l : list pyval) : string :=
            match l with
            | [] => EmptyString
            | y :: t => "," ++ nl ++ encode indent (S level) y ++ items t
            end) xs
      ++ newline_indent indent level ++ "]"
  | PDict [] => "{}"
  | PDict ((k, x) :: kvs) =>
      let nl := newline_indent indent (S level) in
      "{" ++ nl ++ encode_string k ++ ": " ++ encode indent (S level) x
      ++ (fix items (l : list (string * pyval)) : string :=
            match l with
            | [] => EmptyString
            | (k', y) :: t =>
                "," ++ nl ++ encode_string k' ++ ": "
                ++ encode indent (S level) y ++ items t
            end) kvs
      ++ newline_indent indent level ++ "}"
  end.

Definition dumps (indent : nat) (v : pyval) : string := encode indent 0 v.

End Json.

(** ** Dates: [datetime.strptime(s, '%Y-%m-%d')], [strftime], [timedelta(days=1)] *)

Module Dates.
Import Py.

(** The calendar date of a [datetime]; the toolkit never reads the time of
    day ([strptime] with this format leaves it at midnight and [strftime]
    prints the date only). *)
Record date : Type := mk_date { year : Z; month : Z; day : Z }.

Definition is_leap (y : Z) : bool :=
  (y mod 4 =? 0) && (negb (y mod 100 =? 0) || (y mod 400 =? 0)).

Definition days_in_month (y m : Z) : Z :=
  if m =? 2 then (if is_leap y then 29 else 28)
  else if (m =? 4) || (m =? 6) || (m =? 9) || (m =? 11) then 30
  else 31.

Definition valid_date (d : date) : bool :=
  (1 <=? year d) && (year d <=? 9999) &&
  (1 <=? month d) && (month d <=? 12) &&
  (1 <=? day d) && (day d <=? days_in_month (year d) (month d)).

(** [a < b] on datetimes at midnight. *)
Definition date_ltb (a b : date) : bool :=
  (year a <? year b) ||
  ((year a =? year b) &&
   ((month a <? month b) || ((month a =? month b) && (day a <? day b)))).

Definition digit (c : ascii) : option Z :=
  let n := Z.of_nat (nat_of_ascii c) in
  if (48 <=? n) && (n <=? 57) then Some (n - 48) else None.

Definition in_range (lo hi : Z) (c : ascii) : option Z :=
  match digit c with
  | Some n => if (lo <=? n) && (n <=? hi) then Some n else None
  | None => None
  end.

(** [%Y] is the regular expression [\d\d\d\d]. *)
Definition match_year (s : string) : option (Z * string) :=
  match s with
  | String a (String b (String c (String d rest))) =>
      match digit a, digit b, digit c, digit d with
      | Some x, Some y, Some z, Some w =>
          Some (1000 * x + 100 * y + 10 * z + w, rest)
      | _, _, _, _ => None
      end
  | _ => None
  end.

(** A two-character alternative [[lo1-hi1][lo2-hi2]]. *)
Definition two (lo1 hi1 lo2 hi2 : Z) (s : string) : list (Z * string) :=
  match s with
  | String a (String b rest) =>
      match in_range lo1 hi1 a, in_range lo2 hi2 b with
      | Some x, Some y => [(10 * x + y, rest)]
      | _, _ => []
      end
  | _ => []
  end.

(** The one-character alternative [[1-9]]. *)
Definition one (s : string) : list (Z * string) :=
  match s with
  | String a rest =>
      match in_range 1 9 a with
      | Some x => [(x, rest)]
      | None => []
      end
  | _ => []
  end.

(** The alternative [ [1-9]] of [%d]: a space, then a digit. *)
Definition space_one (s : string) : list (Z * string) :=
  match s with
  | String " " rest => one rest
  | _ => []
  end.

(** [%m] is [1[0-2]|0[1-9]|[1-9]] and [%d] is
    [3[01]|[12]\d|0[1-9]|[1-9]| [1-9]]: the ways each can match a prefix,
    in the order the regular-expression engine tries them. *)
Definition match_month (s : string) : list (Z * string) :=
  two 1 1 0 2 s ++ two 0 0 1 9 s ++ one s.

Definition match_day (s : string) : list (Z * string) :=
  two 3 3 0 1 s ++ two 1 2 0 9 s ++ two 0 0 1 9 s ++ one s ++ space_one s.

Definition after_dash (s : string) : option string :=
  match s with
  | String "-" rest => Some rest
  | _ => None
  end.

(** The first way of matching [-%d] after one of the candidate months. *)
Fixpoint first_day (months : list (Z * string)) : option (Z * Z * string) :=
  match months with
  | [] => None
  | (m, rest) :: more =>
      match after_dash rest with
      | Some rest' =>
          match match_day rest' with
          | (d, rest'') :: _ => Some (m, d, rest'')
          | [] => first_day more
          end
      | None => first_day more
      end
  end.

(** The match of the whole format at the start of [s]: year, month, day
    and the unconverted remainder. *)
Definition match_format (s : string) : option (Z * Z * Z * string) :=
  match match_year s with
  | Some (y, rest) =>
      match after_dash rest with
      | Some rest' =>
          match first_day (match_month rest') with
          | Some (m, d, rest'') => Some (y, m, d, rest'')
          | None => None
          end
      | None => None
      end
  | None => None
  end.

Section Strptime.

Variable repr : pyval -> string.

(** [datetime.strptime(s, '%Y-%m-%d')]; every failure is a [ValueError]. *)
Definition strptime (s : string) : result date :=
  match match_format s with
  | None =>
      raise (ValueError ("time data " ++ repr (PStr s)
                         ++ " does not match format '%Y-%m-%d'"))
  | Some (y, m, d, rest) =>
      if str_truthy rest
      then raise (ValueError ("unconverted data remains: " ++ rest))
      else if y =? 0
      then raise (ValueError "year 0 is out of range")
      else if days_in_month y m <? d
      then raise (ValueError "day is out of range for month")
      else ret (mk_date y m d)
  end.

End Strptime.

Fixpoint pad (width : nat) (s : string) : string :=
  match width with
  | O => s
  | S w => if (String.length s <=? w)%nat then pad w ("0" ++ s) else s
  end.

Definition digits (width : nat) (n : Z) : string :=
  pad width (NilZero.string_of_uint (N.to_uint (Z.to_N n))).

(** [d.strftime('%Y-%m-%d')], the year on four digits (for a year below
    1000 some C libraries print fewer; the clock is never there). *)
Definition strftime (d : date) : string :=
  digits 4 (year d) ++ "-" ++ digits 2 (month d) ++ "-" ++ digits 2 (day d).

(** [d + timedelta(days=1)]; past 9999-12-31 it raises [OverflowError]. *)
Definition add_one_day (d : date) : result date :=
  if day d <? days_in_month (year d) (month d)
  then ret (mk_date (year d) (month d) (day d + 1))
  else if month d <? 12
  then ret (mk_date (year d) (month d + 1) 1)
  else if year d <? 9999
  then ret (mk_date (year d + 1) 1 1)
  else raise (OverflowError "date value out of range").

End Dates.

(** ** [flight_toolkit.py]: class [FlightToolkit] *)

Module FlightToolkit.
Import Py Json Dates.

Declare Scope py_scope.
Delimit Scope py_scope with py.
Notation "x <- m ;; k" := (bind m (fun x => k))
  (at level 61, m at next level, right associativity) : py_scope.
Notation "m ;;; k" := (bind m (fun _ => k))
  (at level 61, right associativity) : py_scope.
Open Scope py_scope.

(** The keyword arguments of one flight-offer request. *)
Definition kwargs : Type := list (string * pyval).

(** What [amadeus.shopping.flight_offers_search.get] does with a request:
    a response, of which the code reads [.data], or an exception. *)
Inductive remote_outcome : Type :=
| Response (data : pyval)
| Raises (e : exn).

(** Tool code: reads the log of the requests sent so far, extends it, and
    returns or raises. *)
Definition M (A : Type) : Type := list kwargs -> list kwargs * result A.

Definition retM {A} (a : A) : M A := fun log => (log, inr a).
Definition lift {A} (r : result A) : M A := fun log => (log, r).
Definition bindM {A B} (m : M A) (k : A -> M B) : M B :=
  fun log =>
    match m log with
    | (log', inl e) => (log', inl e)
    | (log', inr a) => k a log'
    end.

(** [try: body] followed by [except] clauses that between them catch every
    [Exception]. *)
Definition try_exceptM {A} (body : M A) (handler : exn -> M A) : M A :=
  fun log =>
    match body log with
    | (log', inl e) => handler e log'
    | (log', inr a) => (log', inr a)
    end.

Declare Scope tool_scope.
Delimit Scope tool_scope with tool.
Notation "x <~ m ;; k" := (bindM m (fun x => k))
  (at level 61, m at next level, right associativity) : tool_scope.
Open Scope tool_scope.

Definition travel_classes : list string :=
  ["ECONOMY"; "PREMIUM_ECONOMY"; "BUSINESS"; "FIRST"].

Definition mem (s : string) (l : list string) : bool :=
  existsb (String.eqb s) l.

Section Toolkit.

(** The builtin [repr] and [json.loads] ([None] when it raises). *)
Variable repr : pyval -> string.
Variable json_loads : string -> option pyval.
(** [datetime.now()], as a calendar date. *)
Variable now : date.
(** The aggregator behind [self.amadeus]. *)
Variable flight_offers_search_get : kwargs -> remote_outcome.

Definition _validate_inputs (origin destination departure_date : string)
    (return_date : option string) (adults : Z) : result unit :=
  if negb (str_truthy origin) || negb (str_truthy destination)
  then raise (ValueError "Origin and destination airport codes are required")
  else if negb (String.length origin =? 3)%nat
          || negb (String.length destination =? 3)%nat
  then raise (ValueError "Airport codes must be 3-letter IATA codes")
  else
    (if str_truthy departure_date
     then try_except
            (_ <- strptime repr departure_date ;; ret tt)
            (fun e => match e with
                      | ValueError _ =>
                          Some (raise (ValueError
                                  "Departure date must be in YYYY-MM-DD format"))
                      | _ => None
                      end)
     else ret tt) ;;;
    (match return_date with
     | Some return_date' =>
         if str_truthy return_date'
         then try_except
                (return_dt <- strptime repr return_date' ;;
                 if str_truthy departure_date
                 then departure_dt <- strptime repr departure_date ;;
                      if date_ltb return_dt departure_dt
                      then raise (ValueError
                                    "Return date must be after departure date")
                      else ret tt
                 else ret tt)
                (fun e => match e with
                          | ValueError _ =>
                              Some (if str_contains "must be after" (exn_str repr e)
                                    then raise e
                                    else raise (ValueError
                                           "Return date must be in YYYY-MM-DD format"))
                          | _ => None
                          end)
         else ret tt
     | None => ret tt
     end) ;;;
    if adults <? 1
    then raise (ValueError "Number of adults must be a positive integer")
    else ret tt.

(** One entry of the [errors] list, rendered. *)
Definition error_detail (err : pyval) : result string :=
  title <- get err "title" (PStr "Error") ;;
  detail <- get err "detail" (PStr "Unknown error") ;;
  let text := str repr title ++ ": " ++ str repr detail in
  has_source <- contains "source" err ;;
  if has_source
  then source <- getitem err "source" ;;
       has_parameter <- contains "parameter" source ;;
       if has_parameter
       then parameter <- getitem source "parameter" ;;
            ret (text ++ " (parameter: " ++ str repr parameter ++ ")")
       else ret text
  else ret text.

Definition _parse_error_response (error : response_error) : string :=
  let attempt : result string :=
    match re_response error with
    | Some (Some body) =>
        if str_truthy body
        then match json_loads body with
             | None => raise (ValueError "Expecting value")
             | Some error_body =>
                 has_errors <- contains "errors" error_body ;;
                 if has_errors
                 then errors <- getitem error_body "errors" ;;
                      if truthy errors
                      then items <- iter errors ;;
                           error_details <- mapM error_detail items ;;
                           ret (String.concat "; " error_details)
                      else ret (re_str error)
                 else ret (re_str error)
             end
        else ret (re_str error)
    | _ => ret (re_str error)
    end in
  match attempt with
  | inr text => text
  | inl _ => re_str error
  end.

Definition process_segment (segment : pyval) : result pyval :=
  departure <- getitem segment "departure" ;;
  departure_iata <- getitem departure "iataCode" ;;
  departure' <- getitem segment "departure" ;;
  departure_terminal <- get departure' "terminal" (PStr "N/A") ;;
  departure'' <- getitem segment "departure" ;;
  departure_at <- getitem departure'' "at" ;;
  arrival <- getitem segment "arrival" ;;
  arrival_iata <- getitem arrival "iataCode" ;;
  arrival' <- getitem segment "arrival" ;;
  arrival_terminal <- get arrival' "terminal" (PStr "N/A") ;;
  arrival'' <- getitem segment "arrival" ;;
  arrival_at <- getitem arrival'' "at" ;;
  carrier <- getitem segment "carrierCode" ;;
  number <- getitem segment "number" ;;
  aircraft <- get segment "aircraft" (PDict []) ;;
  aircraft_code <- get aircraft "code" (PStr "N/A") ;;
  duration <- get segment "duration" (PStr "N/A") ;;
  ret (PDict [("departure", PDict [("iataCode", departure_iata);
                                   ("terminal", departure_terminal);
                                   ("at", departure_at)]);
              ("arrival", PDict [("iataCode", arrival_iata);
                                 ("terminal", arrival_terminal);
                                 ("at", arrival_at)]);
              ("carrierCode", carrier);
              ("flightNumber", number);
              ("aircraft", aircraft_code);
              ("duration", duration)]).

Definition process_itinerary (itinerary : pyval) : result pyval :=
  raw_segments <- getitem itinerary "segments" ;;
  items <- iter raw_segments ;;
  segments <- mapM process_segment items ;;
  duration <- get itinerary "duration" (PStr "N/A") ;;
  ret (PDict [("duration", duration); ("segments", PList segments)]).

Definition process_offer (offer : pyval) : result pyval :=
  id <- getitem offer "id" ;;
  price <- getitem offer "price" ;;
  total <- getitem price "total" ;;
  price' <- getitem offer "price" ;;
  currency <- getitem price' "currency" ;;
  raw_itineraries <- getitem offer "itineraries" ;;
  items <- iter raw_itineraries ;;
  itineraries <- mapM process_itinerary items ;;
  ret (PDict [("id", id);
              ("price", PDict [("total", total); ("currency", currency)]);
              ("itineraries", PList itineraries)]).

Definition _process_flight_results (flight_data : pyval) : result pyval :=
  if negb (truthy flight_data)
  then ret (PDict [("count", PInt 0); ("flights", PList [])])
  else
    count <- len flight_data ;;
    offers <- iter flight_data ;;
    flights <- mapM process_offer offers ;;
    ret (PDict [("count", PInt count); ("flights", PList flights)]).

(** [self.amadeus.shopping.flight_offers_search.get( **kwargs )]: the
    request is logged, then answered. *)
Definition flight_offers_search (kw : kwargs) : M pyval :=
  fun log =>
    ((log ++ [kw])%list,
     match flight_offers_search_get kw with
     | Response data => inr data
     | Raises e => inl e
     end).

Definition request_kwargs (origin destination departure_date : string)
    (return_date : option string) (adults : Z) (currency : string)
    (max_results : Z) (non_stop : bool) (travel_class : option string)
  : kwargs :=
  ([("originLocationCode", PStr origin);
   ("destinationLocationCode", PStr destination);
   ("departureDate", PStr departure_date);
   ("adults", PInt adults);
   ("currencyCode", PStr currency);
   ("max", PInt max_results)]
  ++ (match return_date with
      | Some r => if str_truthy r then [("returnDate", PStr r)] else []
      | None => []
      end)
  ++ (if non_stop then [("nonStop", PStr "true")] else [])
  ++ (match travel_class with
      | Some c => if str_truthy c && mem c travel_classes
                  then [("travelClass", PStr c)] else []
      | None => []
      end))%list.

(** The body of the [try] block of [search_flights]. *)
Definition search_flights_try (origin destination departure_date : string)
    (return_date : option string) (adults : Z) (currency : string)
    (max_results : Z) (non_stop : bool) (travel_class : option string)
  : M string :=
  _ <~ lift (_validate_inputs origin destination departure_date
                              return_date adults) ;;
  departure_date' <~
    (if negb (str_truthy departure_date)
     then lift (tomorrow <- add_one_day now ;; ret (strftime tomorrow))
     else retM departure_date) ;;
  response_data <~
    flight_offers_search
      (request_kwargs origin destination departure_date' return_date adults
                      currency max_results non_stop travel_class) ;;
  processed_results <~ lift (_process_flight_results response_data) ;;
  retM (dumps 2 processed_results).

(** The three [except] clauses of [search_flights], in order. *)
Definition search_flights_except (error : exn) : M string :=
  match error with
  | ResponseError e =>
      retM ("Error searching flights: " ++ _parse_error_response e)
  | ValueError _ =>
      retM ("Validation error: " ++ exn_str repr error)
  | _ =>
      retM ("An unexpected error occurred: " ++ exn_str repr error)
  end.

Definition search_flights (origin destination departure_date : string)
    (return_date : option string) (adults : Z) (currency : string)
    (max_results : Z) (non_stop : bool) (travel_class : option string)
  : M string :=
  try_exceptM
    (search_flights_try origin destination departure_date return_date adults
                        currency max_results non_stop travel_class)
    search_flights_except.

End Toolkit.

End FlightToolkit.

(** ** [TourMoreAI.py]: the response models and [TravelPlannerWorkflow] *)

Module TourMoreAI.
Import Py Json.

Record FlightDetails : Type := mk_FlightDetails {
  fd_origin : string;
  fd_destination : string;
  fd_departure_date : string;
  fd_return_date : option string;
  fd_recommended_flights : string;
  fd_best_option : string
}.

Record DestinationInfo : Type := mk_DestinationInfo {
  di_accommodations : string;
  di_dining : string;
  di_attractions : string;
  di_transportation : string;
  di_urls : option (list string)
}.

Record TravelInfo : Type := mk_TravelInfo {
  ti_destination : string;
  ti_duration : string;
  ti_travel_dates : string;
  ti_purpose : string;
  ti_preferences : string;
  ti_special_requests : option string
}.

(** What a [RunResponse] may carry as [content], and so what the step
    methods may return: [None], text, or an instance of a response model. *)
Inductive content : Type :=
| CNone
| CStr (s : string)
| CTravelInfo (t : TravelInfo)
| CFlightDetails (f : FlightDetails)
| CDestinationInfo (d : DestinationInfo).

Definition is_none (c : content) : bool :=
  match c with
  | CNone => true
  | _ => false
  end.

Definition class_name (c : content) : string :=
  match c with
  | CNone => "NoneType"
  | CStr _ => "str"
  | CTravelInfo _ => "TravelInfo"
  | CFlightDetails _ => "FlightDetails"
  | CDestinationInfo _ => "DestinationInfo"
  end.

Definition no_attribute {A} (c : content) (name : string) : result A :=
  raise (AttributeError ("'" ++ class_name c ++ "' object has no attribute '"
                         ++ name ++ "'")).

(** [c.name] for the attributes the workflow formats into text (all of
    them required [str] fields of the model that declares them). *)
Definition getattr (c : content) (name : string) : result string :=
  match c, name with
  | CTravelInfo t, "destination" => ret (ti_destination t)
  | CTravelInfo t, "duration" => ret (ti_duration t)
  | CTravelInfo t, "travel_dates" => ret (ti_travel_dates t)
  | CTravelInfo t, "purpose" => ret (ti_purpose t)
  | CTravelInfo t, "preferences" => ret (ti_preferences t)
  | CFlightDetails f, "origin" => ret (fd_origin f)
  | CFlightDetails f, "destination" => ret (fd_destination f)
  | CFlightDetails f, "departure_date" => ret (fd_departure_date f)
  | CFlightDetails f, "recommended_flights" => ret (fd_recommended_flights f)
  | CFlightDetails f, "best_option" => ret (fd_best_option f)
  | CDestinationInfo d, "accommodations" => ret (di_accommodations d)
  | CDestinationInfo d, "dining" => ret (di_dining d)
  | CDestinationInfo d, "attractions" => ret (di_attractions d)
  | CDestinationInfo d, "transportation" => ret (di_transportation d)
  | _, _ => no_attribute c name
  end.

Definition opt_str (o : option string) : pyval :=
  match o with
  | Some s => PStr s
  | None => PNone
  end.

(** [c.model_dump()]. *)
Definition model_dump (c : content) : result pyval :=
  match c with
  | CTravelInfo t =>
      ret (PDict [("destination", PStr (ti_destination t));
                  ("duration", PStr (ti_duration t));
                  ("travel_dates", PStr (ti_travel_dates t));
                  ("purpose", PStr (ti_purpose t));
                  ("preferences", PStr (ti_preferences t));
                  ("special_requests", opt_str (ti_special_requests t))])
  | CFlightDetails f =>
      ret (PDict [("origin", PStr (fd_origin f));
                  ("destination", PStr (fd_destination f));
                  ("departure_date", PStr (fd_departure_date f));
                  ("return_date", opt_str (fd_return_date f));
                  ("recommended_flights", PStr (fd_recommended_flights f));
                  ("best_option", PStr (fd_best_option f))])
  | CDestinationInfo d =>
      ret (PDict [("accommodations", PStr (di_accommodations d));
                  ("dining", PStr (di_dining d));
                  ("attractions", PStr (di_attractions d));
                  ("transportation", PStr (di_transportation d));
                  ("urls", match di_urls d with
                           | Some l => PList (map PStr l)
                           | None => PNone
                           end)])
  | _ => no_attribute c "model_dump"
  end.

Inductive agent : Type :=
| travel_info_agent
| flight_search_agent
| destination_info_agent
| navigation_agent
| travel_plan_agent.

(** What [agent.run(message)] does: it returns a response ([None], or a
    [RunResponse] of which the code reads [.content]) or raises. *)
Inductive agent_outcome : Type :=
| Returns (response : option content)
| Fails (e : exn).

Inductive RunEvent : Type :=
| run_response
| workflow_completed.

Record RunResponse : Type := mk_RunResponse {
  rr_content : content;
  rr_event : RunEvent
}.

(** What a run of the workflow does, in order: the notifications it yields
    and the agents it runs. *)
Inductive step : Type :=
| Yielded (r : RunResponse)
| Ran (a : agent) (message : string).

Definition W (A : Type) : Type := list step -> list step * result A.

Definition retW {A} (a : A) : W A := fun trace => (trace, inr a).
Definition liftW {A} (r : result A) : W A := fun trace => (trace, r).
Definition bindW {A B} (m : W A) (k : A -> W B) : W B :=
  fun trace =>
    match m trace with
    | (trace', inl e) => (trace', inl e)
    | (trace', inr a) => k a trace'
    end.

(** [try: body except Exception as e: handler e]. *)
Definition try_exceptW {A} (body : W A) (handler : exn -> W A) : W A :=
  fun trace =>
    match body trace with
    | (trace', inl e) => handler e trace'
    | (trace', inr a) => (trace', inr a)
    end.

Declare Scope wf_scope.
Delimit Scope wf_scope with wf.
Notation "x <~ m ;; k" := (bindW m (fun x => k))
  (at level 61, m at next level, right associativity) : wf_scope.
Notation "m ;;; k" := (bindW m (fun _ => k))
  (at level 61, right associativity) : wf_scope.
Open Scope wf_scope.

Definition nl2 : string := newline ++ newline.

Definition fallback_info : DestinationInfo :=
  mk_DestinationInfo
    "Could not retrieve accommodations due to an error. Please search for hotels in your destination area."
    "Could not retrieve dining information due to an error. Please search for restaurants in your destination area."
    "Could not retrieve attractions due to an error. Please search for tourist spots in your destination area."
    "Could not retrieve transportation options."
    None.

Definition no_travel_info : string :=
  "Sorry, I couldn't extract the necessary travel information. Please provide more details about your trip.".
Definition no_flights : string :=
  "Could not find suitable flights for your travel dates. Please try different dates or destinations.".
Definition no_destination_info : string :=
  "Could not find detailed information about your destination. Let's continue with what we have.".

Section Workflow.

(** The language-model agents: what each answers to a message, given
    what the run has done so far (the agents keep their history). *)
Variable agent_run : list step -> agent -> string -> agent_outcome.

Definition run_agent (a : agent) (message : string) : W (option content) :=
  fun trace =>
    ((trace ++ [Ran a message])%list,
     match agent_run trace a message with
     | Returns response => inr response
     | Fails e => inl e
     end).

(** [response.content]. *)
Definition content_of (response : option content) : result content :=
  match response with
  | Some c => ret c
  | None => raise (AttributeError "'NoneType' object has no attribute 'content'")
  end.

Definition extract_travel_info (travel_request : string) : W content :=
  try_exceptW
    (response <~ run_agent travel_info_agent travel_request ;;
     liftW (content_of response))
    (fun _ => retW CNone).

Definition search_flights (travel_info : content) : W content :=
  try_exceptW
    (destination <~ liftW (getattr travel_info "destination") ;;
     travel_dates <~ liftW (getattr travel_info "travel_dates") ;;
     duration <~ liftW (getattr travel_info "duration") ;;
     preferences <~ liftW (getattr travel_info "preferences") ;;
     purpose <~ liftW (getattr travel_info "purpose") ;;
     let flight_search_query :=
       "I need flights to " ++ destination ++ ". "
       ++ "Departing around " ++ travel_dates ++ ". "
       ++ "My trip is for " ++ duration ++ ". "
       ++ "Preferences: " ++ preferences ++ ". "
       ++ "Purpose: " ++ purpose ++ ". " in
     response <~ run_agent flight_search_agent flight_search_query ;;
     liftW (content_of response))
    (fun _ => retW CNone).

Definition get_destination_info (travel_info : content) : W content :=
  try_exceptW
    (destination <~ liftW (getattr travel_info "destination") ;;
     duration <~ liftW (getattr travel_info "duration") ;;
     preferences <~ liftW (getattr travel_info "preferences") ;;
     purpose <~ liftW (getattr travel_info "purpose") ;;
     let destination_query :=
       "I'm traveling to " ++ destination ++ " for " ++ duration ++ ". "
       ++ "Please find me good " ++ preferences ++ " accommodations, "
       ++ "restaurants, tourist attractions, and public transportation options near city center. "
       ++ "Purpose of visit: " ++ purpose ++ ". " in
     response <~ run_agent destination_info_agent destination_query ;;
     liftW (content_of response))
    (fun _ => retW (CDestinationInfo fallback_info)).

Definition get_navigation_info (origin destination : string) : W content :=
  try_exceptW
    (let navigation_query :=
       "How do I get from " ++ origin ++ " to " ++ destination
       ++ "? Please show me the directions." in
     response <~ run_agent navigation_agent navigation_query ;;
     liftW (content_of response))
    (fun _ => retW CNone).

Definition generate_travel_plan (travel_info flight_details destination_info : content)
  : W content :=
  try_exceptW
    (travel_info' <~ liftW (model_dump travel_info) ;;
     flight_details' <~ liftW (model_dump flight_details) ;;
     destination_info' <~ liftW (model_dump destination_info) ;;
     let travel_plan_input :=
       PDict [("travel_info", travel_info');
              ("flight_details", flight_details');
              ("destination_info", destination_info')] in
     response <~ run_agent travel_plan_agent (dumps 4 travel_plan_input) ;;
     liftW (content_of response))
    (fun _ => retW CNone).

(** [yield RunResponse(content=c, event=e)]. *)
Definition yield (c : content) (e : RunEvent) : W unit :=
  fun trace => ((trace ++ [Yielded (mk_RunResponse c e)])%list, inr tt).

(** The report [run] yields when no plan could be generated. *)
Definition partial_report (flight_details destination_info : content)
  : result string :=
  bind (getattr flight_details "recommended_flights") (fun recommended_flights =>
  bind (getattr flight_details "best_option") (fun best_option =>
  bind (getattr destination_info "accommodations") (fun accommodations =>
  bind (getattr destination_info "dining") (fun dining =>
  bind (getattr destination_info "attractions") (fun attractions =>
  bind (getattr destination_info "transportation") (fun transportation =>
  ret ("Could not generate a complete travel plan. Here's what I found so far:" ++ nl2
       ++ "**Flight Options**: " ++ recommended_flights ++ nl2
       ++ "**Best Flight**: " ++ best_option ++ nl2
       ++ "**Accommodations**: " ++ accommodations ++ nl2
       ++ "**Dining Options**: " ++ dining ++ nl2
       ++ "**Attractions**: " ++ attractions ++ nl2
       ++ "**Local Transportation**: " ++ transportation))))))).

(** [run], with the generator drained by its consumer. *)
Definition run (travel_request : string) : W unit :=
  yield (CStr "Extracting travel details...") run_response ;;;
  travel_info <~ extract_travel_info travel_request ;;
  if is_none travel_info
  then yield (CStr no_travel_info) workflow_completed
  else
    yield (CStr "Searching for flights...") run_response ;;;
    flight_details <~ search_flights travel_info ;;
    if is_none flight_details
    then yield (CStr no_flights) workflow_completed
    else
      yield (CStr "Finding accommodation, dining, and attractions...")
            run_response ;;;
      destination_info <~ get_destination_info travel_info ;;
      if is_none destination_info
      then yield (CStr no_destination_info) workflow_completed
      else
        yield (CStr "Generating your complete travel plan...") run_response ;;;
        travel_plan <~ generate_travel_plan travel_info flight_details
                                            destination_info ;;
        if is_none travel_plan
        then report <~ liftW (partial_report flight_details destination_info) ;;
             yield (CStr report) workflow_completed
        else yield travel_plan workflow_completed.

End Workflow.

End TourMoreAI.

(** ** [simplified_map_tools.py]: class [SimplifiedMapTools] *)

Module SimplifiedMapTools.
Import Py Json FlightToolkit.

(** [v[:n]]. *)
Definition slice_to (n : nat) (v : pyval) : result pyval :=
  match v with
  | PList xs => ret (PList (firstn n xs))
  | PStr s => ret (PStr (String.substring 0 n s))
  | PDict _ => raise (TypeError "unhashable type: 'slice'")
  | _ => raise (TypeError ("'" ++ type_name v ++ "' object is not subscriptable"))
  end.

Definition nat_text (n : nat) : string := NilZero.string_of_uint (Nat.to_uint n).

(** The strings [sep.join] puts together: every item must be a [str]. *)
Fixpoint join_items (index : nat) (items : list pyval) : result (list string) :=
  match items with
  | [] => ret []
  | PStr s :: rest => l <- join_items (S index) rest ;; ret (s :: l)
  | x :: _ =>
      raise (TypeError ("sequence item " ++ nat_text index
                        ++ ": expected str instance, " ++ type_name x ++ " found"))
  end.

(** [sep.join(v)]. *)
Definition join (sep : string) (v : pyval) : result string :=
  match iter v with
  | inl _ => raise (TypeError "can only join an iterable")
  | inr items => l <- join_items 0 items ;; ret (String.concat sep l)
  end.

Definition not_configured : string :=
  "Error: Google Maps API key is not configured.".

Section Maps.

(** The builtin [repr]. *)
Variable repr : pyval -> string.
(** [os.getenv("GOOGLE_MAPS_API_KEY")], read when the toolkit is built. *)
Variable api_key : option string.
(** The place-search service: [requests.get(url, params=params).json()]. *)
Variable textsearch : kwargs -> remote_outcome.

Definition place_details (place : pyval) : result pyval :=
  name <- get place "name" (PStr "Unknown") ;;
  address <- get place "formatted_address" (PStr "No address") ;;
  rating <- get place "rating" (PInt 0) ;;
  total_ratings <- get place "user_ratings_total" (PInt 0) ;;
  types <- get place "types" (PList [PStr "Unknown"]) ;;
  type <- join ", " types ;;
  ret (PDict [("name", name);
              ("address", address);
              ("rating", rating);
              ("total_ratings", total_ratings);
              ("type", PStr type)]).

(** The request is logged, then answered. *)
Definition places_request (params : kwargs) : M pyval :=
  fun log =>
    ((log ++ [params])%list,
     match textsearch params with
     | Response data => inr data
     | Raises e => inl e
     end).

(** The body of the [try] block of [search_places]. *)
Definition search_places_try (query key : string) : M string :=
  results <~ places_request [("query", PStr query); ("key", PStr key)] ;;
  status <~ lift (get results "status" PNone) ;;
  if negb (is_str "OK" status)
  then status' <~ lift (get results "status" PNone) ;;
       message <~ lift (get results "error_message"
                            (PStr "No error message provided")) ;;
       retM ("Error searching Google Maps: " ++ str repr status'
             ++ " (" ++ str repr message ++ ")")
  else found <~ lift (get results "results" (PList [])) ;;
       first_ten <~ lift (slice_to 10 found) ;;
       items <~ lift (iter first_ten) ;;
       places <~ lift (mapM place_details items) ;;
       retM (dumps 2 (PList places)).

Definition search_places (query : string) : M string :=
  match api_key with
  | Some key =>
      if str_truthy key
      then try_exceptM (search_places_try query key)
             (fun e => retM ("Error searching places: " ++ exn_str repr e))
      else retM not_configured
  | None => retM not_configured
  end.

End Maps.

End SimplifiedMapTools.

(** * The specification's words and sample inputs *)

Import Py Json Dates FlightToolkit TourMoreAI.
Set Warnings "-notation-for-abbreviation".

(** ** Valid JSON: a reader for JSON text

    The reader follows the JSON grammar: white space between tokens,
    the literals [null], [true] and [false], numbers, strings with their
    escapes, arrays and objects.  A text is valid JSON when [parse_json]
    reads it, and the document it gives is what the text says.  An
    object is read as the list of its members in order. *)

Definition is_ws (c : ascii) : bool :=
  let n := nat_of_ascii c in
  ((n =? 32) || (n =? 10) || (n =? 13) || (n =? 9))%nat.

Fixpoint skip_ws (s : string) : string :=
  match s with
  | EmptyString => EmptyString
  | String c t => if is_ws c then skip_ws t else s
  end.

Definition is_digit (c : ascii) : bool :=
  let n := nat_of_ascii c in ((48 <=? n) && (n <=? 57))%nat.

Definition hex_value (c : ascii) : option nat :=
  let n := nat_of_ascii c in
  if ((48 <=? n) && (n <=? 57))%nat then Some (n - 48)%nat
  else if ((97 <=? n) && (n <=? 102))%nat then Some (n - 87)%nat
  else if ((65 <=? n) && (n <=? 70))%nat then Some (n - 55)%nat
  else None.

(** The character an escape [\e] stands for, for the one-letter escapes. *)
Definition simple_escape (e : ascii) : option ascii :=
  let n := nat_of_ascii e in
  if (n =? 34)%nat then Some (ascii_of_nat 34)
  else if (n =? 92)%nat then Some (ascii_of_nat 92)
  else if (n =? 47)%nat then Some (ascii_of_nat 47)
  else if (n =? 98)%nat then Some (ascii_of_nat 8)
  else if (n =? 102)%nat then Some (ascii_of_nat 12)
  else if (n =? 110)%nat then Some (ascii_of_nat 10)
  else if (n =? 114)%nat then Some (ascii_of_nat 13)
  else if (n =? 116)%nat then Some (ascii_of_nat 9)
  else None.

Definition cons_char (c : ascii) (r : option (string * string))
  : option (string * string) :=
  match r with
  | Some (x, rest) => Some (String c x, rest)
  | None => None
  end.

(** The string that starts after an opening quote, and what follows its
    closing quote.  Control characters must be escaped; [\uXXXX] is read
    for code points below 256. *)
Fixpoint read_string (s : string) : option (string * string) :=
  match s with
  | EmptyString => None
  | String c t =>
      let n := nat_of_ascii c in
      if (n =? 34)%nat then Some (EmptyString, t)
      else if (n =? 92)%nat
      then match t with
           | EmptyString => None
           | String e t' =>
               if (nat_of_ascii e =? 117)%nat
               then match t' with
                    | String h1 (String h2 (String h3 (String h4 t''))) =>
                        match hex_value h1, hex_value h2, hex_value h3,
                              hex_value h4 with
                        | Some a, Some b, Some x, Some y =>
                            if ((a =? 0) && (b =? 0))%nat
                            then cons_char (ascii_of_nat (16 * x + y))
                                           (read_string t'')
                            else None
                        | _, _, _, _ => None
                        end
                    | _ => None
                    end
               else match simple_escape e with
                    | Some c' => cons_char c' (read_string t')
                    | None => None
                    end
           end
      else if (n <? 32)%nat then None
      else cons_char c (read_string t)
  end.

(** Numbers: the longest run of number characters, checked against the
    grammar: an optional minus sign; a zero, or a digit from 1 to 9 and
    further digits; optionally a point and digits; optionally [e] or
    [E], an optional sign and digits. *)
Definition number_char (c : ascii) : bool :=
  let n := nat_of_ascii c in
  (is_digit c || (n =? 45) || (n =? 43) || (n =? 46) || (n =? 101)
   || (n =? 69))%nat.

Definition fraction_char (c : ascii) : bool :=
  let n := nat_of_ascii c in ((n =? 46) || (n =? 101) || (n =? 69))%nat.

Fixpoint span_number (s : string) : string * string :=
  match s with
  | EmptyString => (EmptyString, EmptyString)
  | String c t =>
      if number_char c
      then let (token, rest) := span_number t in (String c token, rest)
      else (EmptyString, s)
  end.

Fixpoint all_chars (p : ascii -> bool) (s : string) : bool :=
  match s with
  | EmptyString => true
  | String c t => p c && all_chars p t
  end.

Fixpoint skip_digits (s : string) : string :=
  match s with
  | EmptyString => EmptyString
  | String c t => if is_digit c then skip_digits t else s
  end.

Definition some_digits (s : string) : option string :=
  match s with
  | String c t => if is_digit c then Some (skip_digits t) else None
  | EmptyString => None
  end.

Definition int_part (s : string) : option string :=
  match s with
  | String c t =>
      if (nat_of_ascii c =? 48)%nat then Some t
      else if is_digit c then Some (skip_digits t)
      else None
  | EmptyString => None
  end.

Definition frac_part (s : string) : option string :=
  match s with
  | String c t => if (nat_of_ascii c =? 46)%nat then some_digits t else Some s
  | EmptyString => Some s
  end.

Definition exp_part (s : string) : option string :=
  match s with
  | String c t =>
      if ((nat_of_ascii c =? 101) || (nat_of_ascii c =? 69))%nat
      then match t with
           | String sign t' =>
               if ((nat_of_ascii sign =? 43) || (nat_of_ascii sign =? 45))%nat
               then some_digits t'
               else some_digits t
           | EmptyString => None
           end
      else Some s
  | EmptyString => Some s
  end.

Definition json_number (token : string) : bool :=
  let unsigned :=
    match token with
    | String c t => if (nat_of_ascii c =? 45)%nat then t else token
    | EmptyString => token
    end in
  match int_part unsigned with
  | Some r1 =>
      match frac_part r1 with
      | Some r2 =>
          match exp_part r2 with
          | Some EmptyString => true
          | _ => false
          end
      | None => false
      end
  | None => false
  end.

(** A number with a fraction or an exponent: the text of a float. *)
Definition float_literal (text : string) : bool :=
  all_chars number_char text
  && negb (all_chars (fun c => negb (fraction_char c)) text)
  && json_number text.

(** A number token: an integer (written without a plus sign or leading
    zeros; minus zero is allowed), or a float. *)
Definition read_number (s : string) : option (pyval * string) :=
  let (token, rest) := span_number s in
  if all_chars (fun c => negb (fraction_char c)) token
  then match NilZero.int_of_string token with
       | Some d =>
           if ((int_text (Z.of_int d) =? token) || (token =? "-0"))%string
           then Some (PInt (Z.of_int d), rest)
           else None
       | None => None
       end
  else if json_number token then Some (PFloat token, rest) else None.

Definition read_literal (s : string) : option (pyval * string) :=
  match s with
  | String "n" (String "u" (String "l" (String "l" rest))) => Some (PNone, rest)
  | String "t" (String "r" (String "u" (String "e" rest))) =>
      Some (PBool true, rest)
  | String "f" (String "a" (String "l" (String "s" (String "e" rest)))) =>
      Some (PBool false, rest)
  | _ => None
  end.

(** Values, the items of an array after its first, a member of an
    object, and the members after the first; [fuel] bounds the depth of
    the reading. *)
Fixpoint read_value (fuel : nat) (s : string) : option (pyval * string) :=
  match fuel with
  | O => None
  | S fuel' =>
      match s with
      | EmptyString => None
      | String c t =>
          let n := nat_of_ascii c in
          if (n =? 34)%nat
          then match read_string t with
               | Some (text, rest) => Some (PStr text, rest)
               | None => None
               end
          else if (n =? 91)%nat
          then match skip_ws t with
               | EmptyString => None
               | String c1 t1 =>
                   if (nat_of_ascii c1 =? 93)%nat then Some (PList [], t1)
                   else match read_value fuel' (String c1 t1) with
                        | Some (v, r1) =>
                            match read_items fuel' r1 with
                            | Some (vs, r2) => Some (PList (v :: vs), r2)
                            | None => None
                            end
                        | None => None
                        end
               end
          else if (n =? 123)%nat
          then match skip_ws t with
               | EmptyString => None
               | String c1 t1 =>
                   if (nat_of_ascii c1 =? 125)%nat then Some (PDict [], t1)
                   else match read_member fuel' (String c1 t1) with
                        | Some (kv, r1) =>
                            match read_members fuel' r1 with
                            | Some (kvs, r2) => Some (PDict (kv :: kvs), r2)
                            | None => None
                            end
                        | None => None
                        end
               end
          else if number_char c then read_number s
          else read_literal s
      end
  end
with read_items (fuel : nat) (s : string) : option (list pyval * string) :=
  match fuel with
  | O => None
  | S fuel' =>
      match skip_ws s with
      | EmptyString => None
      | String c t =>
          if (nat_of_ascii c =? 93)%nat then Some ([], t)
          else if (nat_of_ascii c =? 44)%nat
          then match read_value fuel' (skip_ws t) with
               | Some (v, r1) =>
                   match read_items fuel' r1 with
                   | Some (vs, r2) => Some (v :: vs, r2)
                   | None => None
                   end
               | None => None
               end
          else None
      end
  end
with read_member (fuel : nat) (s : string)
  : option ((string * pyval) * string) :=
  match fuel with
  | O => None
  | S fuel' =>
      match s with
      | EmptyString => None
      | String c t =>
          if (nat_of_ascii c =? 34)%nat
          then match read_string t with
               | Some (key, r1) =>
                   match skip_ws r1 with
                   | EmptyString => None
                   | String colon r2 =>
                       if (nat_of_ascii colon =? 58)%nat
                       then match read_value fuel' (skip_ws r2) with
                            | Some (v, r3) => Some ((key, v), r3)
                            | None => None
                            end
                       else None
                   end
               | None => None
               end
          else None
      end
  end
with read_members (fuel : nat) (s : string)
  : option (list (string * pyval) * string) :=
  match fuel with
  | O => None
  | S fuel' =>
      match skip_ws s with
      | EmptyString => None
      | String c t =>
          if (nat_of_ascii c =? 125)%nat then Some ([], t)
          else if (nat_of_ascii c =? 44)%nat
          then match read_member fuel' (skip_ws t) with
               | Some (kv, r1) =>
                   match read_members fuel' r1 with
                   | Some (kvs, r2) => Some (kv :: kvs, r2)
                   | None => None
                   end
               | None => None
               end
          else None
      end
  end.

(** The document of a text that holds one JSON value and nothing else. *)
Definition parse_json (text : string) : option pyval :=
  match read_value (S (String.length text)) (skip_ws text) with
  | Some (v, rest) =>
      match skip_ws rest with
      | EmptyString => Some v
      | _ => None
      end
  | None => None
  end.

(** A Python value that is JSON data: its floats are written as JSON
    numbers (finite, with a fraction or an exponent). *)
Fixpoint json_value (v : pyval) : bool :=
  match v with
  | PFloat text => float_literal text
  | PList xs =>
      (fix all (l : list pyval) : bool :=
         match l with
         | [] => true
         | x :: t => json_value x && all t
         end) xs
  | PDict kvs =>
      (fix all (l : list (string * pyval)) : bool :=
         match l with
         | [] => true
         | (_, x) :: t => json_value x && all t
         end) kvs
  | _ => true
  end.

(** The member of a JSON object read by its name; of two members with
    one name the later counts, as for [json.loads]. *)
Definition member (name : string) (members : list (string * pyval))
  : option pyval :=
  lookup name (rev members).

(** ** Reading the specification's words

    The definitions below follow the specification, not the code; the
    theorems compare the code with them. *)

(** [v] is a dict and binds [k]. *)
Definition field (k : string) (v : pyval) : option pyval :=
  match v with
  | PDict kvs => lookup k kvs
  | _ => None
  end.

Definition has (k : string) (v : pyval) : bool :=
  match field k v with
  | Some _ => true
  | None => false
  end.

(** "Missing optional fields default to a literal N/A marker." *)
Definition or_na (o : option pyval) : pyval :=
  match o with
  | Some v => v
  | None => PStr "N/A"
  end.

(** The tool's result "is valid JSON with a [count] field equal to the
    length of its [flights] list": the text reads as a JSON object whose
    [count] member is the number of items of its [flights] member. *)
Definition count_matches_flights (text : string) : Prop :=
  exists members flights,
    parse_json text = Some (PDict members)
    /\ member "count" members = Some (PInt (Z.of_nat (List.length flights)))
    /\ member "flights" members = Some (PList flights).

(** A return date that the tool accepts next to the departure date [dep]:
    none, or one that parses and does not precede it. *)
Definition return_date_accepted (repr : pyval -> string) (dep : date)
    (return_date : option string) : Prop :=
  match return_date with
  | None => True
  | Some r =>
      r = "" \/ exists back, strptime repr r = inr back /\ date_ltb back dep = false
  end.

(** The aircraft code of a raw segment, when it names one. *)
Definition aircraft_code (segment : pyval) : option pyval :=
  match field "aircraft" segment with
  | Some aircraft => field "code" aircraft
  | None => None
  end.

(** A raw segment, itinerary and offer that carry the fields the
    aggregator always sends (the optional ones may be absent). *)
Definition wf_segment (segment : pyval) : bool :=
  match field "departure" segment, field "arrival" segment with
  | Some departure, Some arrival =>
      has "iataCode" departure && has "at" departure
      && has "iataCode" arrival && has "at" arrival
      && has "carrierCode" segment && has "number" segment
      && match field "aircraft" segment with
         | None | Some (PDict _) => true
         | Some _ => false
         end
  | _, _ => false
  end.

Definition wf_itinerary (itinerary : pyval) : bool :=
  match field "segments" itinerary with
  | Some (PList segments) => forallb wf_segment segments
  | _ => false
  end.

Definition wf_offer (offer : pyval) : bool :=
  has "id" offer
  && match field "price" offer with
     | Some price => has "total" price && has "currency" price
     | None => false
     end
  && match field "itineraries" offer with
     | Some (PList itineraries) => forallb wf_itinerary itineraries
     | _ => false
     end.

(** The [data] of a non-error answer: nothing, or a list of offers. *)
Definition wf_data (data : pyval) : bool :=
  match data with
  | PNone => true
  | PList offers => forallb wf_offer offers
  | _ => false
  end.

(** The reshaped segment, itinerary and offer of the specification:
    required fields copied, absent optional ones replaced by N/A. *)
Inductive rendered_segment : pyval -> pyval -> Prop :=
| rendered_segment_intro
    segment departure arrival dep_iata dep_at arr_iata arr_at carrier number :
    field "departure" segment = Some departure ->
    field "arrival" segment = Some arrival ->
    field "iataCode" departure = Some dep_iata ->
    field "at" departure = Some dep_at ->
    field "iataCode" arrival = Some arr_iata ->
    field "at" arrival = Some arr_at ->
    field "carrierCode" segment = Some carrier ->
    field "number" segment = Some number ->
    rendered_segment segment
      (PDict [("departure", PDict [("iataCode", dep_iata);
                                   ("terminal", or_na (field "terminal" departure));
                                   ("at", dep_at)]);
              ("arrival", PDict [("iataCode", arr_iata);
                                 ("terminal", or_na (field "terminal" arrival));
                                 ("at", arr_at)]);
              ("carrierCode", carrier);
              ("flightNumber", number);
              ("aircraft", or_na (aircraft_code segment));
              ("duration", or_na (field "duration" segment))]).

Inductive rendered_itinerary : pyval -> pyval -> Prop :=
| rendered_itinerary_intro itinerary raw_segments segments :
    field "segments" itinerary = Some (PList raw_segments) ->
    Forall2 rendered_segment raw_segments segments ->
    rendered_itinerary itinerary
      (PDict [("duration", or_na (field "duration" itinerary));
              ("segments", PList segments)]).

Inductive rendered_offer : pyval -> pyval -> Prop :=
| rendered_offer_intro offer id price total currency raw_itineraries itineraries :
    field "id" offer = Some id ->
    field "price" offer = Some price ->
    field "total" price = Some total ->
    field "currency" price = Some currency ->
    field "itineraries" offer = Some (PList raw_itineraries) ->
    Forall2 rendered_itinerary raw_itineraries itineraries ->
    rendered_offer offer
      (PDict [("id", id);
              ("price", PDict [("total", total); ("currency", currency)]);
              ("itineraries", PList itineraries)]).



(** The text [search_flights] returns for an exception of its [try] block. *)
Definition error_text (repr : pyval -> string) (json_loads : string -> option pyval)
    (e : exn) : string :=
  match e with
  | ResponseError r =>
      "Error searching flights: " ++ _parse_error_response repr json_loads r
  | ValueError message => "Validation error: " ++ message
  | _ => "An unexpected error occurred: " ++ exn_str repr e
  end.

(** The last notification of a run, and the agents it ran, in order. *)
Fixpoint final_message (trace : list step) : option RunResponse :=
  match trace with
  | [] => None
  | Yielded r :: rest =>
      match final_message rest with
      | Some r' => Some r'
      | None => Some r
      end
  | Ran _ _ :: rest => final_message rest
  end.

Fixpoint agents_run (trace : list step) : list agent :=
  match trace with
  | [] => []
  | Yielded _ :: rest => agents_run rest
  | Ran a _ :: rest => a :: agents_run rest
  end.

(** "No intent available": the remote call raised, or gave no response,
    or a response without content. *)
Definition no_intent (outcome : agent_outcome) : Prop :=
  match outcome with
  | Fails _ | Returns None | Returns (Some CNone) => True
  | Returns (Some _) => False
  end.

(** "The invariant: [departure_date] does not precede today." *)
Definition departs_today_or_later (repr : pyval -> string) (today : date)
    (f : FlightDetails) : Prop :=
  exists d, strptime repr (fd_departure_date f) = inr d /\ date_ltb d today = false.

(** ** Further notions used by the properties of the code *)

Import SimplifiedMapTools.

(** The four digits [strftime] prints for the year [y] read back as [y]. *)
Definition year_reads_back (y : Z) : bool :=
  match digits 4 y with
  | String a (String b (String c (String e EmptyString))) =>
      match digit a, digit b, digit c, digit e with
      | Some x1, Some x2, Some x3, Some x4 =>
          1000 * x1 + 100 * x2 + 10 * x3 + x4 =? y
      | _, _, _, _ => false
      end
  | _ => false
  end.

(** The month and day [strftime] prints read back as [m] and [d]. *)
Definition month_day_reads_back (m d : Z) : bool :=
  match first_day (match_month (digits 2 m ++ "-" ++ digits 2 d)) with
  | Some (m', d', rest) => (m' =? m) && (d' =? d) && (rest =? "")%string
  | None => false
  end.

Definition range (first : nat) (count : nat) : list Z :=
  map Z.of_nat (seq first count).

(** The departure date is empty or parses. *)
Definition departure_date_accepted (repr : pyval -> string)
    (departure_date : string) : Prop :=
  departure_date = "" \/ exists d, strptime repr departure_date = inr d.

(** The return date is absent, empty, or parses and -- when a departure
    date is given -- is not before it. *)
Definition return_date_admitted (repr : pyval -> string)
    (departure_date : string) (return_date : option string) : Prop :=
  match return_date with
  | None => True
  | Some r =>
      r = ""
      \/ exists back,
           strptime repr r = inr back
           /\ (departure_date = ""
               \/ exists d, strptime repr departure_date = inr d
                            /\ date_ltb back d = false)
  end.

(** A raw place [search_places] can reshape: an object whose [types],
    when present, is a list of strings. *)
Definition all_str (l : list pyval) : bool :=
  forallb (fun v => match v with PStr _ => true | _ => false end) l.

Definition wf_place (place : pyval) : bool :=
  match place with
  | PDict kvs =>
      match lookup "types" kvs with
      | None => true
      | Some (PList l) => all_str l
      | Some _ => false
      end
  | _ => false
  end.

Definition strings_of (l : list pyval) : list string :=
  flat_map (fun v => match v with PStr s => [s] | _ => [] end) l.

Definition or_default (default : pyval) (o : option pyval) : pyval :=
  match o with
  | Some v => v
  | None => default
  end.

(** The entry [search_places] lists for a raw place. *)
Definition place_summary (place : pyval) : pyval :=
  PDict [("name", or_default (PStr "Unknown") (field "name" place));
         ("address", or_default (PStr "No address")
                                (field "formatted_address" place));
         ("rating", or_default (PInt 0) (field "rating" place));
         ("total_ratings", or_default (PInt 0)
                                      (field "user_ratings_total" place));
         ("type", PStr (String.concat ", "
                          (match field "types" place with
                           | Some (PList l) => strings_of l
                           | _ => ["Unknown"]
                           end)))].

(** The steps of a run that are notifications. *)
Fixpoint yields (trace : list step) : list RunResponse :=
  match trace with
  | [] => []
  | Yielded r :: rest => r :: yields rest
  | Ran _ _ :: rest => yields rest
  end.

Definition is_completed (r : RunResponse) : bool :=
  match rr_event r with
  | workflow_completed => true
  | run_response => false
  end.

(** What one step method does to the trace: nothing, or one run of its
    own agent. *)
Definition ran_at_most (a : agent) (trace trace' : list step) : Prop :=
  trace' = trace \/ exists message, trace' = (trace ++ [Ran a message])%list.

(** The content a step takes from its agent, [default] when the agent
    raises or gives no response. *)
Definition content_or (default : content) (outcome : agent_outcome) : content :=
  match outcome with
  | Returns (Some c) => c
  | _ => default
  end.

(** The agent raises, gives no response, or a response without content. *)
Definition gives_nothing (outcome : agent_outcome) : Prop :=
  content_or CNone outcome = CNone.

(** How the reader meets what [json.dumps] prints: the first character of a token is not
    white space, and a number ends where no number character follows. *)
Definition starts_token (s : string) : bool :=
  match s with
  | String c _ => negb (is_ws c)
  | EmptyString => false
  end.

Definition stops_number (s : string) : bool :=
  match s with
  | String c _ => negb (number_char c)
  | EmptyString => true
  end.

(** The number of values and members in a document, itself included. *)
Fixpoint size (v : pyval) : nat :=
  match v with
  | PList xs =>
      S ((fix sum (l : list pyval) : nat :=
            match l with
            | [] => O
            | x :: t => (size x + sum t)%nat
            end) xs)
  | PDict kvs =>
      S ((fix sum (l : list (string * pyval)) : nat :=
            match l with
            | [] => O
            | (_, x) :: t => S (size x + sum t)
            end) kvs)
  | _ => 1%nat
  end.

Definition sizes (l : list pyval) : nat :=
  fold_right (fun x n => (size x + n)%nat) O l.

Definition member_sizes (l : list (string * pyval)) : nat :=
  fold_right (fun kv n => S (size (snd kv) + n)) O l.

(** The items of a printed array after its first, and the members of a
    printed object after its first, as [encode] writes them. *)
Section Printed.
Variables indent level : nat.

Fixpoint encode_items (l : list pyval) : string :=
  match l with
  | [] => EmptyString
  | y :: t =>
      "," ++ newline_indent indent level ++ encode indent level y
      ++ encode_items t
  end.

Fixpoint encode_members (l : list (string * pyval)) : string :=
  match l with
  | [] => EmptyString
  | (k, y) :: t =>
      "," ++ newline_indent indent level ++ encode_string k ++ ": "
      ++ encode indent level y ++ encode_members t
  end.

End Printed.

(** The characters of a printed integer. *)
Definition int_char (c : ascii) : bool :=
  (is_digit c || (nat_of_ascii c =? 45)%nat).

(** ** Sample inputs *)

(** A [repr] that quotes strings the way Python does for text without
    quotes or escapes. *)
Definition sample_repr (v : pyval) : string :=
  match v with
  | PStr s => "'" ++ s ++ "'"
  | PNone => "None"
  | _ => "<object>"
  end.

Definition today : date := mk_date 2025 6 1.

Definition sample_segment : pyval :=
  PDict [("departure", PDict [("iataCode", PStr "JFK");
                              ("at", PStr "2025-07-01T18:30:00")]);
         ("arrival", PDict [("iataCode", PStr "LHR");
                            ("terminal", PStr "5");
                            ("at", PStr "2025-07-02T06:45:00")]);
         ("carrierCode", PStr "BA");
         ("number", PStr "112")].

Definition sample_offer : pyval :=
  PDict [("id", PStr "1");
         ("price", PDict [("total", PStr "45210.00"); ("currency", PStr "INR")]);
         ("itineraries", PList [PDict [("segments", PList [sample_segment])]])].

Definition one_offer (_ : kwargs) : remote_outcome :=
  Response (PList [sample_offer]).

(** An answer whose single offer lacks every field. *)
Definition empty_offer (_ : kwargs) : remote_outcome :=
  Response (PList [PDict []]).

Definition sample_error_document : pyval :=
  PDict [("errors",
          PList [PDict [("status", PInt 400);
                        ("code", PInt 425);
                        ("title", PStr "INVALID DATE");
                        ("detail", PStr "Date/Time is in the past");
                        ("source", PDict [("parameter", PStr "departureDate")])]])].

Definition sample_error_body : string := dumps 0 sample_error_document.

Definition sample_loads (body : string) : option pyval :=
  if (body =? sample_error_body)%string then Some sample_error_document else None.



Definition sample_travel_info : TravelInfo :=
  mk_TravelInfo "Paris" "5 days" "next July" "tourism" "budget" None.

Definition past_flight : FlightDetails :=
  mk_FlightDetails "JFK" "CDG" "2020-01-01" None
                   "BA112 18:30, INR 45210" "BA112".

(** Agents: the extractor answers with clarifying questions as text. *)
Definition asks_back (_ : list step) (_ : agent) (_ : string) : agent_outcome :=
  Returns (Some (CStr "Which city would you like to visit, and when?")).

(** Agents: intent and flights are found; the destination agent answers
    without content. *)
Definition silent_destination (_ : list step) (a : agent) (_ : string)
  : agent_outcome :=
  match a with
  | travel_info_agent => Returns (Some (CTravelInfo sample_travel_info))
  | flight_search_agent => Returns (Some (CFlightDetails past_flight))
  | destination_info_agent => Returns (Some CNone)
  | _ => Returns (Some (CStr "Day 1: arrive in Paris."))
  end.

(** Agents: intent and flights are found; the destination agent throws. *)
Definition failing_destination (_ : list step) (a : agent) (_ : string)
  : agent_outcome :=
  match a with
  | travel_info_agent => Returns (Some (CTravelInfo sample_travel_info))
  | flight_search_agent => Returns (Some (CFlightDetails past_flight))
  | destination_info_agent => Fails (OtherError "API key missing")
  | _ => Returns (Some (CStr "Day 1: arrive in Paris."))
  end.

(** Further sample inputs. *)

Definition louvre : pyval :=
  PDict [("name", PStr "Louvre Museum");
         ("formatted_address", PStr "Rue de Rivoli, 75001 Paris");
         ("rating", PFloat "4.7");
         ("user_ratings_total", PInt 300000);
         ("types", PList [PStr "museum"; PStr "tourist_attraction"])].

Definition two_places (_ : kwargs) : remote_outcome :=
  Response (PDict [("status", PStr "OK");
                   ("results", PList [louvre; PDict [("name", PStr "Cafe")]])]).

Definition request_denied (_ : kwargs) : remote_outcome :=
  Response (PDict [("status", PStr "REQUEST_DENIED");
                   ("error_message", PStr "The provided API key is invalid.")]).

Definition unreachable (_ : kwargs) : remote_outcome :=
  Raises (OtherError "Connection refused").

(** An answer whose second offer lacks every field. *)
Definition second_offer_empty (_ : kwargs) : remote_outcome :=
  Response (PList [sample_offer; PDict []; sample_offer]).

Definition upcoming_flight : FlightDetails :=
  mk_FlightDetails "JFK" "CDG" "2025-07-01" (Some "2025-07-06")
                   "BA112 18:30, INR 45210; AF007 19:10, INR 47800" "BA112".

Definition paris : DestinationInfo :=
  mk_DestinationInfo "Hotel du Nord (4.3)" "Chez Janou (4.5)"
                     "Louvre, Orsay" "Metro line 1" None.

(** Agents: every step answers. *)
Definition all_answer (_ : list step) (a : agent) (_ : string) : agent_outcome :=
  match a with
  | travel_info_agent => Returns (Some (CTravelInfo sample_travel_info))
  | flight_search_agent => Returns (Some (CFlightDetails upcoming_flight))
  | destination_info_agent => Returns (Some (CDestinationInfo paris))
  | _ => Returns (Some (CStr "Day 1: arrive in Paris."))
  end.

(** Agents: the flight search raises. *)
Definition flights_down (_ : list step) (a : agent) (_ : string) : agent_outcome :=
  match a with
  | travel_info_agent => Returns (Some (CTravelInfo sample_travel_info))
  | flight_search_agent => Fails (OtherError "rate limit")
  | destination_info_agent => Returns (Some (CDestinationInfo paris))
  | _ => Returns (Some (CStr "Day 1: arrive in Paris."))
  end.

(** Agents: the itinerary agent raises. *)
Definition planner_down (_ : list step) (a : agent) (_ : string) : agent_outcome :=
  match a with
  | travel_info_agent => Returns (Some (CTravelInfo sample_travel_info))
  | flight_search_agent => Returns (Some (CFlightDetails upcoming_flight))
  | destination_info_agent => Returns (Some (CDestinationInfo paris))
  | _ => Fails (OtherError "context length exceeded")
  end.

(** Agents: the flight search answers with text. *)
Definition flights_as_text (_ : list step) (a : agent) (_ : string)
  : agent_outcome :=
  match a with
  | travel_info_agent => Returns (Some (CTravelInfo sample_travel_info))
  | flight_search_agent => Returns (Some (CStr "I found three flights."))
  | destination_info_agent => Returns (Some (CDestinationInfo paris))
  | _ => Returns (Some (CStr "Day 1: arrive in Paris."))
  end.

(** An OK answer whose second place has a number among its [types]. *)
Definition second_place_odd (_ : kwargs) : remote_outcome :=
  Response (PDict [("status", PStr "OK");
                   ("results",
                    PList [louvre;
                           PDict [("name", PStr "Cafe");
                                  ("types", PList [PStr "cafe"; PInt 7])]])]).

(** Agents: the extractor raises. *)
Definition extractor_down (_ : list step) (_ : agent) (_ : string)
  : agent_outcome :=
  Fails (OtherError "model unavailable").

(** What [sample_offer] is reshaped to. *)
Definition reshaped_sample_offer : pyval :=
  PDict [("id", PStr "1");
         ("price", PDict [("total", PStr "45210.00"); ("currency", PStr "INR")]);
         ("itineraries",
          PList [PDict [("duration", PStr "N/A");
                        ("segments",
                         PList [PDict [("departure",
                                        PDict [("iataCode", PStr "JFK");
                                               ("terminal", PStr "N/A");
                                               ("at", PStr "2025-07-01T18:30:00")]);
                                       ("arrival",
                                        PDict [("iataCode", PStr "LHR");
                                               ("terminal", PStr "5");
                                               ("at", PStr "2025-07-02T06:45:00")]);
                                       ("carrierCode", PStr "BA");
                                       ("flightNumber", PStr "112");
                                       ("aircraft", PStr "N/A");
                                       ("duration", PStr "N/A")]])]])].

(** A segment whose [aircraft] is null, an offer with that segment, and
    the answer that offers it. *)
Definition null_aircraft_segment : pyval :=
  PDict [("departure", PDict [("iataCode", PStr "JFK");
                              ("at", PStr "2025-07-01T18:30:00")]);
         ("arrival", PDict [("iataCode", PStr "LHR");
                            ("at", PStr "2025-07-02T06:45:00")]);
         ("carrierCode", PStr "BA");
         ("number", PStr "112");
         ("aircraft", PNone)].

Definition null_aircraft_offer : pyval :=
  PDict [("id", PStr "1");
         ("price", PDict [("total", PStr "45210.00"); ("currency", PStr "INR")]);
         ("itineraries",
          PList [PDict [("segments", PList [null_aircraft_segment])]])].

Definition null_aircraft (_ : kwargs) : remote_outcome :=
  Response (PList [null_aircraft_offer]).

(** * The reader reads what [json.dumps] prints *)

Section ReaderProperties.

Lemma append_assoc (a b c : string) : (a ++ b) ++ c = a ++ (b ++ c).
Proof. induction a as [|x a IH]; cbn; [reflexivity | now rewrite IH]. Qed.

Lemma length_append (a b : string) :
  String.length (a ++ b) = (String.length a + String.length b)%nat.
Proof. induction a as [|x a IH]; cbn; [reflexivity | now rewrite IH]. Qed.

Lemma skip_ws_spaces (n : nat) (s : string) :
  skip_ws (spaces n ++ s) = skip_ws s.
Proof. induction n as [|n IH]; cbn; [reflexivity | exact IH]. Qed.

Lemma skip_ws_indent (indent level : nat) (s : string) :
  skip_ws (newline_indent indent level ++ s) = skip_ws s.
Proof.
  unfold newline_indent. rewrite append_assoc.
  change (newline ++ (spaces (indent * level) ++ s))
    with (String (ascii_of_nat 10) (spaces (indent * level) ++ s)).
  cbn [skip_ws]. change (is_ws (ascii_of_nat 10)) with true. cbn iota.
  apply skip_ws_spaces.
Qed.

Lemma skip_ws_token (s : string) : starts_token s = true -> skip_ws s = s.
Proof.
  destruct s as [|c t]; cbn; [discriminate|].
  destruct (is_ws c); [discriminate | reflexivity].
Qed.

Lemma all_chars_impl (p q : ascii -> bool) (s : string) :
  (forall c, p c = true -> q c = true) ->
  all_chars p s = true -> all_chars q s = true.
Proof.
  intros Hpq. induction s as [|c t IH]; cbn; [reflexivity|].
  intros H. apply andb_true_iff in H as [Hc Ht].
  now rewrite (Hpq c Hc), (IH Ht).
Qed.

Lemma span_number_token (token rest : string) :
  all_chars number_char token = true -> stops_number rest = true ->
  span_number (token ++ rest) = (token, rest).
Proof.
  intros Ht Hr. induction token as [|c t IH]; cbn in *.
  - destruct rest as [|c r]; cbn in *; [reflexivity|].
    destruct (number_char c); [discriminate | reflexivity].
  - apply andb_true_iff in Ht as [Hc Ht]. rewrite Hc, (IH Ht). reflexivity.
Qed.

(** *** Numbers *)

Lemma uint_chars (u : Decimal.uint) :
  all_chars is_digit (NilEmpty.string_of_uint u) = true.
Proof. induction u; cbn; auto. Qed.

Lemma int_text_chars (n : Z) : all_chars int_char (int_text n) = true.
Proof.
  assert (Hu : forall u, all_chars int_char (NilZero.string_of_uint u) = true).
  { intros u. destruct u; try reflexivity;
      apply (all_chars_impl is_digit); try apply uint_chars;
      intros c Hc; unfold int_char; now rewrite Hc. }
  unfold int_text, NilZero.string_of_int.
  destruct (Z.to_int n) as [u|u]; [apply Hu|].
  cbn [all_chars]. rewrite Hu. reflexivity.
Qed.

Lemma int_char_cases (c : ascii) :
  int_char c = true -> number_char c = true /\ fraction_char c = false.
Proof.
  destruct c as [[] [] [] [] [] [] [] []]; vm_compute;
    (discriminate || (intros _; split; reflexivity)).
Qed.

Lemma number_char_cases (c : ascii) :
  number_char c = true ->
  (nat_of_ascii c =? 34)%nat = false /\ (nat_of_ascii c =? 91)%nat = false
  /\ (nat_of_ascii c =? 123)%nat = false /\ (nat_of_ascii c =? 93)%nat = false
  /\ is_ws c = false.
Proof.
  destruct c as [[] [] [] [] [] [] [] []]; vm_compute;
    (discriminate || (intros _; repeat split; reflexivity)).
Qed.

Lemma to_int_proper (n : Z) :
  Z.to_int n <> Decimal.Pos Decimal.Nil /\ Z.to_int n <> Decimal.Neg Decimal.Nil.
Proof.
  destruct n as [|p|p]; cbn; split; try discriminate;
    intros H; injection H as H;
    now apply (DecimalPos.Unsigned.to_uint_nonnil p).
Qed.

Lemma int_text_reads (n : Z) :
  NilZero.int_of_string (int_text n) = Some (Z.to_int n).
Proof.
  unfold int_text. destruct (to_int_proper n) as [Hp Hn].
  now apply NilZero.isi.
Qed.

Lemma read_number_int (n : Z) (rest : string) :
  stops_number rest = true ->
  read_number (int_text n ++ rest) = Some (PInt n, rest).
Proof.
  intros Hr. unfold read_number.
  rewrite span_number_token; trivial.
  2:{ apply (all_chars_impl int_char); [|apply int_text_chars].
      intros c Hc. now apply int_char_cases. }
  replace (all_chars (fun c => negb (fraction_char c)) (int_text n)) with true.
  2:{ symmetry. apply (all_chars_impl int_char); [|apply int_text_chars].
      intros c Hc. apply int_char_cases in Hc as [_ Hc]. now rewrite Hc. }
  rewrite int_text_reads, DecimalZ.of_to, String.eqb_refl. reflexivity.
Qed.

Lemma read_number_float (text rest : string) :
  float_literal text = true -> stops_number rest = true ->
  read_number (text ++ rest) = Some (PFloat text, rest).
Proof.
  intros Hf Hr. unfold float_literal in Hf.
  apply andb_true_iff in Hf as [Hf Hj]. apply andb_true_iff in Hf as [Hc Hn].
  unfold read_number. rewrite span_number_token; trivial.
  apply negb_true_iff in Hn. rewrite Hn, Hj. reflexivity.
Qed.

Lemma read_value_number (fuel : nat) (c : ascii) (t : string) :
  number_char c = true ->
  read_value (S fuel) (String c t) = read_number (String c t).
Proof.
  intros Hc. destruct (number_char_cases c Hc) as (H1 & H2 & H3 & _ & _).
  cbn [read_value]. cbv zeta. rewrite H1, H2, H3, Hc. reflexivity.
Qed.

Lemma int_text_head (n : Z) :
  exists c t, int_text n = String c t /\ number_char c = true.
Proof.
  pose proof (int_text_chars n) as Hc. pose proof (int_text_reads n) as Hr.
  destruct (int_text n) as [|c t]; [discriminate|].
  exists c, t. split; [reflexivity|]. cbn in Hc.
  apply andb_true_iff in Hc as [Hc _]. now apply int_char_cases.
Qed.

Lemma float_head (text : string) :
  float_literal text = true ->
  exists c t, text = String c t /\ number_char c = true.
Proof.
  intros Hf. destruct text as [|c t]; [discriminate|].
  exists c, t. split; [reflexivity|]. unfold float_literal in Hf. cbn in Hf.
  destruct (number_char c); [reflexivity | discriminate].
Qed.

(** *** Strings *)

Lemma read_string_step (c : ascii) (tail : string) :
  read_string (escape_char c ++ tail) = cons_char c (read_string tail).
Proof. destruct c as [[] [] [] [] [] [] [] []]; reflexivity. Qed.

Lemma read_string_escape (s rest : string) :
  read_string (escape s ++ dquote ++ rest) = Some (s, rest).
Proof.
  induction s as [|c s IH]; [reflexivity|].
  cbn [escape]. rewrite append_assoc, read_string_step, IH. reflexivity.
Qed.

Lemma read_encoded_string (s rest : string) :
  exists t, encode_string s ++ rest = String (ascii_of_nat 34) t
            /\ read_string t = Some (s, rest).
Proof.
  exists (escape s ++ dquote ++ rest). split.
  - unfold encode_string. now rewrite !append_assoc.
  - apply read_string_escape.
Qed.

(** *** Documents *)

Lemma size_list (xs : list pyval) : size (PList xs) = S (sizes xs).
Proof.
  reflexivity.
Qed.

Lemma size_dict (kvs : list (string * pyval)) :
  size (PDict kvs) = S (member_sizes kvs).
Proof.
  cbn [size]. f_equal. induction kvs as [|[k x] t IH]; cbn; [reflexivity|].
  now rewrite IH.
Qed.

Lemma size_positive (v : pyval) : (1 <= size v)%nat.
Proof. destruct v; cbn [size]; lia. Qed.

Lemma json_list (xs : list pyval) :
  json_value (PList xs) = forallb json_value xs.
Proof.
  reflexivity.
Qed.

Lemma json_dict (kvs : list (string * pyval)) :
  json_value (PDict kvs) = forallb (fun kv => json_value (snd kv)) kvs.
Proof.
  cbn [json_value]. induction kvs as [|[k x] t IH]; cbn; [reflexivity|].
  now rewrite IH.
Qed.

Lemma encode_list (indent level : nat) (x : pyval) (xs : list pyval) :
  encode indent level (PList (x :: xs))
  = "[" ++ newline_indent indent (S level) ++ encode indent (S level) x
    ++ encode_items indent (S level) xs ++ newline_indent indent level ++ "]".
Proof.
  reflexivity.
Qed.

Lemma encode_dict (indent level : nat) (k : string) (x : pyval)
      (kvs : list (string * pyval)) :
  encode indent level (PDict ((k, x) :: kvs))
  = "{" ++ newline_indent indent (S level) ++ encode_string k ++ ": "
    ++ encode indent (S level) x ++ encode_members indent (S level) kvs
    ++ newline_indent indent level ++ "}".
Proof.
  reflexivity.
Qed.

Lemma encode_starts (indent level : nat) (v : pyval) (rest : string) :
  json_value v = true ->
  exists c t, encode indent level v ++ rest = String c t
              /\ is_ws c = false /\ (nat_of_ascii c =? 93)%nat = false.
Proof.
  intros Hj. destruct v as [|[]|n|text|s|[|x xs]|[|[k x] kvs]];
    try (eexists _, _; repeat split; reflexivity).
  - destruct (int_text_head n) as (c & t & E & Hc). cbn [encode]. rewrite E.
    exists c, (t ++ rest). split; [reflexivity|].
    split; now apply number_char_cases.
  - destruct (float_head text Hj) as (c & t & E & Hc). cbn [encode]. rewrite E.
    exists c, (t ++ rest). split; [reflexivity|].
    split; now apply number_char_cases.
Qed.

Lemma skip_ws_encode (indent level : nat) (v : pyval) (rest : string) :
  json_value v = true ->
  skip_ws (encode indent level v ++ rest) = encode indent level v ++ rest.
Proof.
  intros Hj.
  destruct (encode_starts indent level v rest Hj) as (c & t & E & Hc & _).
  rewrite E. cbn [skip_ws]. now rewrite Hc.
Qed.

Lemma items_stop (indent level outer : nat) (l : list pyval) (close rest : string) :
  stops_number (encode_items indent level l
                ++ newline_indent indent outer ++ close ++ rest) = true.
Proof. destruct l; reflexivity. Qed.

Lemma members_stop (indent level outer : nat) (l : list (string * pyval))
      (close rest : string) :
  stops_number (encode_members indent level l
                ++ newline_indent indent outer ++ close ++ rest) = true.
Proof. destruct l as [|[k y] t]; reflexivity. Qed.

Section Step.
Variable bound : nat.
Hypothesis read_smaller :
  forall (v : pyval) (indent level fuel : nat) (rest : string),
    (size v <= bound)%nat -> json_value v = true -> stops_number rest = true ->
    (size v <= fuel)%nat ->
    read_value fuel (encode indent level v ++ rest) = Some (v, rest).

Lemma read_items_encode (indent level outer : nat) (l : list pyval)
      (fuel : nat) (rest : string) :
  (sizes l <= bound)%nat -> forallb json_value l = true ->
  (S (sizes l) <= fuel)%nat ->
  read_items fuel (encode_items indent level l
                   ++ newline_indent indent outer ++ "]" ++ rest)
  = Some (l, rest).
Proof.
  revert fuel. induction l as [|y t IH]; intros fuel Hb Hj Hf;
    (destruct fuel as [|fuel]; [lia|]).
  - cbn [encode_items append read_items]. rewrite skip_ws_indent. reflexivity.
  - cbn [sizes fold_right] in Hb, Hf. fold (sizes t) in Hb, Hf.
    cbn [forallb] in Hj. apply andb_true_iff in Hj as [Hy Ht].
    pose proof (size_positive y) as Hp.
    cbn [encode_items]. rewrite !append_assoc.
    cbn [append read_items skip_ws].
    change (is_ws ",") with false. cbv iota.
    change (nat_of_ascii "," =? 93)%nat with false.
    change (nat_of_ascii "," =? 44)%nat with true. cbv iota.
    rewrite skip_ws_indent, skip_ws_encode by exact Hy.
    rewrite read_smaller; trivial; try lia;
      [|apply (items_stop indent level outer t "]" rest)].
    rewrite IH; trivial; lia.
Qed.

Lemma read_member_encode (indent level : nat) (k : string) (y : pyval)
      (fuel : nat) (rest : string) :
  (size y <= bound)%nat -> json_value y = true -> stops_number rest = true ->
  (S (size y) <= fuel)%nat ->
  read_member fuel (encode_string k ++ ": " ++ encode indent level y ++ rest)
  = Some ((k, y), rest).
Proof.
  intros Hb Hj Hr Hf. destruct fuel as [|fuel]; [lia|].
  destruct (read_encoded_string k (": " ++ encode indent level y ++ rest))
    as (t & E & R).
  rewrite E. cbn [read_member]. change (nat_of_ascii (ascii_of_nat 34) =? 34)%nat with true.
  cbv iota. rewrite R. cbn [append skip_ws].
  change (is_ws ":") with false. cbv iota.
  change (nat_of_ascii ":" =? 58)%nat with true. cbv iota.
  change (skip_ws (String " " (encode indent level y ++ rest)))
    with (skip_ws (encode indent level y ++ rest)).
  rewrite skip_ws_encode by exact Hj.
  rewrite read_smaller; trivial; lia.
Qed.

Lemma read_members_encode (indent level outer : nat)
      (l : list (string * pyval)) (fuel : nat) (rest : string) :
  (member_sizes l <= bound)%nat ->
  forallb (fun kv => json_value (snd kv)) l = true ->
  (S (S (member_sizes l)) <= fuel)%nat ->
  read_members fuel (encode_members indent level l
                     ++ newline_indent indent outer ++ "}" ++ rest)
  = Some (l, rest).
Proof.
  revert fuel. induction l as [|[k y] t IH]; intros fuel Hb Hj Hf;
    (destruct fuel as [|fuel]; [lia|]).
  - cbn [encode_members append read_members]. rewrite skip_ws_indent.
    reflexivity.
  - cbn [member_sizes fold_right snd] in Hb, Hf. fold (member_sizes t) in Hb, Hf.
    cbn [forallb snd] in Hj. apply andb_true_iff in Hj as [Hy Ht].
    pose proof (size_positive y) as Hp.
    cbn [encode_members]. rewrite !append_assoc.
    cbn [append read_members skip_ws].
    change (is_ws ",") with false. cbv iota.
    change (nat_of_ascii "," =? 125)%nat with false.
    change (nat_of_ascii "," =? 44)%nat with true. cbv iota.
    rewrite skip_ws_indent.
    assert (Hk : skip_ws (encode_string k ++ String ":" (String " "
                   (encode indent level y ++ encode_members indent level t
                    ++ newline_indent indent outer ++ String "}" rest)))
                 = encode_string k ++ ": " ++ encode indent level y
                   ++ (encode_members indent level t
                       ++ newline_indent indent outer ++ "}" ++ rest)).
    { reflexivity. }
    rewrite Hk, read_member_encode; trivial; try lia;
      [|apply (members_stop indent level outer t "}" rest)].
    rewrite IH; trivial; lia.
Qed.

End Step.

Lemma read_value_encode (bound : nat) :
  forall (v : pyval) (indent level fuel : nat) (rest : string),
    (size v <= bound)%nat -> json_value v = true -> stops_number rest = true ->
    (size v <= fuel)%nat ->
    read_value fuel (encode indent level v ++ rest) = Some (v, rest).
Proof.
  induction bound as [|bound IH]; intros v indent level fuel rest Hb Hj Hr Hf.
  { pose proof (size_positive v). lia. }
  pose proof (size_positive v) as Hp.
  destruct fuel as [|fuel]; [lia|].
  destruct v as [|[]|n|text|s|[|x xs]|[|[k x] kvs]]; try reflexivity.
  - destruct (int_text_head n) as (c & t & E & Hc).
    cbn [encode]. pose proof (read_number_int n rest Hr) as R.
    rewrite E in *. cbn [append] in *. now rewrite read_value_number.
  - destruct (float_head text Hj) as (c & t & E & Hc).
    cbn [encode]. pose proof (read_number_float text rest Hj Hr) as R.
    rewrite E in *. cbn [append] in *. now rewrite read_value_number.
  - cbn [encode]. destruct (read_encoded_string s rest) as (t & E & R).
    rewrite E. cbn [read_value]. cbv zeta.
    change (nat_of_ascii (ascii_of_nat 34) =? 34)%nat with true. cbv iota.
    now rewrite R.
  - rewrite size_list in Hb, Hf. cbn [sizes fold_right] in Hb, Hf.
    fold (sizes xs) in Hb, Hf.
    rewrite json_list in Hj. cbn [forallb] in Hj.
    apply andb_true_iff in Hj as [Hx Hxs].
    pose proof (size_positive x) as Hpx.
    rewrite encode_list, !append_assoc. cbn [append read_value]. cbv zeta.
    change (nat_of_ascii "[" =? 34)%nat with false.
    change (nat_of_ascii "[" =? 91)%nat with true. cbv iota.
    rewrite skip_ws_indent, skip_ws_encode by exact Hx.
    destruct (encode_starts indent (S level) x
                (encode_items indent (S level) xs
                 ++ newline_indent indent level ++ String "]" rest) Hx)
      as (c & t & E & _ & Hc).
    pose proof (read_items_encode bound IH indent (S level) level xs fuel rest) as Ri.
    pose proof (IH x indent (S level) fuel
                  (encode_items indent (S level) xs
                   ++ newline_indent indent level ++ "]" ++ rest)) as Rx.
    cbn [append] in Ri, Rx. rewrite E in *. rewrite Hc.
    rewrite Rx; trivial; try lia;
      [|apply (items_stop indent (S level) level xs "]" rest)].
    rewrite Ri; trivial; lia.
  - rewrite size_dict in Hb, Hf. cbn [member_sizes fold_right snd] in Hb, Hf.
    fold (member_sizes kvs) in Hb, Hf.
    rewrite json_dict in Hj. cbn [forallb snd] in Hj.
    apply andb_true_iff in Hj as [Hx Hxs].
    pose proof (size_positive x) as Hpx.
    rewrite encode_dict, !append_assoc. cbn [append read_value]. cbv zeta.
    change (nat_of_ascii "{" =? 34)%nat with false.
    change (nat_of_ascii "{" =? 91)%nat with false.
    change (nat_of_ascii "{" =? 123)%nat with true. cbv iota.
    rewrite skip_ws_indent.
    pose proof (read_member_encode bound IH indent (S level) k x fuel
                  (encode_members indent (S level) kvs
                   ++ newline_indent indent level ++ "}" ++ rest)) as Rm.
    pose proof (read_members_encode bound IH indent (S level) level kvs fuel rest)
      as Rs.
    destruct (read_encoded_string k
                (": " ++ encode indent (S level) x
                 ++ encode_members indent (S level) kvs
                 ++ newline_indent indent level ++ "}" ++ rest)) as (t & E & _).
    cbn [append] in Rm, Rs, E. rewrite E in *.
    cbn [skip_ws]. change (is_ws (ascii_of_nat 34)) with false. cbv iota.
    change (nat_of_ascii (ascii_of_nat 34) =? 125)%nat with false. cbv iota.
    rewrite Rm; trivial; try lia;
      [|apply (members_stop indent (S level) level kvs "}" rest)].
    rewrite Rs; trivial; lia.
Qed.

Lemma append_empty (s : string) : s ++ "" = s.
Proof. induction s as [|c s IH]; cbn; [reflexivity | now rewrite IH]. Qed.

Lemma length_items (indent level : nat) (l : list pyval) :
  (forall x, In x l -> (size x <= String.length (encode indent level x))%nat) ->
  (sizes l <= String.length (encode_items indent level l))%nat.
Proof.
  induction l as [|y t IH]; intros Hl; [cbn; lia|].
  cbn [sizes fold_right encode_items]. fold (sizes t).
  rewrite !length_append.
  pose proof (Hl y (or_introl eq_refl)) as Hy.
  assert (Ht : (sizes t <= String.length (encode_items indent level t))%nat).
  { apply IH. intros x Hx. apply Hl. now right. }
  lia.
Qed.

Lemma length_members (indent level : nat) (l : list (string * pyval)) :
  (forall k x, In (k, x) l ->
     (size x <= String.length (encode indent level x))%nat) ->
  (member_sizes l <= String.length (encode_members indent level l))%nat.
Proof.
  induction l as [|[k y] t IH]; intros Hl; [cbn; lia|].
  cbn [member_sizes fold_right snd encode_members]. fold (member_sizes t).
  rewrite !length_append. cbn [String.length].
  pose proof (Hl k y (or_introl eq_refl)) as Hy.
  assert (Ht : (member_sizes t
                <= String.length (encode_members indent level t))%nat).
  { apply IH. intros k' x Hx. apply (Hl k'). now right. }
  lia.
Qed.

Lemma sizes_In (x : pyval) (l : list pyval) : In x l -> (size x <= sizes l)%nat.
Proof.
  induction l as [|y t IH]; [contradiction|].
  cbn [sizes fold_right]. fold (sizes t). intros [-> | H]; [lia|].
  specialize (IH H). lia.
Qed.

Lemma member_sizes_In (k : string) (x : pyval) (l : list (string * pyval)) :
  In (k, x) l -> (size x <= member_sizes l)%nat.
Proof.
  induction l as [|[k' y] t IH]; [contradiction|].
  cbn [member_sizes fold_right snd]. fold (member_sizes t).
  intros [H | H]; [injection H as -> ->; lia|].
  specialize (IH H). lia.
Qed.

Lemma forallb_In {A} (p : A -> bool) (x : A) (l : list A) :
  forallb p l = true -> In x l -> p x = true.
Proof. intros H Hx. rewrite forallb_forall in H. now apply H. Qed.

Lemma size_le_length (bound : nat) :
  forall (v : pyval) (indent level : nat),
    (size v <= bound)%nat -> json_value v = true ->
    (size v <= String.length (encode indent level v))%nat.
Proof.
  induction bound as [|bound IH]; intros v indent level Hb Hj.
  { pose proof (size_positive v). lia. }
  destruct v as [|[]|n|text|s|[|x xs]|[|[k x] kvs]];
    try (cbn; lia).
  - destruct (int_text_head n) as (c & t & E & _). cbn [encode size].
    rewrite E. cbn. lia.
  - destruct (float_head text Hj) as (c & t & E & _). cbn [encode size].
    rewrite E. cbn. lia.
  - rewrite size_list in *. rewrite json_list in Hj.
    rewrite encode_list, !length_append. cbn [String.length].
    pose proof (length_items indent (S level) (x :: xs)) as Hl.
    cbn [encode_items] in Hl. rewrite !length_append in Hl.
    cbn [String.length] in Hl.
    assert (sizes (x :: xs)
            <= 1 + (String.length (newline_indent indent (S level))
               + (String.length (encode indent (S level) x)
                  + String.length (encode_items indent (S level) xs))))%nat;
      [|lia].
    apply Hl. intros y Hy. apply IH.
    + pose proof (sizes_In y _ Hy). lia.
    + exact (forallb_In _ _ _ Hj Hy).
  - rewrite size_dict in *. rewrite json_dict in Hj.
    rewrite encode_dict, !length_append. cbn [String.length].
    pose proof (length_members indent (S level) ((k, x) :: kvs)) as Hl.
    cbn [encode_members] in Hl. rewrite !length_append in Hl.
    cbn [String.length] in Hl.
    assert (member_sizes ((k, x) :: kvs)
            <= 1 + (String.length (newline_indent indent (S level))
               + (String.length (encode_string k)
                  + (2 + (String.length (encode indent (S level) x)
                     + String.length (encode_members indent (S level) kvs))))))%nat;
      [|lia].
    apply Hl. intros k' y Hy. apply IH.
    + pose proof (member_sizes_In k' y _ Hy). lia.
    + exact (forallb_In _ _ _ Hj Hy).
Qed.

(** Reading back what [json.dumps] printed gives the document. *)
Lemma parse_json_dumps (indent : nat) (v : pyval) :
  json_value v = true -> parse_json (dumps indent v) = Some v.
Proof.
  intros Hj. unfold parse_json, dumps.
  pose proof (skip_ws_encode indent 0 v "" Hj) as Hs.
  pose proof (read_value_encode (size v) v indent 0
                (S (String.length (encode indent 0 v))) ""
                (le_n _) Hj eq_refl) as Hr.
  rewrite append_empty in Hs, Hr. rewrite Hs, Hr; [reflexivity|].
  pose proof (size_le_length (size v) v indent 0 (le_n _) Hj). lia.
Qed.

(** So two documents that print alike are the same document. *)
Lemma dumps_injective (indent : nat) (a b : pyval) :
  json_value a = true -> json_value b = true ->
  dumps indent a = dumps indent b -> a = b.
Proof.
  intros Ha Hb H. pose proof (parse_json_dumps indent a Ha) as Pa.
  rewrite H, (parse_json_dumps indent b Hb) in Pa. now injection Pa.
Qed.

(** Of a printed object, [count_matches_flights] says that the object's
    own [count] is the length of its own [flights]. *)
Lemma count_matches_dumps (indent : nat) (members : list (string * pyval)) :
  json_value (PDict members) = true ->
  count_matches_flights (dumps indent (PDict members))
  <-> exists flights,
        member "count" members = Some (PInt (Z.of_nat (List.length flights)))
        /\ member "flights" members = Some (PList flights).
Proof.
  intros Hj. unfold count_matches_flights.
  rewrite (parse_json_dumps _ _ Hj). split.
  - intros [m [flights [E H]]]. injection E as <-. exists flights. exact H.
  - intros [flights H]. exists members, flights. split; [reflexivity | exact H].
Qed.

(** A count that is not the number of flights listed is told apart. *)
Lemma wrong_count_told_apart :
  ~ count_matches_flights
      (dumps 2 (PDict [("count", PInt 1);
                       ("flights", PList [PStr "a"; PStr "b"; PStr "c"])])).
Proof.
  intros H. apply count_matches_dumps in H; [| reflexivity].
  destruct H as [flights [Hc Hf]].
  cbn in Hf. injection Hf as <-. discriminate Hc.
Qed.

End ReaderProperties.

(** * Properties of the flight toolkit *)

Section ToolkitProperties.

Variable repr : pyval -> string.
Variable json_loads : string -> option pyval.
Variable now : date.
Variable aggregator : kwargs -> remote_outcome.


Lemma str_truthy_false (s : string) : str_truthy s = false <-> s = "".
Proof.
  unfold str_truthy. destruct (String.eqb_spec s ""); simpl; split; congruence.
Qed.

Lemma strptime_nonempty (s : string) (d : date) :
  strptime repr s = inr d -> str_truthy s = true.
Proof.
  destruct s; [discriminate | reflexivity].
Qed.

(** The log after a call is the log before it, extended by at most the
    one request built from the arguments. *)
Lemma search_flights_log origin destination departure_date return_date adults
    currency max_results non_stop travel_class log :
  let out := FlightToolkit.search_flights repr json_loads now aggregator
    origin destination departure_date return_date adults
                    currency max_results non_stop travel_class log in
  fst out = log
  \/ exists departure_date',
       fst out = (log ++ [request_kwargs origin destination departure_date'
                            return_date adults currency max_results non_stop
                            travel_class])%list
       /\ (if str_truthy departure_date
           then departure_date' = departure_date
           else exists t, add_one_day now = inr t /\ departure_date' = strftime t).
Proof.
  cbv zeta.
  unfold FlightToolkit.search_flights, try_exceptM, search_flights_try, bindM, lift.
  destruct (_validate_inputs repr origin destination departure_date return_date adults)
    as [e | []]; [left; destruct e; reflexivity |].
  destruct (str_truthy departure_date) eqn:Hd; cbn [negb].
  - right. exists departure_date. split; [| reflexivity].
    unfold retM, flight_offers_search.
    destruct (aggregator _) as [data | e].
    + destruct (_process_flight_results data) as [e | doc];
        [destruct e |]; reflexivity.
    + destruct e; reflexivity.
  - destruct (add_one_day now) as [e | t]; cbn [bind].
    + left. destruct e; reflexivity.
    + right. exists (strftime t). split; [| exists t; split; reflexivity].
      unfold ret, flight_offers_search.
      destruct (aggregator _) as [data | e].
      * destruct (_process_flight_results data) as [e | doc];
          [destruct e |]; reflexivity.
      * destruct e; reflexivity.
Qed.

(** C3.  Whenever the origin or the destination is not exactly three
    characters long, [search_flights] returns a validation error -- the
    "codes are required" message when one of them is empty, the
    "3-letter IATA codes" message otherwise -- and sends no request to
    the aggregator: the log of requests is unchanged. *)
Theorem airport_codes_validated origin destination departure_date return_date
    adults currency max_results non_stop travel_class log :
  (String.length origin <> 3 \/ String.length destination <> 3)%nat ->
  FlightToolkit.search_flights repr json_loads now aggregator
    origin destination departure_date return_date adults
         currency max_results non_stop travel_class log
  = (log,
     inr ("Validation error: "
          ++ (if (origin =? "")%string || (destination =? "")%string
              then "Origin and destination airport codes are required"
              else "Airport codes must be 3-letter IATA codes"))).
Proof.
  intros Hlen.
  unfold FlightToolkit.search_flights, try_exceptM, search_flights_try, bindM, lift,
    _validate_inputs, str_truthy.
  rewrite !negb_involutive.
  destruct ((origin =? "")%string || (destination =? "")%string); cbn.
  - reflexivity.
  - destruct (Nat.eqb_spec (String.length origin) 3) as [Ho | Ho];
      destruct (Nat.eqb_spec (String.length destination) 3) as [Hd | Hd];
      cbn; try reflexivity.
    destruct Hlen; contradiction.
Qed.

Lemma length_3_truthy (s : string) :
  String.length s = 3%nat -> str_truthy s = true.
Proof.
  destruct s; [discriminate | reflexivity].
Qed.

Lemma mem_false (s : string) (l : list string) :
  ~ In s l -> mem s l = false.
Proof.
  unfold mem. induction l as [| x l IH]; intros Hin; [reflexivity |].
  cbn. destruct (String.eqb_spec s x) as [-> | _].
  - exfalso. apply Hin. left. reflexivity.
  - apply IH. intros H. apply Hin. right. exact H.
Qed.

Lemma lookup_travel_class origin destination departure_date return_date adults
    currency max_results non_stop travel_class :
  lookup "travelClass"
         (request_kwargs origin destination departure_date return_date adults
                         currency max_results non_stop travel_class)
  = match travel_class with
    | Some c => if str_truthy c && mem c travel_classes
                then Some (PStr c) else None
    | None => None
    end.
Proof.
  unfold request_kwargs.
  destruct return_date as [r |]; [destruct (str_truthy r) |];
    destruct non_stop;
    (destruct travel_class as [c |];
     [destruct (str_truthy c && mem c travel_classes) |]); reflexivity.
Qed.

Lemma lookup_departure_date origin destination departure_date return_date adults
    currency max_results non_stop travel_class :
  lookup "departureDate"
         (request_kwargs origin destination departure_date return_date adults
                         currency max_results non_stop travel_class)
  = Some (PStr departure_date).
Proof. reflexivity. Qed.

(** C10.  A travel class outside ECONOMY, PREMIUM_ECONOMY, BUSINESS and
    FIRST is dropped without an error: the call behaves exactly as the
    same call without a travel class (same requests logged, same
    result), and no request it sends carries a [travelClass] parameter. *)
Theorem invalid_travel_class_ignored origin destination departure_date
    return_date adults currency max_results non_stop c log :
  ~ In c travel_classes ->
  FlightToolkit.search_flights repr json_loads now aggregator
    origin destination departure_date return_date adults
         currency max_results non_stop (Some c) log
  = FlightToolkit.search_flights repr json_loads now aggregator
    origin destination departure_date return_date adults
           currency max_results non_stop None log
  /\ forall kw,
       In kw (fst (FlightToolkit.search_flights repr json_loads now aggregator
         origin destination departure_date return_date adults
                          currency max_results non_stop (Some c) log)) ->
       In kw log \/ lookup "travelClass" kw = None.
Proof.
  intros Hc. apply mem_false in Hc.
  assert (Hkw : forall d,
             request_kwargs origin destination d return_date adults currency
                            max_results non_stop (Some c)
             = request_kwargs origin destination d return_date adults currency
                              max_results non_stop None).
  { intros d. unfold request_kwargs. rewrite Hc, andb_false_r. reflexivity. }
  split.
  - unfold FlightToolkit.search_flights, try_exceptM, search_flights_try, bindM, lift.
    destruct (_validate_inputs repr origin destination departure_date return_date adults)
      as [e | []]; [reflexivity |].
    destruct (negb (str_truthy departure_date)).
    + destruct (bind (add_one_day now) _) as [e | d]; [reflexivity |].
      rewrite Hkw. reflexivity.
    + unfold retM. rewrite Hkw. reflexivity.
  - intros kw Hin.
    destruct (search_flights_log origin destination departure_date return_date
                adults currency max_results non_stop (Some c) log)
      as [Hlog | [d [Hlog _]]]; rewrite Hlog in Hin.
    + left. exact Hin.
    + apply in_app_or in Hin. destruct Hin as [Hin | [<- | []]].
      * left. exact Hin.
      * right. rewrite lookup_travel_class, Hc, andb_false_r. reflexivity.
Qed.

Lemma validate_return_before origin destination departure_date return_date
    adults dep back :
  String.length origin = 3%nat -> String.length destination = 3%nat ->
  strptime repr departure_date = inr dep ->
  strptime repr return_date = inr back ->
  date_ltb back dep = true ->
  _validate_inputs repr origin destination departure_date (Some return_date) adults
  = inl (ValueError "Return date must be after departure date").
Proof.
  intros Ho Hd Hdep Hret Hlt.
  unfold _validate_inputs.
  rewrite (length_3_truthy _ Ho), (length_3_truthy _ Hd), Ho, Hd.
  rewrite (strptime_nonempty _ _ Hdep), (strptime_nonempty _ _ Hret).
  rewrite Hdep, Hret. cbn. rewrite Hlt. reflexivity.
Qed.

(** C4, as amended.  When the departure date and the return date both
    parse and the return date is strictly before the departure date,
    [search_flights] returns a validation error and sends no request to
    the aggregator; with airport codes of three characters the error is
    the "Return date must be after departure date" message. *)
Theorem return_before_departure_rejected origin destination departure_date
    return_date adults currency max_results non_stop travel_class log dep back :
  strptime repr departure_date = inr dep ->
  strptime repr return_date = inr back ->
  date_ltb back dep = true ->
  exists message,
    FlightToolkit.search_flights repr json_loads now aggregator
      origin destination departure_date (Some return_date) adults
           currency max_results non_stop travel_class log
    = (log, inr ("Validation error: " ++ message))
    /\ (String.length origin = 3%nat -> String.length destination = 3%nat ->
        message = "Return date must be after departure date").
Proof.
  intros Hdep Hret Hlt.
  destruct (Nat.eq_dec (String.length origin) 3) as [Ho | Ho].
  1: destruct (Nat.eq_dec (String.length destination) 3) as [Hd | Hd].
  - exists "Return date must be after departure date". split; [| reflexivity].
    unfold FlightToolkit.search_flights, try_exceptM, search_flights_try, bindM, lift.
    rewrite (validate_return_before _ _ _ _ adults _ _ Ho Hd Hdep Hret Hlt).
    reflexivity.
  - eexists. split.
    + apply airport_codes_validated. right. exact Hd.
    + intros _ H. contradiction.
  - eexists. split.
    + apply airport_codes_validated. left. exact Ho.
    + intros H. contradiction.
Qed.

Lemma validate_empty_departure origin destination return_date adults :
  _validate_inputs repr origin destination "" return_date adults
  <> inl (ValueError "Departure date must be in YYYY-MM-DD format").
Proof.
  unfold _validate_inputs.
  destruct (negb (str_truthy origin) || negb (str_truthy destination));
    [discriminate |].
  destruct (negb (String.length origin =? 3)%nat
            || negb (String.length destination =? 3)%nat); [discriminate |].
  cbn [str_truthy String.eqb negb bind ret].
  assert (Hadults : (if adults <? 1
                     then @raise unit (ValueError
                            "Number of adults must be a positive integer")
                     else ret tt)
                    <> inl (ValueError "Departure date must be in YYYY-MM-DD format")).
  { destruct (adults <? 1); discriminate. }
  destruct return_date as [r |]; [| exact Hadults].
  destruct (str_truthy r); [| exact Hadults].
  unfold try_except.
  destruct (strptime repr r) as [e | d]; cbn [bind ret].
  - destruct e; try discriminate.
    cbn [exn_str].
    destruct (str_contains "must be after" msg) eqn:Hc; unfold raise;
      [| discriminate].
    intros H. injection H as ->. discriminate Hc.
  - exact Hadults.
Qed.

(** C5.  With airport codes of three characters and an empty departure
    date: every request the call sends carries tomorrow's date -- the
    clock's date plus one day, printed as YYYY-MM-DD -- as its
    [departureDate]; validation never fails with the departure-date
    format error; and the request is indeed sent whenever the other
    arguments pass validation and the clock is not at its last day. *)
Theorem empty_departure_date_defaults origin destination return_date adults
    currency max_results non_stop travel_class log :
  String.length origin = 3%nat -> String.length destination = 3%nat ->
  let out := FlightToolkit.search_flights repr json_loads now aggregator
    origin destination "" return_date adults
                    currency max_results non_stop travel_class log in
  (forall kw, In kw (fst out) ->
     In kw log
     \/ exists tomorrow,
          add_one_day now = inr tomorrow
          /\ lookup "departureDate" kw = Some (PStr (strftime tomorrow)))
  /\ _validate_inputs repr origin destination "" return_date adults
     <> inl (ValueError "Departure date must be in YYYY-MM-DD format")
  /\ (forall tomorrow,
        add_one_day now = inr tomorrow ->
        _validate_inputs repr origin destination "" return_date adults = inr tt ->
        fst out
        = (log ++ [request_kwargs origin destination (strftime tomorrow)
                     return_date adults currency max_results non_stop
                     travel_class])%list).
Proof.
  intros Ho Hd out. repeat split.
  - intros kw Hin. subst out.
    destruct (search_flights_log origin destination "" return_date
                adults currency max_results non_stop travel_class log)
      as [Hlog | [d [Hlog Hdate]]]; rewrite Hlog in Hin.
    + left. exact Hin.
    + apply in_app_or in Hin. destruct Hin as [Hin | [<- | []]].
      * left. exact Hin.
      * right. cbn in Hdate. destruct Hdate as [t [Ht ->]].
        exists t. split; [exact Ht | apply lookup_departure_date].
  - apply validate_empty_departure.
  - intros t Ht Hv. subst out.
    unfold FlightToolkit.search_flights, try_exceptM, search_flights_try, bindM, lift.
    rewrite Hv. cbn [str_truthy String.eqb negb]. rewrite Ht. cbn [bind ret].
    unfold flight_offers_search.
    destruct (aggregator _) as [data | e].
    + destruct (_process_flight_results data) as [e | doc];
        [destruct e |]; reflexivity.
    + destruct e; reflexivity.
Qed.

Lemma getitem_field (k : string) (v x : pyval) :
  field k v = Some x -> getitem v k = inr x.
Proof.
  destruct v; cbn; try discriminate. intros ->. reflexivity.
Qed.

Lemma get_field (k k' : string) (v x default : pyval) :
  field k' v = Some x ->
  get v k default = inr (match field k v with Some y => y | None => default end).
Proof.
  destruct v; cbn; try discriminate. intros _.
  destruct (lookup k kvs); reflexivity.
Qed.

Lemma has_field (k : string) (v : pyval) :
  has k v = true -> exists x, field k v = Some x.
Proof.
  unfold has. destruct (field k v) as [x |]; [eauto | discriminate].
Qed.

(** A loop that appends one result per item, over items that all
    satisfy [ok]. *)
Lemma mapM_Forall2 (f : pyval -> result pyval) (ok : pyval -> bool)
    (R : pyval -> pyval -> Prop) :
  (forall x, ok x = true -> exists y, f x = inr y /\ R x y) ->
  forall l, forallb ok l = true ->
            exists ys, mapM f l = inr ys /\ Forall2 R l ys.
Proof.
  intros Hf l. induction l as [| x l IH]; cbn [forallb mapM]; intros Hl.
  - exists []. split; [reflexivity | constructor].
  - apply andb_prop in Hl. destruct Hl as [Hx Hl].
    destruct (Hf x Hx) as [y [Hy Hr]]. destruct (IH Hl) as [ys [Hys Hrs]].
    exists (y :: ys). rewrite Hy, Hys. split; [reflexivity |].
    constructor; assumption.
Qed.

(** Reads the required fields a hypothesis says are present. *)
Ltac read_fields :=
  repeat (progress (cbn [bind])
          || match goal with
             | H : field ?k ?v = Some ?x |- context [getitem ?v ?k] =>
                 rewrite (getitem_field k v x H)
             end).

Lemma process_segment_rendered (segment : pyval) :
  wf_segment segment = true ->
  exists out, process_segment segment = inr out /\ rendered_segment segment out.
Proof.
  unfold wf_segment.
  destruct (field "departure" segment) as [departure |] eqn:Hdep;
    [| discriminate].
  destruct (field "arrival" segment) as [arrival |] eqn:Harr; [| discriminate].
  intros H. repeat (apply andb_prop in H; destruct H as [H ?]).
  destruct (has_field _ _ H) as [dep_iata Hdi].
  destruct (has_field "at" departure) as [dep_at Hda]; [assumption |].
  destruct (has_field "iataCode" arrival) as [arr_iata Hai]; [assumption |].
  destruct (has_field "at" arrival) as [arr_at Haa]; [assumption |].
  destruct (has_field "carrierCode" segment) as [carrier Hc]; [assumption |].
  destruct (has_field "number" segment) as [number Hn]; [assumption |].
  eexists. split.
  - unfold process_segment.
    rewrite (get_field "aircraft" _ _ _ _ Hdep),
      (get_field "duration" _ _ _ _ Hdep).
    read_fields.
    rewrite (get_field "terminal" _ _ _ _ Hdi). read_fields.
    rewrite (get_field "terminal" _ _ _ _ Hai). read_fields.
    assert (Hcode : get (match field "aircraft" segment with
                         | Some y => y
                         | None => PDict []
                         end) "code" (PStr "N/A")
                    = inr (or_na (aircraft_code segment))).
    { unfold aircraft_code.
      destruct (field "aircraft" segment) as [a |]; [| reflexivity].
      destruct a; try discriminate. cbn. destruct (lookup "code" kvs); reflexivity. }
    rewrite Hcode. cbn [bind]. unfold ret. reflexivity.
  - change (match field "terminal" departure with
            | Some y => y | None => PStr "N/A" end)
      with (or_na (field "terminal" departure)).
    change (match field "terminal" arrival with
            | Some y => y | None => PStr "N/A" end)
      with (or_na (field "terminal" arrival)).
    change (match field "duration" segment with
            | Some y => y | None => PStr "N/A" end)
      with (or_na (field "duration" segment)).
    econstructor; eassumption.
Qed.

Lemma process_itinerary_rendered (itinerary : pyval) :
  wf_itinerary itinerary = true ->
  exists out,
    process_itinerary itinerary = inr out /\ rendered_itinerary itinerary out.
Proof.
  unfold wf_itinerary.
  destruct (field "segments" itinerary) as [raw |] eqn:Hseg; [| discriminate].
  destruct raw as [| | | | | raw_segments |]; try discriminate.
  intros Hwf.
  destruct (mapM_Forall2 process_segment wf_segment rendered_segment
              process_segment_rendered raw_segments Hwf) as [segments [Hm Hr]].
  eexists. split.
  - unfold process_itinerary.
    read_fields. cbn [bind iter ret].
    rewrite Hm. cbn [bind].
    rewrite (get_field "duration" _ _ _ _ Hseg). cbn [bind]. reflexivity.
  - change (match field "duration" itinerary with
            | Some y => y | None => PStr "N/A" end)
      with (or_na (field "duration" itinerary)).
    econstructor; eassumption.
Qed.

Lemma process_offer_rendered (offer : pyval) :
  wf_offer offer = true ->
  exists out, process_offer offer = inr out /\ rendered_offer offer out.
Proof.
  unfold wf_offer. intros H.
  apply andb_prop in H. destruct H as [H Hits].
  apply andb_prop in H. destruct H as [Hid Hprice].
  destruct (has_field _ _ Hid) as [id Hid'].
  destruct (field "price" offer) as [price |] eqn:Hp; [| discriminate].
  apply andb_prop in Hprice. destruct Hprice as [Ht Hc].
  destruct (has_field _ _ Ht) as [total Ht'].
  destruct (has_field _ _ Hc) as [currency Hc'].
  destruct (field "itineraries" offer) as [raw |] eqn:Hi; [| discriminate].
  destruct raw as [| | | | | raw_itineraries |]; try discriminate.
  destruct (mapM_Forall2 process_itinerary wf_itinerary rendered_itinerary
              process_itinerary_rendered raw_itineraries Hits)
    as [itineraries [Hm Hr]].
  eexists. split.
  - unfold process_offer.
    read_fields. cbn [bind iter ret]. rewrite Hm. cbn [bind]. reflexivity.
  - econstructor; eassumption.
Qed.

Lemma process_results_of_offers (offers flights : list pyval) :
  mapM process_offer offers = inr flights ->
  _process_flight_results (PList offers)
  = inr (PDict [("count", PInt (Z.of_nat (List.length offers)));
                ("flights", PList flights)]).
Proof.
  intros Hm. unfold _process_flight_results.
  destruct offers as [| offer offers].
  - cbn in Hm. injection Hm as <-. reflexivity.
  - cbn [truthy negb len iter bind ret]. rewrite Hm. reflexivity.
Qed.

(** C6, as amended.  For a raw response whose offers carry the required
    fields and whose segments have no [aircraft] or an object for it,
    [_process_flight_results] returns one reshaped flight per offer, in
    order; in each, [id], the price's [total] and [currency], and each
    segment's [iataCode], [at], [carrierCode] and flight [number] are
    copied, and a departure or arrival [terminal], an [aircraft] code, a
    segment [duration] or an itinerary [duration] that is absent is
    rendered as the string N/A. *)
Theorem missing_optional_fields_render_na (offers : list pyval) :
  forallb wf_offer offers = true ->
  exists flights,
    _process_flight_results (PList offers)
    = inr (PDict [("count", PInt (Z.of_nat (List.length offers)));
                  ("flights", PList flights)])
    /\ Forall2 rendered_offer offers flights.
Proof.
  intros Hwf.
  destruct (mapM_Forall2 process_offer wf_offer rendered_offer
              process_offer_rendered offers Hwf) as [flights [Hm Hr]].
  exists flights. split; [| exact Hr].
  exact (process_results_of_offers offers flights Hm).
Qed.

Lemma validate_accepts origin destination departure_date return_date adults dep :
  String.length origin = 3%nat -> String.length destination = 3%nat ->
  strptime repr departure_date = inr dep ->
  return_date_accepted repr dep return_date ->
  1 <= adults ->
  _validate_inputs repr origin destination departure_date return_date adults = inr tt.
Proof.
  intros Ho Hd Hdep Hret Hadults.
  unfold _validate_inputs.
  rewrite (length_3_truthy _ Ho), (length_3_truthy _ Hd), Ho, Hd.
  rewrite (strptime_nonempty _ _ Hdep), Hdep.
  cbn [negb orb Nat.eqb bind ret try_except].
  assert (Ha : (adults <? 1) = false) by (apply Z.ltb_ge; lia).
  destruct return_date as [r |]; cbn [bind ret]; [| rewrite Ha; reflexivity].
  destruct Hret as [-> | [rd [Hret Hlt]]].
  - cbn [str_truthy String.eqb negb bind ret]. rewrite Ha. reflexivity.
  - rewrite (strptime_nonempty _ _ Hret), Hret. cbn [bind ret try_except].
    rewrite Hlt. cbn [bind ret]. rewrite Ha. reflexivity.
Qed.

(** What is reshaped from JSON data is JSON data. *)
Lemma json_lookup (k : string) (kvs : list (string * pyval)) (x : pyval) :
  forallb (fun kv => json_value (snd kv)) kvs = true ->
  lookup k kvs = Some x -> json_value x = true.
Proof.
  induction kvs as [| [k' y] t IH]; cbn [lookup forallb snd]; [discriminate |].
  intros H. apply andb_prop in H. destruct H as [Hy Ht].
  destruct (k =? k')%string.
  - intros E. injection E as <-. exact Hy.
  - exact (IH Ht).
Qed.

Lemma json_field (k : string) (v x : pyval) :
  json_value v = true -> field k v = Some x -> json_value x = true.
Proof.
  intros Hj Hf. destruct v; try discriminate Hf.
  rewrite json_dict in Hj. exact (json_lookup _ _ _ Hj Hf).
Qed.

Lemma json_or_na (k : string) (v : pyval) :
  json_value v = true -> json_value (or_na (field k v)) = true.
Proof.
  intros Hj. destruct (field k v) as [x |] eqn:E; [| reflexivity].
  exact (json_field _ _ _ Hj E).
Qed.

Lemma json_aircraft (segment : pyval) :
  json_value segment = true ->
  json_value (or_na (aircraft_code segment)) = true.
Proof.
  intros Hj. unfold aircraft_code.
  destruct (field "aircraft" segment) as [a |] eqn:E; [| reflexivity].
  apply json_or_na. exact (json_field _ _ _ Hj E).
Qed.

Lemma Forall2_json (R : pyval -> pyval -> Prop) :
  (forall x y, json_value x = true -> R x y -> json_value y = true) ->
  forall l l', forallb json_value l = true -> Forall2 R l l' ->
               forallb json_value l' = true.
Proof.
  intros HR l l' Hl H. induction H as [| x y l l' Hxy H IH]; [reflexivity |].
  cbn [forallb] in *. apply andb_prop in Hl. destruct Hl as [Hx Hl].
  rewrite (HR x y Hx Hxy), (IH Hl). reflexivity.
Qed.

Ltac json_fields :=
  cbn [json_value];
  repeat match goal with
         | |- (_ && _)%bool = true => apply andb_true_intro; split
         end;
  eauto using json_field, json_or_na, json_aircraft.

Lemma rendered_segment_json (segment out : pyval) :
  json_value segment = true -> rendered_segment segment out ->
  json_value out = true.
Proof.
  intros Hj H. destruct H.
  assert (json_value departure = true) by eauto using json_field.
  assert (json_value arrival = true) by eauto using json_field.
  json_fields.
Qed.

Lemma rendered_itinerary_json (itinerary out : pyval) :
  json_value itinerary = true -> rendered_itinerary itinerary out ->
  json_value out = true.
Proof.
  intros Hj H. destruct H as [itinerary raw_segments segments Hs Hr].
  pose proof (json_field _ _ _ Hj Hs) as Hraw. rewrite json_list in Hraw.
  pose proof (Forall2_json _ rendered_segment_json _ _ Hraw Hr) as Hout.
  rewrite <- json_list in Hout.
  cbn [json_value]. cbn [json_value] in Hout.
  rewrite (json_or_na "duration" itinerary Hj), Hout. reflexivity.
Qed.

Lemma rendered_offer_json (offer out : pyval) :
  json_value offer = true -> rendered_offer offer out ->
  json_value out = true.
Proof.
  intros Hj H.
  destruct H as [offer id price total currency raw itineraries
                   Hid Hp Ht Hc Hi Hr].
  pose proof (json_field _ _ _ Hj Hp) as Hprice.
  pose proof (json_field _ _ _ Hj Hi) as Hraw. rewrite json_list in Hraw.
  pose proof (Forall2_json _ rendered_itinerary_json _ _ Hraw Hr) as Hout.
  rewrite <- json_list in Hout.
  cbn [json_value]. cbn [json_value] in Hout.
  rewrite (json_field _ _ _ Hj Hid), (json_field _ _ _ Hprice Ht),
    (json_field _ _ _ Hprice Hc), Hout. reflexivity.
Qed.

Lemma process_count (data : pyval) :
  wf_data data = true ->
  exists flights,
    _process_flight_results data
    = inr (PDict [("count", PInt (Z.of_nat (List.length flights)));
                  ("flights", PList flights)])
    /\ (truthy data = false -> flights = [])
    /\ (json_value data = true -> json_value (PList flights) = true).
Proof.
  destruct data as [| | | | | offers |]; try discriminate; intros Hwf.
  - exists []. repeat split; reflexivity.
  - destruct (mapM_Forall2 process_offer wf_offer rendered_offer
                process_offer_rendered offers Hwf) as [flights [Hm Hr]].
    exists flights. split; [| split].
    + rewrite (process_results_of_offers offers flights Hm).
      rewrite (Forall2_length Hr). reflexivity.
    + destruct offers; [| discriminate]. intros _. inversion Hr. reflexivity.
    + intros Hj. rewrite json_list in *.
      exact (Forall2_json _ rendered_offer_json _ _ Hj Hr).
Qed.

(** C1, as amended.  With airport codes of three characters, a departure
    date that parses, a return date the tool accepts, at least one
    adult, and a non-error answer of the aggregator whose data is JSON
    data, empty or a list of offers that carry the required fields and
    whose segments have no [aircraft] or an object for it,
    [search_flights] sends the one request and returns a text that reads
    as a JSON object whose [count] is the length of its [flights] list --
    the text of count 0 and no flights when the aggregator returned no
    offers. *)
Theorem flight_results_count_matches origin destination departure_date
    return_date adults currency max_results non_stop travel_class log dep data :
  String.length origin = 3%nat -> String.length destination = 3%nat ->
  strptime repr departure_date = inr dep ->
  return_date_accepted repr dep return_date ->
  1 <= adults ->
  aggregator (request_kwargs origin destination departure_date return_date
                             adults currency max_results non_stop travel_class)
  = Response data ->
  wf_data data = true ->
  json_value data = true ->
  exists text,
    FlightToolkit.search_flights repr json_loads now aggregator
      origin destination departure_date return_date adults
           currency max_results non_stop travel_class log
    = ((log ++ [request_kwargs origin destination departure_date return_date
                  adults currency max_results non_stop travel_class])%list,
       inr text)
    /\ count_matches_flights text
    /\ (truthy data = false ->
        text = dumps 2 (PDict [("count", PInt 0); ("flights", PList [])])).
Proof.
  intros Ho Hd Hdep Hret Hadults Hagg Hwf Hjson.
  destruct (process_count data Hwf) as [flights [Hp [Hempty Hj]]].
  exists (dumps 2 (PDict [("count", PInt (Z.of_nat (List.length flights)));
                          ("flights", PList flights)])).
  split; [| split].
  - unfold FlightToolkit.search_flights, try_exceptM, search_flights_try, bindM, lift.
    rewrite (validate_accepts _ _ _ _ _ _ Ho Hd Hdep Hret Hadults).
    rewrite (strptime_nonempty _ _ Hdep). cbn [negb retM].
    unfold flight_offers_search. rewrite Hagg, Hp. reflexivity.
  - exists [("count", PInt (Z.of_nat (List.length flights)));
             ("flights", PList flights)], flights.
    split; [| split; reflexivity].
    apply parse_json_dumps. rewrite json_dict. cbn [forallb snd json_value].
    rewrite andb_true_r. exact (Hj Hjson).
  - intros Ht. rewrite (Hempty Ht). reflexivity.
Qed.





End ToolkitProperties.

(** * Properties of the planning workflow *)

Section WorkflowProperties.

Variable agent_run : list step -> agent -> string -> agent_outcome.

Local Notation extracting :=
  (Yielded (mk_RunResponse (CStr "Extracting travel details...") run_response)).
Local Notation searching :=
  (Yielded (mk_RunResponse (CStr "Searching for flights...") run_response)).
Local Notation finding :=
  (Yielded (mk_RunResponse
              (CStr "Finding accommodation, dining, and attractions...")
              run_response)).
Local Notation generating :=
  (Yielded (mk_RunResponse (CStr "Generating your complete travel plan...")
                           run_response)).
Local Notation completed text :=
  (Yielded (mk_RunResponse (CStr text) workflow_completed)).

Lemma extract_travel_info_content request trace :
  extract_travel_info agent_run request trace
  = ((trace ++ [Ran travel_info_agent request])%list,
     inr (match agent_run trace travel_info_agent request with
          | Returns (Some c) => c
          | _ => CNone
          end)).
Proof.
  unfold extract_travel_info, try_exceptW, bindW, run_agent, liftW, retW.
  destruct (agent_run trace travel_info_agent request) as [[c |] | e];
    reflexivity.
Qed.

(** When the Intent Extractor's remote call raises, or answers with no
    response or no content, the step returns [None]; the run then
    yields the progress message and the fixed apology and runs no other
    agent. *)
Lemma no_intent_stops_run request :
  no_intent (agent_run [extracting] travel_info_agent request) ->
  extract_travel_info agent_run request [extracting]
  = ([extracting; Ran travel_info_agent request], inr CNone)
  /\ run agent_run request []
     = ([extracting; Ran travel_info_agent request; completed no_travel_info],
        inr tt).
Proof.
  intros Hno. unfold run, bindW, yield.
  cbn [app]. rewrite extract_travel_info_content.
  destruct (agent_run [extracting] travel_info_agent request)
    as [[[] |] | e]; try contradiction; split; reflexivity.
Qed.

Lemma get_destination_info_returns travel_info trace :
  exists trace' c,
    get_destination_info agent_run travel_info trace = (trace', inr c).
Proof.
  unfold get_destination_info, try_exceptW.
  destruct (bindW _ _ trace) as [trace' [e | c]]; unfold retW; eauto.
Qed.

Lemma get_destination_info_fallback travel_info trace :
  (forall query, exists e,
      agent_run trace destination_info_agent query = Fails e) ->
  exists trace',
    get_destination_info agent_run travel_info trace
    = (trace', inr (CDestinationInfo fallback_info))
    /\ (forall t, travel_info = CTravelInfo t ->
        exists query,
          trace' = (trace ++ [Ran destination_info_agent query])%list).
Proof.
  intros Hfail.
  unfold get_destination_info, try_exceptW, bindW, liftW.
  destruct (getattr travel_info "destination") as [e | destination] eqn:E1;
    [eexists; split; [reflexivity | intros t ->; discriminate] |].
  destruct (getattr travel_info "duration") as [e | duration] eqn:E2;
    [eexists; split; [reflexivity | intros t ->; discriminate] |].
  destruct (getattr travel_info "preferences") as [e | preferences] eqn:E3;
    [eexists; split; [reflexivity | intros t ->; discriminate] |].
  destruct (getattr travel_info "purpose") as [e | purpose] eqn:E4;
    [eexists; split; [reflexivity | intros t ->; discriminate] |].
  unfold run_agent.
  match goal with
  | |- context [agent_run trace destination_info_agent ?q] =>
      destruct (Hfail q) as [e He]; rewrite He
  end.
  eexists. split; [reflexivity |]. intros t _. eexists. reflexivity.
Qed.

Lemma search_flights_content (t : TravelInfo) trace c :
  (forall query,
      agent_run trace flight_search_agent query = Returns (Some c)) ->
  exists query,
    TourMoreAI.search_flights agent_run (CTravelInfo t) trace
    = ((trace ++ [Ran flight_search_agent query])%list, inr c).
Proof.
  intros Hrun.
  unfold TourMoreAI.search_flights, try_exceptW, bindW, liftW, run_agent.
  cbn [getattr ret]. eexists. rewrite Hrun. reflexivity.
Qed.


Lemma generate_travel_plan_runs t f d trace :
  exists c,
    generate_travel_plan agent_run (CTravelInfo t) (CFlightDetails f)
                         (CDestinationInfo d) trace
    = ((trace ++ [Ran travel_plan_agent
                    (dumps 4 (PDict [("travel_info",
                                      match model_dump (CTravelInfo t) with
                                      | inr v => v | inl _ => PNone end);
                                     ("flight_details",
                                      match model_dump (CFlightDetails f) with
                                      | inr v => v | inl _ => PNone end);
                                     ("destination_info",
                                      match model_dump (CDestinationInfo d) with
                                      | inr v => v | inl _ => PNone end)]))])%list,
       inr c).
Proof.
  unfold generate_travel_plan, try_exceptW, bindW, liftW, run_agent, retW.
  cbn [model_dump ret].
  match goal with
  | |- context [agent_run trace travel_plan_agent ?q] =>
      destruct (agent_run trace travel_plan_agent q) as [[c |] | e]
  end; eexists; reflexivity.
Qed.

(** X25.  [get_destination_info] never raises.  When the
    destination lookup throws, it returns the record whose four text
    fields are the fixed placeholder strings, and the run goes on: after
    an intent and flight options have been obtained, the itinerary step
    runs its agent on the three records and the run ends without an
    exception. *)
Theorem destination_failure_yields_placeholder travel_info trace request t f :
  (exists trace' c,
      get_destination_info agent_run travel_info trace = (trace', inr c))
  /\ ((forall query, exists e,
          agent_run trace destination_info_agent query = Fails e) ->
      exists trace' d,
        get_destination_info agent_run travel_info trace
        = (trace', inr (CDestinationInfo d))
        /\ di_accommodations d
           = "Could not retrieve accommodations due to an error. Please search for hotels in your destination area."
        /\ di_dining d
           = "Could not retrieve dining information due to an error. Please search for restaurants in your destination area."
        /\ di_attractions d
           = "Could not retrieve attractions due to an error. Please search for tourist spots in your destination area."
        /\ di_transportation d = "Could not retrieve transportation options.")
  /\ ((forall tr query,
          agent_run tr travel_info_agent query = Returns (Some (CTravelInfo t))) ->
      (forall tr query,
          agent_run tr flight_search_agent query
          = Returns (Some (CFlightDetails f))) ->
      (forall tr query, exists e,
          agent_run tr destination_info_agent query = Fails e) ->
      agents_run (fst (run agent_run request []))
      = [travel_info_agent; flight_search_agent; destination_info_agent;
         travel_plan_agent]
      /\ In generating (fst (run agent_run request []))
      /\ snd (run agent_run request []) = inr tt).
Proof.
  split; [apply get_destination_info_returns |]. split.
  - intros Hfail.
    destruct (get_destination_info_fallback travel_info trace Hfail)
      as [trace' [H _]].
    exists trace', fallback_info. rewrite H. repeat split.
  - intros Hti Hfs Hdi.
    unfold run, bindW, yield. cbn [app].
    rewrite extract_travel_info_content, Hti. cbn [is_none app].
    destruct (search_flights_content t
                [extracting; Ran travel_info_agent request; searching]
                (CFlightDetails f) (Hfs _)) as [q1 Hq1].
    rewrite Hq1. cbn [is_none app].
    destruct (get_destination_info_fallback (CTravelInfo t)
                [extracting; Ran travel_info_agent request; searching;
                 Ran flight_search_agent q1; finding] (Hdi _))
      as [trace' [Hd Htrace]].
    destruct (Htrace t eq_refl) as [q2 ->]. rewrite Hd. cbn [is_none app].
    match goal with
    | |- context [generate_travel_plan agent_run ?a ?b ?c ?tr] =>
        destruct (generate_travel_plan_runs t f fallback_info tr) as [c' Hg]
    end.
    rewrite Hg. cbn [app].
    destruct c' as [| s | t' | f' | d']; cbn -[dumps];
      (repeat split; do 6 right; left; reflexivity).
Qed.

(** C9, as amended.  The Flight Search Adapter returns the record its
    agent produced, unchanged: whatever [departure_date] the agent
    wrote is the one in the record (future dates are only asked of the
    agent in its instructions; nothing compares the date with today). *)
Theorem flight_options_are_the_agents (t : TravelInfo) trace (f : FlightDetails) :
  (forall query,
      agent_run trace flight_search_agent query
      = Returns (Some (CFlightDetails f))) ->
  snd (TourMoreAI.search_flights agent_run (CTravelInfo t) trace)
  = inr (CFlightDetails f).
Proof.
  intros Hrun.
  destruct (search_flights_content t trace (CFlightDetails f) Hrun) as [q Hq].
  rewrite Hq. reflexivity.
Qed.

End WorkflowProperties.

(** * Further properties of the flight toolkit *)

Set Warnings "-abstract-large-number".

Section DateProperties.

Variable repr : pyval -> string.

Lemma all_years_read_back : forallb year_reads_back (range 1000 9000) = true.
Proof. vm_compute. reflexivity. Qed.

Lemma all_days_read_back :
  forallb (fun m => forallb (month_day_reads_back m) (range 1 31)) (range 1 12)
  = true.
Proof. vm_compute. reflexivity. Qed.

Lemma in_range (first count : nat) (z : Z) :
  Z.of_nat first <= z < Z.of_nat first + Z.of_nat count ->
  In z (range first count).
Proof.
  intros H. unfold range. apply in_map_iff. exists (Z.to_nat z). split.
  - lia.
  - apply in_seq. lia.
Qed.

Lemma days_in_month_le_31 (y m : Z) : days_in_month y m <= 31.
Proof.
  unfold days_in_month.
  destruct (m =? 2); [destruct (is_leap y); lia |].
  destruct ((m =? 4) || (m =? 6) || (m =? 9) || (m =? 11)); lia.
Qed.

Lemma days_in_month_ge_28 (y m : Z) : 28 <= days_in_month y m.
Proof.
  unfold days_in_month.
  destruct (m =? 2); [destruct (is_leap y); lia |].
  destruct ((m =? 4) || (m =? 6) || (m =? 9) || (m =? 11)); lia.
Qed.

Lemma valid_date_bounds (d : date) :
  valid_date d = true ->
  1 <= year d <= 9999 /\ 1 <= month d <= 12
  /\ 1 <= day d <= days_in_month (year d) (month d).
Proof.
  unfold valid_date. intros H.
  repeat (apply andb_prop in H; destruct H as [H ?]).
  repeat match goal with
         | E : (_ <=? _) = true |- _ => apply Z.leb_le in E
         end.
  lia.
Qed.

Lemma valid_date_intro (y m d : Z) :
  1 <= y <= 9999 -> 1 <= m <= 12 -> 1 <= d <= days_in_month y m ->
  valid_date (mk_date y m d) = true.
Proof.
  intros Hy Hm Hd. unfold valid_date. cbn [year month day].
  repeat (apply andb_true_intro; split); apply Z.leb_le; lia.
Qed.

(** What [strftime] prints for a date of the calendar, [strptime] reads
    back as that date. *)
Lemma strptime_strftime (d : date) :
  valid_date d = true -> 1000 <= year d ->
  strptime repr (strftime d) = inr d.
Proof.
  intros Hv H1000. destruct (valid_date_bounds d Hv) as [Hy [Hm Hd]].
  destruct d as [y m dd]. cbn [year month day] in *.
  pose proof (days_in_month_le_31 y m) as H31.
  assert (Hyear : year_reads_back y = true).
  { pose proof all_years_read_back as Hall.
    rewrite forallb_forall in Hall. apply Hall. apply in_range.
    assert (Z.of_nat 1000 = 1000) by reflexivity.
    assert (Z.of_nat 9000 = 9000) by reflexivity. lia. }
  assert (Hmd : month_day_reads_back m dd = true).
  { pose proof all_days_read_back as Hall.
    rewrite forallb_forall in Hall.
    specialize (Hall m (in_range 1 12 m ltac:(lia))).
    rewrite forallb_forall in Hall. apply Hall. apply in_range. lia. }
  unfold strptime, strftime, match_format. cbn [year month day].
  unfold year_reads_back in Hyear.
  destruct (digits 4 y) as [| a [| b [| c [| e [|]]]]]; try discriminate.
  cbn [append match_year].
  destruct (digit a) as [x1 |]; [| discriminate].
  destruct (digit b) as [x2 |]; [| discriminate].
  destruct (digit c) as [x3 |]; [| discriminate].
  destruct (digit e) as [x4 |]; [| discriminate].
  apply Z.eqb_eq in Hyear. rewrite Hyear. cbn [after_dash].
  unfold month_day_reads_back in Hmd. cbn [append] in Hmd.
  destruct (first_day (match_month (digits 2 m ++ String "-" (digits 2 dd))))
    as [[[m' d'] rest] |]; [| discriminate].
  apply andb_prop in Hmd. destruct Hmd as [Hmd Hrest].
  apply andb_prop in Hmd. destruct Hmd as [Hm' Hd'].
  apply Z.eqb_eq in Hm', Hd'. apply String.eqb_eq in Hrest. subst m' d' rest.
  cbn [str_truthy String.eqb negb].
  replace (y =? 0) with false by (symmetry; apply Z.eqb_neq; lia).
  replace (days_in_month y m <? dd) with false
    by (symmetry; apply Z.ltb_ge; lia).
  reflexivity.
Qed.

Lemma strftime_nonempty (d : date) :
  valid_date d = true -> 1000 <= year d -> str_truthy (strftime d) = true.
Proof.
  intros Hv Hy. apply (strptime_nonempty repr _ d).
  apply strptime_strftime; assumption.
Qed.

(** The day after a date of the calendar is a date of the calendar, and
    a later one. *)
Lemma add_one_day_valid (d t : date) :
  valid_date d = true -> add_one_day d = inr t ->
  valid_date t = true /\ date_ltb d t = true /\ year d <= year t.
Proof.
  intros Hv. destruct (valid_date_bounds d Hv) as [Hy [Hm Hd]].
  destruct d as [y m dd]. cbn [year month day] in *.
  unfold add_one_day. cbn [year month day].
  destruct (Z.ltb_spec dd (days_in_month y m)).
  - intros H'. injection H' as <-. split; [| split; [| cbn; lia]].
    + apply valid_date_intro; lia.
    + unfold date_ltb. cbn [year month day].
      rewrite !Z.eqb_refl, !Z.ltb_irrefl.
      replace (dd <? dd + 1) with true by (symmetry; apply Z.ltb_lt; lia).
      reflexivity.
  - destruct (Z.ltb_spec m 12).
    + intros H'. injection H' as <-. split; [| split; [| cbn; lia]].
      * pose proof (days_in_month_ge_28 y (m + 1)).
        apply valid_date_intro; lia.
      * unfold date_ltb. cbn [year month day].
        rewrite !Z.eqb_refl, !Z.ltb_irrefl.
        replace (m <? m + 1) with true by (symmetry; apply Z.ltb_lt; lia).
        reflexivity.
    + destruct (Z.ltb_spec y 9999); [| discriminate].
      intros H'. injection H' as <-. split; [| split; [| cbn; lia]].
      * apply valid_date_intro; cbn; lia.
      * unfold date_ltb. cbn [year month day].
        replace (y <? y + 1) with true by (symmetry; apply Z.ltb_lt; lia).
        reflexivity.
Qed.

End DateProperties.

Section ToolkitFurther.

Variable repr : pyval -> string.
Variable json_loads : string -> option pyval.
Variable now : date.
Variable aggregator : kwargs -> remote_outcome.

Lemma strptime_value_error (s : string) (e : exn) :
  strptime repr s = inl e -> exists message, e = ValueError message.
Proof.
  unfold strptime.
  destruct (match_format s) as [[[[y m] d] rest] |].
  - destruct (str_truthy rest); [intros H; injection H as <-; eauto |].
    destruct (y =? 0); [intros H; injection H as <-; eauto |].
    destruct (days_in_month y m <? d); [intros H; injection H as <-; eauto |].
    discriminate.
  - intros H. injection H as <-. eauto.
Qed.

Lemma str_truthy_true (s : string) : str_truthy s = true <-> s <> "".
Proof.
  unfold str_truthy. destruct (String.eqb_spec s ""); simpl; split;
    congruence.
Qed.

(** The three stages of [_validate_inputs] after the airport codes. *)
Lemma departure_stage (departure_date : string) :
  (if str_truthy departure_date
   then try_except
          (_ <- strptime repr departure_date ;; ret tt)
          (fun e => match e with
                    | ValueError _ =>
                        Some (raise (ValueError
                                "Departure date must be in YYYY-MM-DD format"))
                    | _ => None
                    end)
   else ret tt)
  = if str_truthy departure_date
    then match strptime repr departure_date with
         | inr _ => inr tt
         | inl _ => inl (ValueError "Departure date must be in YYYY-MM-DD format")
         end
    else inr tt.
Proof.
  destruct (str_truthy departure_date); [| reflexivity].
  destruct (strptime repr departure_date) as [e | d] eqn:E; [| reflexivity].
  destruct (strptime_value_error _ _ E) as [m ->]. reflexivity.
Qed.

Lemma return_stage (departure_date r : string) :
  try_except
    (return_dt <- strptime repr r ;;
     if str_truthy departure_date
     then departure_dt <- strptime repr departure_date ;;
          if date_ltb return_dt departure_dt
          then raise (ValueError "Return date must be after departure date")
          else ret tt
     else ret tt)
    (fun e => match e with
              | ValueError _ =>
                  Some (if str_contains "must be after" (exn_str repr e)
                        then raise e
                        else raise (ValueError
                               "Return date must be in YYYY-MM-DD format"))
              | _ => None
              end)
  = match strptime repr r with
    | inl e =>
        inl (if str_contains "must be after" (exn_str repr e)
             then e
             else ValueError "Return date must be in YYYY-MM-DD format")
    | inr back =>
        if str_truthy departure_date
        then match strptime repr departure_date with
             | inl e =>
                 inl (if str_contains "must be after" (exn_str repr e)
                      then e
                      else ValueError "Return date must be in YYYY-MM-DD format")
             | inr d =>
                 if date_ltb back d
                 then inl (ValueError "Return date must be after departure date")
                 else inr tt
             end
        else inr tt
    end.
Proof.
  unfold try_except.
  destruct (strptime repr r) as [e | back] eqn:Er; cbn [bind].
  - destruct (strptime_value_error _ _ Er) as [m ->]. cbn [exn_str].
    destruct (str_contains "must be after" m); reflexivity.
  - destruct (str_truthy departure_date); [| reflexivity].
    destruct (strptime repr departure_date) as [e | d] eqn:Ed; cbn [bind].
    + destruct (strptime_value_error _ _ Ed) as [m ->]. cbn [exn_str].
      destruct (str_contains "must be after" m); reflexivity.
    + destruct (date_ltb back d); reflexivity.
Qed.

(** [_validate_inputs], stage by stage. *)
Lemma validate_stages origin destination departure_date return_date adults :
  _validate_inputs repr origin destination departure_date return_date adults
  = if negb (str_truthy origin) || negb (str_truthy destination)
    then inl (ValueError "Origin and destination airport codes are required")
    else if negb (String.length origin =? 3)%nat
            || negb (String.length destination =? 3)%nat
    then inl (ValueError "Airport codes must be 3-letter IATA codes")
    else
      match (if str_truthy departure_date
             then match strptime repr departure_date with
                  | inr _ => inr tt
                  | inl _ =>
                      inl (ValueError
                             "Departure date must be in YYYY-MM-DD format")
                  end
             else inr tt) with
      | inl e => inl e
      | inr _ =>
          match (match return_date with
                 | Some r =>
                     if str_truthy r
                     then match strptime repr r with
                          | inl e =>
                              inl (if str_contains "must be after"
                                                   (exn_str repr e)
                                   then e
                                   else ValueError
                                          "Return date must be in YYYY-MM-DD format")
                          | inr back =>
                              if str_truthy departure_date
                              then match strptime repr departure_date with
                                   | inl e =>
                                       inl (if str_contains "must be after"
                                                            (exn_str repr e)
                                            then e
                                            else ValueError
                                                   "Return date must be in YYYY-MM-DD format")
                                   | inr d =>
                                       if date_ltb back d
                                       then inl (ValueError
                                                   "Return date must be after departure date")
                                       else inr tt
                                   end
                              else inr tt
                          end
                     else inr tt
                 | None => inr tt
                 end) with
          | inl e => inl e
          | inr _ =>
              if adults <? 1
              then inl (ValueError "Number of adults must be a positive integer")
              else inr tt
          end
      end.
Proof.
  unfold _validate_inputs.
  destruct (negb (str_truthy origin) || negb (str_truthy destination));
    [reflexivity |].
  destruct (negb (String.length origin =? 3)%nat
            || negb (String.length destination =? 3)%nat); [reflexivity |].
  rewrite departure_stage.
  destruct return_date as [r |]; [| reflexivity].
  destruct (str_truthy r); [| reflexivity].
  rewrite return_stage. reflexivity.
Qed.

Lemma validate_value_error origin destination departure_date return_date adults e :
  _validate_inputs repr origin destination departure_date return_date adults
  = inl e ->
  exists message, e = ValueError message.
Proof.
  rewrite validate_stages.
  destruct (negb (str_truthy origin) || negb (str_truthy destination));
    [intros H; injection H as <-; eauto |].
  destruct (negb (String.length origin =? 3)%nat
            || negb (String.length destination =? 3)%nat);
    [intros H; injection H as <-; eauto |].
  destruct (str_truthy departure_date) eqn:Hd.
  - destruct (strptime repr departure_date) as [e1 | d] eqn:Ed;
      [intros H; injection H as <-; eauto |].
    destruct return_date as [r |].
    + destruct (str_truthy r).
      * destruct (strptime repr r) as [e2 | back] eqn:Er.
        -- destruct (strptime_value_error _ _ Er) as [m ->]. cbn [exn_str].
           destruct (str_contains "must be after" m);
             intros H; injection H as <-; eauto.
        -- destruct (date_ltb back d); [intros H; injection H as <-; eauto |].
           destruct (adults <? 1); [intros H; injection H as <-; eauto |].
           discriminate.
      * destruct (adults <? 1); [intros H; injection H as <-; eauto |].
        discriminate.
    + destruct (adults <? 1); [intros H; injection H as <-; eauto |].
      discriminate.
  - destruct return_date as [r |].
    + destruct (str_truthy r).
      * destruct (strptime repr r) as [e2 | back] eqn:Er.
        -- destruct (strptime_value_error _ _ Er) as [m ->]. cbn [exn_str].
           destruct (str_contains "must be after" m);
             intros H; injection H as <-; eauto.
        -- destruct (adults <? 1); [intros H; injection H as <-; eauto |].
           discriminate.
      * destruct (adults <? 1); [intros H; injection H as <-; eauto |].
        discriminate.
    + destruct (adults <? 1); [intros H; injection H as <-; eauto |].
      discriminate.
Qed.


(** Once the codes and the dates are accepted, the outcome is that of
    the check on [adults]. *)
Lemma validate_reaches_adults origin destination departure_date return_date
    adults :
  String.length origin = 3%nat -> String.length destination = 3%nat ->
  departure_date_accepted repr departure_date ->
  return_date_admitted repr departure_date return_date ->
  _validate_inputs repr origin destination departure_date return_date adults
  = if adults <? 1
    then inl (ValueError "Number of adults must be a positive integer")
    else inr tt.
Proof.
  intros Lo Ld Hdep Hret. rewrite validate_stages.
  rewrite (length_3_truthy _ Lo), (length_3_truthy _ Ld), Lo, Ld.
  cbn [negb orb Nat.eqb].
  destruct Hdep as [-> | [d Ed]].
  - cbn [str_truthy String.eqb negb].
    destruct return_date as [r |]; [| reflexivity].
    destruct Hret as [-> | [back [Er _]]].
    + reflexivity.
    + rewrite (strptime_nonempty _ _ _ Er), Er. reflexivity.
  - rewrite (strptime_nonempty _ _ _ Ed), Ed.
    destruct return_date as [r |]; [| reflexivity].
    destruct Hret as [-> | [back [Er Hafter]]].
    + reflexivity.
    + rewrite (strptime_nonempty _ _ _ Er), Er.
      destruct Hafter as [-> | [d' [Ed' Hlt]]]; [discriminate Ed |].
      rewrite Ed in Ed'. injection Ed' as <-.
      rewrite Hlt. reflexivity.
Qed.

(** X1.  [_validate_inputs] accepts exactly the calls with airport codes
    of three characters, a departure date that is empty or parses, a
    return date that is absent, empty, or parses and (when a departure
    date is given) is not before it -- the same day is accepted -- and at
    least one adult. *)
Theorem validate_inputs_accepts_iff origin destination departure_date
    return_date adults :
  _validate_inputs repr origin destination departure_date return_date adults
  = inr tt
  <-> (String.length origin = 3%nat /\ String.length destination = 3%nat
       /\ departure_date_accepted repr departure_date
       /\ return_date_admitted repr departure_date return_date
       /\ 1 <= adults).
Proof.
  rewrite validate_stages. unfold departure_date_accepted, return_date_admitted.
  split.
  - destruct (str_truthy origin) eqn:Ho; [| discriminate].
    destruct (str_truthy destination) eqn:Hd; [| discriminate].
    destruct (Nat.eqb_spec (String.length origin) 3) as [Lo | Lo];
      [| discriminate].
    destruct (Nat.eqb_spec (String.length destination) 3) as [Ld | Ld];
      [| discriminate].
    cbn [negb orb].
    destruct (str_truthy departure_date) eqn:Hdep.
    + destruct (strptime repr departure_date) as [e | d] eqn:Ed;
        [discriminate |].
      destruct return_date as [r |].
      * destruct (str_truthy r) eqn:Hr.
        -- destruct (strptime repr r) as [e | back] eqn:Er; [discriminate |].
           destruct (date_ltb back d) eqn:Hlt; [discriminate |].
           destruct (Z.ltb_spec adults 1); [discriminate |].
           intros _. repeat split; try assumption; eauto 8.
        -- apply str_truthy_false in Hr.
           destruct (Z.ltb_spec adults 1); [discriminate |].
           intros _. repeat split; try assumption; eauto.
      * destruct (Z.ltb_spec adults 1); [discriminate |].
        intros _. repeat split; try assumption; eauto.
    + apply str_truthy_false in Hdep.
      destruct return_date as [r |].
      * destruct (str_truthy r) eqn:Hr.
        -- destruct (strptime repr r) as [e | back] eqn:Er; [discriminate |].
           destruct (Z.ltb_spec adults 1); [discriminate |].
           intros _. repeat split; try assumption; eauto 8.
        -- apply str_truthy_false in Hr.
           destruct (Z.ltb_spec adults 1); [discriminate |].
           intros _. repeat split; try assumption; eauto.
      * destruct (Z.ltb_spec adults 1); [discriminate |].
        intros _. repeat split; try assumption; eauto.
  - intros (Lo & Ld & Hdep & Hret & Ha).
    rewrite <- validate_stages.
    rewrite (validate_reaches_adults _ _ _ _ adults Lo Ld Hdep Hret).
    replace (adults <? 1) with false by (symmetry; apply Z.ltb_ge; lia).
    reflexivity.
Qed.

Lemma search_flights_rejected origin destination departure_date return_date
    adults currency max_results non_stop travel_class log message :
  _validate_inputs repr origin destination departure_date return_date adults
  = inl (ValueError message) ->
  FlightToolkit.search_flights repr json_loads now aggregator
    origin destination departure_date return_date adults
    currency max_results non_stop travel_class log
  = (log, inr ("Validation error: " ++ message)).
Proof.
  intros H.
  unfold FlightToolkit.search_flights, try_exceptM, search_flights_try, bindM,
    lift.
  rewrite H. reflexivity.
Qed.

(** X2.  Whenever [_validate_inputs] raises, what it raises is a
    [ValueError], and [search_flights] returns "Validation error: "
    followed by its message without sending a request. *)
Theorem validation_failure_sends_nothing origin destination departure_date
    return_date adults currency max_results non_stop travel_class log e :
  _validate_inputs repr origin destination departure_date return_date adults
  = inl e ->
  exists message,
    e = ValueError message
    /\ FlightToolkit.search_flights repr json_loads now aggregator
         origin destination departure_date return_date adults
         currency max_results non_stop travel_class log
       = (log, inr ("Validation error: " ++ message)).
Proof.
  intros H. destruct (validate_value_error _ _ _ _ _ _ H) as [message ->].
  exists message. split; [reflexivity |].
  apply search_flights_rejected. exact H.
Qed.

(** X3.  A departure date that is not empty and does not parse is
    rejected, once the airport codes have three characters, with the
    departure-date format message, whatever the other arguments. *)
Theorem unreadable_departure_date_message origin destination departure_date
    return_date adults currency max_results non_stop travel_class log e :
  String.length origin = 3%nat -> String.length destination = 3%nat ->
  departure_date <> "" ->
  strptime repr departure_date = inl e ->
  FlightToolkit.search_flights repr json_loads now aggregator
    origin destination departure_date return_date adults
    currency max_results non_stop travel_class log
  = (log, inr "Validation error: Departure date must be in YYYY-MM-DD format").
Proof.
  intros Lo Ld Hne He. apply search_flights_rejected.
  rewrite validate_stages.
  rewrite (length_3_truthy _ Lo), (length_3_truthy _ Ld), Lo, Ld.
  apply str_truthy_true in Hne. rewrite Hne, He. reflexivity.
Qed.

(** X4.  A return date that is not empty and does not parse is rejected,
    once the codes and the departure date are accepted.  The message is
    the return-date format message -- unless the text of the parsing
    error contains "must be after" (it quotes the return date), in which
    case that text itself is returned. *)
Theorem unreadable_return_date_message origin destination departure_date r
    adults currency max_results non_stop travel_class log e :
  String.length origin = 3%nat -> String.length destination = 3%nat ->
  departure_date_accepted repr departure_date ->
  r <> "" ->
  strptime repr r = inl e ->
  FlightToolkit.search_flights repr json_loads now aggregator
    origin destination departure_date (Some r) adults
    currency max_results non_stop travel_class log
  = (log,
     inr ("Validation error: "
          ++ (if str_contains "must be after" (exn_str repr e)
              then exn_str repr e
              else "Return date must be in YYYY-MM-DD format"))).
Proof.
  intros Lo Ld Hdep Hne He.
  destruct (strptime_value_error _ _ He) as [m ->]. cbn [exn_str].
  assert (Hv : _validate_inputs repr origin destination departure_date
                                (Some r) adults
               = inl (ValueError
                        (if str_contains "must be after" m
                         then m
                         else "Return date must be in YYYY-MM-DD format"))).
  { rewrite validate_stages.
    rewrite (length_3_truthy _ Lo), (length_3_truthy _ Ld), Lo, Ld.
    cbn [negb orb Nat.eqb].
    apply str_truthy_true in Hne. rewrite Hne, He. cbn [exn_str].
    destruct Hdep as [-> | [d Ed]].
    - cbn [str_truthy String.eqb negb].
      destruct (str_contains "must be after" m); reflexivity.
    - rewrite (strptime_nonempty _ _ _ Ed), Ed.
      destruct (str_contains "must be after" m); reflexivity. }
  apply search_flights_rejected. exact Hv.
Qed.

(** X5.  With the codes and both dates accepted, fewer than one adult is
    rejected with the "positive integer" message and no request is
    sent. *)
Theorem adults_below_one_message origin destination departure_date return_date
    adults currency max_results non_stop travel_class log :
  String.length origin = 3%nat -> String.length destination = 3%nat ->
  departure_date_accepted repr departure_date ->
  return_date_admitted repr departure_date return_date ->
  adults < 1 ->
  FlightToolkit.search_flights repr json_loads now aggregator
    origin destination departure_date return_date adults
    currency max_results non_stop travel_class log
  = (log, inr "Validation error: Number of adults must be a positive integer").
Proof.
  intros Lo Ld Hdep Hret Ha. apply search_flights_rejected.
  rewrite (validate_reaches_adults _ _ _ _ adults Lo Ld Hdep Hret).
  replace (adults <? 1) with true by (symmetry; apply Z.ltb_lt; lia).
  reflexivity.
Qed.


(** X6.  On a clock that shows a date of the calendar (year 1000 or
    later) and has a next day, that next day is later than today, and a
    call with an empty departure date behaves exactly as the call with
    that day written out as YYYY-MM-DD -- same requests, same result --
    provided the return date, if it parses, is not before it. *)
Theorem default_departure_is_tomorrow origin destination return_date adults
    currency max_results non_stop travel_class log tomorrow :
  valid_date now = true -> 1000 <= year now ->
  add_one_day now = inr tomorrow ->
  (forall r back, return_date = Some r -> strptime repr r = inr back ->
                  date_ltb back tomorrow = false) ->
  date_ltb now tomorrow = true
  /\ FlightToolkit.search_flights repr json_loads now aggregator
       origin destination "" return_date adults
       currency max_results non_stop travel_class log
     = FlightToolkit.search_flights repr json_loads now aggregator
         origin destination (strftime tomorrow) return_date adults
         currency max_results non_stop travel_class log.
Proof.
  intros Hv Hy Hnext Hret.
  destruct (add_one_day_valid now tomorrow Hv Hnext) as [Hvt [Hlt Hyt]].
  split; [exact Hlt |].
  assert (Hparse : strptime repr (strftime tomorrow) = inr tomorrow)
    by (apply strptime_strftime; [exact Hvt | lia]).
  assert (Htruthy : str_truthy (strftime tomorrow) = true)
    by (apply (strptime_nonempty repr _ _ Hparse)).
  assert (Hsame : _validate_inputs repr origin destination "" return_date adults
                  = _validate_inputs repr origin destination (strftime tomorrow)
                                     return_date adults).
  { rewrite !validate_stages. rewrite Htruthy, Hparse.
    cbn [str_truthy String.eqb negb].
    destruct (negb (str_truthy origin) || negb (str_truthy destination));
      [reflexivity |].
    destruct (negb (String.length origin =? 3)%nat
              || negb (String.length destination =? 3)%nat); [reflexivity |].
    destruct return_date as [r |]; [| reflexivity].
    destruct (str_truthy r); [| reflexivity].
    destruct (strptime repr r) as [e | back] eqn:Er; [reflexivity |].
    rewrite (Hret r back eq_refl Er). reflexivity. }
  unfold FlightToolkit.search_flights, try_exceptM, search_flights_try, bindM,
    lift.
  rewrite <- Hsame.
  destruct (_validate_inputs repr origin destination "" return_date adults)
    as [e | []]; [reflexivity |].
  rewrite Htruthy, Hnext. reflexivity.
Qed.

(** X7.  A call sends at most one request and keeps the requests logged
    before it.  The request it sends carries the origin, destination,
    number of adults, currency and maximum as given; [returnDate] exactly
    when a non-empty return date was given; [nonStop], as the string
    "true", exactly when [non_stop] is set; and [travelClass] exactly when
    the travel class is one of the four known names. *)
Theorem at_most_one_request origin destination departure_date return_date adults
    currency max_results non_stop travel_class log :
  let out := FlightToolkit.search_flights repr json_loads now aggregator
               origin destination departure_date return_date adults
               currency max_results non_stop travel_class log in
  fst out = log
  \/ exists kw,
       fst out = (log ++ [kw])%list
       /\ lookup "originLocationCode" kw = Some (PStr origin)
       /\ lookup "destinationLocationCode" kw = Some (PStr destination)
       /\ lookup "adults" kw = Some (PInt adults)
       /\ lookup "currencyCode" kw = Some (PStr currency)
       /\ lookup "max" kw = Some (PInt max_results)
       /\ lookup "returnDate" kw
          = match return_date with
            | Some r => if str_truthy r then Some (PStr r) else None
            | None => None
            end
       /\ lookup "nonStop" kw = (if non_stop then Some (PStr "true") else None)
       /\ lookup "travelClass" kw
          = match travel_class with
            | Some c => if mem c travel_classes then Some (PStr c) else None
            | None => None
            end.
Proof.
  cbv zeta.
  destruct (search_flights_log repr json_loads now aggregator origin destination
              departure_date return_date adults currency max_results non_stop
              travel_class log) as [Hlog | [d [Hlog _]]].
  - left. exact Hlog.
  - right. eexists. split; [exact Hlog |].
    repeat split; try reflexivity.
    + unfold request_kwargs.
      destruct return_date as [r |]; [destruct (str_truthy r) |];
        destruct non_stop;
        (destruct travel_class as [c |];
         [destruct (str_truthy c && mem c travel_classes) |]); reflexivity.
    + unfold request_kwargs.
      destruct return_date as [r |]; [destruct (str_truthy r) |];
        destruct non_stop;
        (destruct travel_class as [c |];
         [destruct (str_truthy c && mem c travel_classes) |]); reflexivity.
    + rewrite lookup_travel_class.
      destruct travel_class as [c |]; [| reflexivity].
      destruct (str_truthy c) eqn:Hc; [reflexivity |].
      apply str_truthy_false in Hc. subst c. reflexivity.
Qed.

Lemma mapM_length {A B} (f : A -> result B) (l : list A) (ys : list B) :
  mapM f l = inr ys -> List.length ys = List.length l.
Proof.
  revert ys. induction l as [| x l IH]; cbn [mapM]; intros ys H.
  - injection H as <-. reflexivity.
  - destruct (f x) as [e | y]; [discriminate |]. cbn [bind] in H.
    destruct (mapM f l) as [e | ys']; [discriminate |]. cbn [bind] in H.
    injection H as <-. cbn. rewrite (IH ys' eq_refl). reflexivity.
Qed.

Lemma chars_length (s : string) : List.length (chars s) = String.length s.
Proof.
  induction s as [| c s IH]; cbn; [reflexivity |]. rewrite IH. reflexivity.
Qed.

Lemma len_iter (v : pyval) (n : Z) (items : list pyval) :
  len v = inr n -> iter v = inr items -> n = Z.of_nat (List.length items).
Proof.
  destruct v; cbn; try discriminate; intros Hn Hi;
    injection Hn as <-; injection Hi as <-.
  - rewrite chars_length. reflexivity.
  - reflexivity.
  - rewrite length_map. reflexivity.
Qed.

(** X8.  Whatever the aggregator's data, when [_process_flight_results]
    returns, it returns a document of exactly two fields, [count] and
    [flights], and [count] is the number of flights listed. *)
Theorem count_is_number_of_flights (data doc : pyval) :
  _process_flight_results data = inr doc ->
  exists flights,
    doc = PDict [("count", PInt (Z.of_nat (List.length flights)));
                 ("flights", PList flights)].
Proof.
  unfold _process_flight_results.
  destruct (truthy data).
  - cbn [negb].
    destruct (len data) as [e | n] eqn:Hn; [discriminate |].
    destruct (iter data) as [e | items] eqn:Hi; [discriminate |].
    cbn [bind].
    destruct (mapM process_offer items) as [e | flights] eqn:Hm;
      [discriminate |].
    cbn [bind ret]. intros H. injection H as <-.
    exists flights.
    rewrite (len_iter _ _ _ Hn Hi), (mapM_length _ _ _ Hm). reflexivity.
  - cbn [negb ret]. intros H. injection H as <-. exists []. reflexivity.
Qed.

Lemma mapM_first_failure (f : pyval -> result pyval) (ok : pyval -> bool)
    (good rest : list pyval) (bad : pyval) (e : exn) :
  (forall x, ok x = true -> exists y, f x = inr y) ->
  forallb ok good = true ->
  f bad = inl e ->
  mapM f (good ++ bad :: rest) = inl e.
Proof.
  intros Hok Hgood Hbad. induction good as [| x good IH]; cbn [app mapM].
  - rewrite Hbad. reflexivity.
  - cbn [forallb] in Hgood. apply andb_prop in Hgood.
    destruct Hgood as [Hx Hgood].
    destruct (Hok x Hx) as [y Hy]. rewrite Hy. cbn [bind].
    rewrite (IH Hgood). reflexivity.
Qed.

(** X9.  No partial results: when the arguments are valid and the
    aggregator answers with a list in which some offer cannot be
    reshaped (the offers before it being well formed), the request has
    been sent, and the call returns the error text of that offer's
    exception instead of any flights. *)
Theorem one_bad_offer_fails_the_call origin destination departure_date
    return_date adults currency max_results non_stop travel_class log
    good bad rest e :
  _validate_inputs repr origin destination departure_date return_date adults
  = inr tt ->
  departure_date <> "" ->
  aggregator (request_kwargs origin destination departure_date return_date
                             adults currency max_results non_stop travel_class)
  = Response (PList (good ++ bad :: rest)) ->
  forallb wf_offer good = true ->
  process_offer bad = inl e ->
  FlightToolkit.search_flights repr json_loads now aggregator
    origin destination departure_date return_date adults
    currency max_results non_stop travel_class log
  = ((log ++ [request_kwargs origin destination departure_date return_date
                adults currency max_results non_stop travel_class])%list,
     inr (error_text repr json_loads e)).
Proof.
  intros Hv Hd Hagg Hgood Hbad.
  assert (Hm : mapM process_offer (good ++ bad :: rest) = inl e).
  { apply (mapM_first_failure process_offer wf_offer); try assumption.
    intros x Hx. destruct (process_offer_rendered x Hx) as [y [Hy _]]. eauto. }
  unfold FlightToolkit.search_flights, try_exceptM, search_flights_try, bindM,
    lift.
  apply str_truthy_true in Hd. rewrite Hv, Hd. cbn [negb retM].
  unfold flight_offers_search. rewrite Hagg.
  unfold _process_flight_results.
  replace (truthy (PList (good ++ bad :: rest))) with true
    by (destruct good; reflexivity).
  cbn [negb len iter bind ret]. rewrite Hm.
  destruct e; reflexivity.
Qed.

Lemma mapM_some_failure (f : pyval -> result string) (l : list pyval)
    (x : pyval) (e : exn) :
  In x l -> f x = inl e -> exists e', mapM f l = inl e'.
Proof.
  induction l as [| y l IH]; intros Hin Hx; [contradiction |].
  cbn [mapM]. destruct Hin as [-> | Hin].
  - rewrite Hx. eexists. reflexivity.
  - destruct (f y) as [e1 | y']; [eexists; reflexivity |]. cbn [bind].
    destruct (IH Hin Hx) as [e' ->]. eexists. reflexivity.
Qed.

(** X10.  [_parse_error_response] falls back on [str(error)] whenever the
    error carries no response, no body or an empty body, a body that is
    not JSON, a document without an [errors] field, an [errors] field
    that is empty (or otherwise false), or an [errors] list in which some
    entry is not an object -- in the last case without keeping the
    entries it could describe. *)
Theorem parse_error_response_falls_back (r : response_error) :
  (re_response r = None \/ re_response r = Some None
   \/ re_response r = Some (Some "")
   \/ exists body,
        re_response r = Some (Some body)
        /\ (json_loads body = None
            \/ exists doc,
                 json_loads body = Some doc
                 /\ (field "errors" doc = None
                     \/ (exists errors,
                            field "errors" doc = Some errors
                            /\ truthy errors = false)
                     \/ (exists errs err,
                            field "errors" doc = Some (PList errs)
                            /\ In err errs
                            /\ forall kvs, err <> PDict kvs)))) ->
  _parse_error_response repr json_loads r = re_str r.
Proof.
  unfold _parse_error_response.
  intros [-> | [-> | [-> | [body [-> H]]]]]; try reflexivity.
  destruct (str_truthy body); [| reflexivity].
  destruct H as [-> | [doc [-> H]]]; [reflexivity |].
  destruct H as [Hnone | [[errors [Hsome Hfalse]] | [errs [err [Hsome [Hin Hobj]]]]]].
  - destruct doc; cbn in Hnone; cbn [contains bind ret getitem raise];
      try reflexivity.
    + destruct (str_contains "errors" s); reflexivity.
    + destruct (existsb (is_str "errors") xs); reflexivity.
    + rewrite Hnone. reflexivity.
  - destruct doc; cbn in Hsome; try discriminate.
    cbn [contains getitem bind ret]. rewrite Hsome. cbn [bind ret].
    rewrite Hfalse. reflexivity.
  - destruct doc; cbn in Hsome; try discriminate.
    cbn [contains getitem bind ret]. rewrite Hsome. cbn [bind ret].
    destruct errs as [| first errs]; [contradiction |].
    cbn [truthy iter bind ret].
    assert (Herr : exists e, error_detail repr err = inl e).
    { unfold error_detail.
      destruct err; cbn [get raise bind]; eauto.
      exfalso. apply (Hobj kvs0). reflexivity. }
    destruct Herr as [e He].
    destruct (mapM_some_failure (error_detail repr) (first :: errs) err e Hin He)
      as [e' ->].
    reflexivity.
Qed.

Lemma getitem_inr (v x : pyval) (k : string) :
  getitem v k = inr x -> field k v = Some x.
Proof.
  destruct v; cbn; try discriminate.
  destruct (lookup k kvs); [intros H; injection H as <-; reflexivity |].
  discriminate.
Qed.

Lemma get_inr (v x default : pyval) (k : string) :
  get v k default = inr x ->
  exists kvs, v = PDict kvs
              /\ x = match lookup k kvs with Some y => y | None => default end.
Proof.
  destruct v; cbn; try discriminate.
  intros H. exists kvs. split; [reflexivity |].
  destruct (lookup k kvs); injection H as <-; reflexivity.
Qed.

(** X24.  [process_segment] returns exactly for the raw segments that
    are objects with a [departure] and an [arrival] object each carrying
    [iataCode] and [at], with [carrierCode] and [number], and with
    [aircraft] absent or an object; on every other value it raises. *)
Theorem process_segment_returns_iff (segment : pyval) :
  (exists out, process_segment segment = inr out) <-> wf_segment segment = true.
Proof.
  split.
  - intros [out H]. unfold process_segment in H.
    repeat match type of H with
           | bind ?m _ = inr _ =>
               let E := fresh "E" in
               destruct m as [? | ?] eqn:E; [discriminate H |];
               cbn [bind] in H
           end.
    repeat match goal with
           | E : getitem _ _ = inr _ |- _ => apply getitem_inr in E
           end.
    unfold wf_segment, has.
    repeat match goal with
           | E : field ?k ?v = Some _ |- _ => rewrite E; clear E
           end.
    cbn [andb].
    match goal with
    | E1 : get segment "aircraft" _ = inr ?a, E2 : get ?a "code" _ = inr _ |- _ =>
        destruct (get_inr _ _ _ _ E1) as [kvs [-> Ha]];
        destruct (get_inr _ _ _ _ E2) as [kvs' [-> _]]
    end.
    cbn [field]. destruct (lookup "aircraft" kvs) as [a |]; [| reflexivity].
    subst a. reflexivity.
  - intros Hwf. destruct (process_segment_rendered segment Hwf) as [out [H _]].
    exists out. exact H.
Qed.

End ToolkitFurther.

(** * Properties of the place-search tool *)

Section MapProperties.

Variable repr : pyval -> string.
Variable api_key : option string.
Variable textsearch : kwargs -> remote_outcome.

(** X11.  Without an API key -- the variable unset or empty -- every
    search returns the fixed "not configured" text and sends no request. *)
Theorem search_places_needs_key (query : string) (log : list kwargs) :
  api_key = None \/ api_key = Some "" ->
  search_places repr api_key textsearch query log
  = (log, inr "Error: Google Maps API key is not configured.").
Proof.
  intros [-> | ->]; reflexivity.
Qed.

(** X12.  [search_places] never raises: it returns a string for every
    query, key and behaviour of the service.  It sends at most one
    request, made of the query and the key, and when the service raises,
    the string is "Error searching places: " followed by the text of the
    exception. *)
Theorem search_places_returns_string (query : string) (log : list kwargs) :
  (exists log' text,
      search_places repr api_key textsearch query log = (log', inr text)
      /\ (log' = log
          \/ exists key,
               api_key = Some key
               /\ log' = (log ++ [[("query", PStr query); ("key", PStr key)]])%list))
  /\ (forall key e,
         api_key = Some key -> key <> "" ->
         textsearch [("query", PStr query); ("key", PStr key)] = Raises e ->
         search_places repr api_key textsearch query log
         = ((log ++ [[("query", PStr query); ("key", PStr key)]])%list,
            inr ("Error searching places: " ++ exn_str repr e))).
Proof.
  split.
  - unfold search_places.
    destruct api_key as [key |]; [| exists log, not_configured; auto].
    destruct (str_truthy key); [| exists log, not_configured; auto].
    unfold try_exceptM.
    assert (Hlog : fst (search_places_try repr textsearch query key log)
                   = (log ++ [[("query", PStr query); ("key", PStr key)]])%list).
    { unfold search_places_try, bindM, places_request, lift.
      destruct (textsearch _) as [results | e]; [| reflexivity].
      destruct (get results "status" PNone) as [e | status]; [reflexivity |].
      destruct (negb (is_str "OK" status)).
      - destruct (get results "error_message" _) as [e | message];
          reflexivity.
      - destruct (get results "results" _) as [e | found]; [reflexivity |].
        destruct (slice_to 10 found) as [e | first_ten]; [reflexivity |].
        destruct (iter first_ten) as [e | items]; [reflexivity |].
        destruct (mapM (place_details) items) as [e | places]; reflexivity. }
    destruct (search_places_try repr textsearch query key log)
      as [log' [e | text]]; cbn [fst] in Hlog; subst log'.
    + eexists _, _. split; [reflexivity |]. right. eauto.
    + eexists _, _. split; [reflexivity |]. right. eauto.
  - intros key e -> Hkey Hraise. unfold search_places.
    apply str_truthy_true in Hkey. rewrite Hkey.
    unfold try_exceptM, search_places_try, bindM, places_request.
    rewrite Hraise. reflexivity.
Qed.

(** X13.  When the service answers with an object whose [status] is not
    the string OK (or is missing), the search returns "Error searching
    Google Maps: <status> (<error_message>)", with None for a missing
    status and "No error message provided" for a missing message. *)
Theorem search_places_reports_status (query key : string) (log : list kwargs)
    (kvs : list (string * pyval)) :
  api_key = Some key -> key <> "" ->
  textsearch [("query", PStr query); ("key", PStr key)] = Response (PDict kvs) ->
  lookup "status" kvs <> Some (PStr "OK") ->
  search_places repr api_key textsearch query log
  = ((log ++ [[("query", PStr query); ("key", PStr key)]])%list,
     inr ("Error searching Google Maps: "
          ++ str repr (or_default PNone (lookup "status" kvs))
          ++ " ("
          ++ str repr (or_default (PStr "No error message provided")
                                  (lookup "error_message" kvs))
          ++ ")")).
Proof.
  intros -> Hkey Hresp Hstatus. unfold search_places.
  apply str_truthy_true in Hkey. rewrite Hkey.
  unfold try_exceptM, search_places_try, bindM, places_request, lift.
  rewrite Hresp. cbn [get].
  assert (Hnot : is_str "OK" (or_default PNone (lookup "status" kvs)) = false).
  { destruct (lookup "status" kvs) as [status |]; [| reflexivity].
    destruct status; try reflexivity. cbn.
    destruct (String.eqb_spec s "OK") as [-> | _]; [| reflexivity].
    exfalso. apply Hstatus. reflexivity. }
  destruct (lookup "status" kvs) as [status |]; cbn [ret or_default] in *;
    rewrite Hnot; cbn [negb];
    destruct (lookup "error_message" kvs); reflexivity.
Qed.

Lemma join_items_strings (l : list pyval) (index : nat) :
  all_str l = true -> join_items index l = inr (strings_of l).
Proof.
  revert index. induction l as [| x l IH]; intros index H; [reflexivity |].
  cbn [all_str forallb] in H. apply andb_prop in H. destruct H as [Hx Hl].
  destruct x; try discriminate. cbn [join_items].
  rewrite (IH (S index) Hl). reflexivity.
Qed.

Lemma place_details_summary (place : pyval) :
  wf_place place = true -> place_details place = inr (place_summary place).
Proof.
  destruct place as [| | | | | | kvs]; try discriminate.
  unfold wf_place, place_details, place_summary. cbn [get field].
  destruct (lookup "name" kvs); destruct (lookup "formatted_address" kvs);
    destruct (lookup "rating" kvs); destruct (lookup "user_ratings_total" kvs);
    cbn [bind ret or_default];
    (destruct (lookup "types" kvs) as [types |]; cbn [bind ret];
     [destruct types; try discriminate; intros Hall; unfold join;
      cbn [iter ret]; rewrite (join_items_strings _ 0 Hall); reflexivity
     | intros _; reflexivity]).
Qed.

Lemma mapM_places (l : list pyval) :
  forallb wf_place l = true ->
  mapM place_details l = inr (map place_summary l).
Proof.
  induction l as [| x l IH]; cbn [forallb mapM map]; intros Hl.
  - reflexivity.
  - apply andb_prop in Hl. destruct Hl as [Hx Hl].
    rewrite (place_details_summary x Hx), (IH Hl). reflexivity.
Qed.

(** X14.  When the service answers OK with a list of places of which
    the first ten are objects whose [types], when present, is a list of
    strings, the search returns the JSON list of the summaries of these
    first ten, in order: as many entries as there were places when these
    were fewer than ten, ten otherwise; and the empty list when the
    answer has no [results].  Places after the tenth are not looked at. *)
Theorem search_places_lists_first_ten (query key : string) (log : list kwargs)
    (kvs : list (string * pyval)) (places : list pyval) :
  api_key = Some key -> key <> "" ->
  textsearch [("query", PStr query); ("key", PStr key)] = Response (PDict kvs) ->
  lookup "status" kvs = Some (PStr "OK") ->
  or_default (PList []) (lookup "results" kvs) = PList places ->
  forallb wf_place (firstn 10 places) = true ->
  search_places repr api_key textsearch query log
  = ((log ++ [[("query", PStr query); ("key", PStr key)]])%list,
     inr (dumps 2 (PList (map place_summary (firstn 10 places)))))
  /\ List.length (map place_summary (firstn 10 places))
     = Nat.min 10 (List.length places).
Proof.
  intros -> Hkey Hresp Hstatus Hresults Hwf. split.
  - unfold search_places. apply str_truthy_true in Hkey. rewrite Hkey.
    unfold try_exceptM, search_places_try, bindM, places_request, lift.
    rewrite Hresp. cbn [get]. rewrite Hstatus. cbn [ret is_str String.eqb negb].
    replace (match lookup "results" kvs with
             | Some x => ret x
             | None => ret (PList [])
             end) with (@inr exn pyval (PList places))
      by (rewrite <- Hresults; destruct (lookup "results" kvs); reflexivity).
    cbn [slice_to ret iter].
    rewrite (mapM_places _ Hwf). reflexivity.
  - rewrite length_map, length_firstn. reflexivity.
Qed.

Lemma mapM_places_failure (good rest : list pyval) (bad : pyval) (e : exn) :
  forallb wf_place good = true ->
  place_details bad = inl e ->
  mapM place_details (good ++ bad :: rest) = inl e.
Proof.
  intros Hgood Hbad. induction good as [| x good IH]; cbn [app mapM].
  - rewrite Hbad. reflexivity.
  - cbn [forallb] in Hgood. apply andb_prop in Hgood.
    destruct Hgood as [Hx Hgood].
    rewrite (place_details_summary x Hx). cbn [bind].
    rewrite (IH Hgood). reflexivity.
Qed.

(** X22.  No partial list: when the service answers OK and, among the
    first ten places, one cannot be summarised (the places before it
    being well formed), the search returns "Error searching places: "
    followed by the text of that place's exception, and no places. *)
Theorem one_bad_place_fails_the_search (query key : string) (log : list kwargs)
    (kvs : list (string * pyval)) (places good rest : list pyval)
    (bad : pyval) (e : exn) :
  api_key = Some key -> key <> "" ->
  textsearch [("query", PStr query); ("key", PStr key)] = Response (PDict kvs) ->
  lookup "status" kvs = Some (PStr "OK") ->
  lookup "results" kvs = Some (PList places) ->
  firstn 10 places = (good ++ bad :: rest)%list ->
  forallb wf_place good = true ->
  place_details bad = inl e ->
  search_places repr api_key textsearch query log
  = ((log ++ [[("query", PStr query); ("key", PStr key)]])%list,
     inr ("Error searching places: " ++ exn_str repr e)).
Proof.
  intros -> Hkey Hresp Hstatus Hresults Hfirst Hgood Hbad.
  unfold search_places. apply str_truthy_true in Hkey. rewrite Hkey.
  unfold try_exceptM, search_places_try, bindM, places_request, lift.
  rewrite Hresp. cbn [get]. rewrite Hstatus, Hresults.
  cbn [ret is_str String.eqb negb slice_to iter].
  rewrite Hfirst, (mapM_places_failure good rest bad e Hgood Hbad).
  reflexivity.
Qed.

End MapProperties.

(** * Further properties of the planning workflow *)

Section WorkflowFurther.

Variable agent_run : list step -> agent -> string -> agent_outcome.

Local Notation extracting :=
  (Yielded (mk_RunResponse (CStr "Extracting travel details...") run_response)).
Local Notation searching :=
  (Yielded (mk_RunResponse (CStr "Searching for flights...") run_response)).
Local Notation finding :=
  (Yielded (mk_RunResponse
              (CStr "Finding accommodation, dining, and attractions...")
              run_response)).
Local Notation generating :=
  (Yielded (mk_RunResponse (CStr "Generating your complete travel plan...")
                           run_response)).
Local Notation completed c := (Yielded (mk_RunResponse c workflow_completed)).

Lemma run_agent_step (a : agent) (message : string) (trace : list step) :
  fst (run_agent agent_run a message trace) = (trace ++ [Ran a message])%list.
Proof. reflexivity. Qed.

Lemma search_flights_step (travel_info : content) (trace : list step) :
  exists trace' c,
    TourMoreAI.search_flights agent_run travel_info trace = (trace', inr c)
    /\ ((trace' = trace /\ c = CNone)
        \/ exists t message,
             travel_info = CTravelInfo t
             /\ trace' = (trace ++ [Ran flight_search_agent message])%list).
Proof.
  unfold TourMoreAI.search_flights, try_exceptW, bindW, liftW, retW.
  destruct travel_info as [| s | t | f | d];
    try (cbn; eexists _, _; split; [reflexivity | left; split; reflexivity]).
  cbn [getattr ret]. unfold run_agent.
  match goal with
  | |- context [agent_run trace flight_search_agent ?q] =>
      destruct (agent_run trace flight_search_agent q) as [[c |] | e]
  end; cbn [content_of ret raise];
    eexists _, _; (split; [reflexivity | right; eauto]).
Qed.

Lemma get_destination_info_step (travel_info : content) (trace : list step) :
  exists trace' c,
    get_destination_info agent_run travel_info trace = (trace', inr c)
    /\ ((trace' = trace /\ c = CDestinationInfo fallback_info)
        \/ exists t message,
             travel_info = CTravelInfo t
             /\ trace' = (trace ++ [Ran destination_info_agent message])%list).
Proof.
  unfold get_destination_info, try_exceptW, bindW, liftW, retW.
  destruct travel_info as [| s | t | f | d];
    try (cbn; eexists _, _; split; [reflexivity | left; split; reflexivity]).
  cbn [getattr ret]. unfold run_agent.
  match goal with
  | |- context [agent_run trace destination_info_agent ?q] =>
      destruct (agent_run trace destination_info_agent q) as [[c |] | e]
  end; cbn [content_of ret raise];
    eexists _, _; (split; [reflexivity | right; eauto]).
Qed.

Lemma generate_travel_plan_step (travel_info flight_details destination_info : content)
    (trace : list step) :
  exists trace' c,
    generate_travel_plan agent_run travel_info flight_details destination_info
                         trace
    = (trace', inr c)
    /\ ((trace' = trace /\ c = CNone)
        \/ exists message,
             trace' = (trace ++ [Ran travel_plan_agent message])%list).
Proof.
  unfold generate_travel_plan, try_exceptW, bindW, liftW, retW.
  destruct (model_dump travel_info) as [e | v1];
    [eexists _, _; split; [reflexivity | left; split; reflexivity] |].
  destruct (model_dump flight_details) as [e | v2];
    [eexists _, _; split; [reflexivity | left; split; reflexivity] |].
  destruct (model_dump destination_info) as [e | v3];
    [eexists _, _; split; [reflexivity | left; split; reflexivity] |].
  unfold run_agent.
  match goal with
  | |- context [agent_run trace travel_plan_agent ?q] =>
      destruct (agent_run trace travel_plan_agent q) as [[c |] | e]
  end; cbn [content_of ret raise];
    eexists _, _; (split; [reflexivity | right; eauto]).
Qed.

Lemma get_navigation_info_step (origin destination : string) (trace : list step) :
  exists c message,
    get_navigation_info agent_run origin destination trace
    = ((trace ++ [Ran navigation_agent message])%list, inr c).
Proof.
  unfold get_navigation_info, try_exceptW, bindW, liftW, retW, run_agent.
  match goal with
  | |- context [agent_run trace navigation_agent ?q] =>
      destruct (agent_run trace navigation_agent q) as [[c |] | e]
  end; cbn [content_of ret raise]; eexists _, _; reflexivity.
Qed.

(** X15.  None of the five step methods raises, whatever its arguments
    and its agent do; each runs no agent but its own, and that one at
    most once. *)
Theorem step_methods_never_raise (request origin destination : string)
    (travel_info flight_details destination_info : content) (trace : list step) :
  (exists trace' c,
      extract_travel_info agent_run request trace = (trace', inr c)
      /\ ran_at_most travel_info_agent trace trace')
  /\ (exists trace' c,
         TourMoreAI.search_flights agent_run travel_info trace = (trace', inr c)
         /\ ran_at_most flight_search_agent trace trace')
  /\ (exists trace' c,
         get_destination_info agent_run travel_info trace = (trace', inr c)
         /\ ran_at_most destination_info_agent trace trace')
  /\ (exists trace' c,
         get_navigation_info agent_run origin destination trace = (trace', inr c)
         /\ ran_at_most navigation_agent trace trace')
  /\ (exists trace' c,
         generate_travel_plan agent_run travel_info flight_details
                              destination_info trace
         = (trace', inr c)
         /\ ran_at_most travel_plan_agent trace trace').
Proof.
  unfold ran_at_most. repeat split.
  - rewrite extract_travel_info_content. eexists _, _. split; [reflexivity |].
    right. eauto.
  - destruct (search_flights_step travel_info trace)
      as [trace' [c [H [[-> _] | [t [m [_ ->]]]]]]];
      eexists _, c; (split; [exact H | eauto]).
  - destruct (get_destination_info_step travel_info trace)
      as [trace' [c [H [[-> _] | [t [m [_ ->]]]]]]];
      eexists _, c; (split; [exact H | eauto]).
  - destruct (get_navigation_info_step origin destination trace)
      as [c [m H]].
    eexists _, c. split; [exact H | eauto].
  - destruct (generate_travel_plan_step travel_info flight_details
                destination_info trace)
      as [trace' [c [H [[-> _] | [m ->]]]]];
      eexists _, c; (split; [exact H | eauto]).
Qed.


Lemma search_flights_on_intent (t : TravelInfo) (trace : list step) :
  exists message,
    TourMoreAI.search_flights agent_run (CTravelInfo t) trace
    = ((trace ++ [Ran flight_search_agent message])%list,
       inr (content_or CNone (agent_run trace flight_search_agent message))).
Proof.
  unfold TourMoreAI.search_flights, try_exceptW, bindW, liftW, retW, run_agent.
  cbn [getattr ret].
  match goal with
  | |- context [agent_run trace flight_search_agent ?q] =>
      exists q; destruct (agent_run trace flight_search_agent q) as [[c |] | e]
  end; reflexivity.
Qed.

Lemma get_destination_info_on_intent (t : TravelInfo) (trace : list step) :
  exists message,
    get_destination_info agent_run (CTravelInfo t) trace
    = ((trace ++ [Ran destination_info_agent message])%list,
       inr (content_or (CDestinationInfo fallback_info)
                       (agent_run trace destination_info_agent message))).
Proof.
  unfold get_destination_info, try_exceptW, bindW, liftW, retW, run_agent.
  cbn [getattr ret].
  match goal with
  | |- context [agent_run trace destination_info_agent ?q] =>
      exists q; destruct (agent_run trace destination_info_agent q) as [[c |] | e]
  end; reflexivity.
Qed.

Lemma generate_travel_plan_on_records (t : TravelInfo) (f : FlightDetails)
    (d : DestinationInfo) (trace : list step) :
  exists message,
    generate_travel_plan agent_run (CTravelInfo t) (CFlightDetails f)
                         (CDestinationInfo d) trace
    = ((trace ++ [Ran travel_plan_agent message])%list,
       inr (content_or CNone (agent_run trace travel_plan_agent message))).
Proof.
  unfold generate_travel_plan, try_exceptW, bindW, liftW, retW, run_agent.
  cbn [model_dump ret].
  match goal with
  | |- context [agent_run trace travel_plan_agent ?q] =>
      exists q; destruct (agent_run trace travel_plan_agent q) as [[c |] | e]
  end; reflexivity.
Qed.

(** The shapes a run can take. *)
Lemma run_cases (request : string) :
  let out := run agent_run request [] in
  out = ([extracting; Ran travel_info_agent request;
          completed (CStr no_travel_info)], inr tt)
  \/ (exists mid,
         (mid = [] \/ exists q, mid = [Ran flight_search_agent q])
         /\ out = (([extracting; Ran travel_info_agent request; searching]
                    ++ mid ++ [completed (CStr no_flights)])%list, inr tt))
  \/ (exists q1 q2,
         out = ([extracting; Ran travel_info_agent request; searching;
                 Ran flight_search_agent q1; finding;
                 Ran destination_info_agent q2;
                 completed (CStr no_destination_info)], inr tt))
  \/ (exists q1 q2 mid last,
         (mid = [] \/ exists q, mid = [Ran travel_plan_agent q])
         /\ out = (([extracting; Ran travel_info_agent request; searching;
                     Ran flight_search_agent q1; finding;
                     Ran destination_info_agent q2; generating]
                    ++ mid ++ [completed last])%list, inr tt))
  \/ (exists q1 q2 mid e,
         (mid = [] \/ exists q, mid = [Ran travel_plan_agent q])
         /\ out = (([extracting; Ran travel_info_agent request; searching;
                     Ran flight_search_agent q1; finding;
                     Ran destination_info_agent q2; generating]
                    ++ mid)%list, inl e)).
Proof.
  cbv zeta. unfold run, bindW, yield. cbn [app].
  rewrite extract_travel_info_content.
  set (intent := match agent_run [extracting] travel_info_agent request with
                 | Returns (Some c) => c
                 | _ => CNone
                 end).
  destruct (is_none intent) eqn:Hintent; [left; reflexivity |].
  right. cbn [app].
  destruct intent as [| s | t | f0 | d0]; try discriminate Hintent;
    try (left; exists []; split; [left; reflexivity | reflexivity]).
  destruct (search_flights_on_intent t
              [extracting; Ran travel_info_agent request; searching])
    as [q1 Hq1].
  rewrite Hq1. cbn [app].
  destruct (is_none (content_or CNone _)) eqn:Hflights.
  { left. exists [Ran flight_search_agent q1].
    split; [right; eauto | reflexivity]. }
  right. cbn [app].
  destruct (get_destination_info_on_intent t
              [extracting; Ran travel_info_agent request; searching;
               Ran flight_search_agent q1; finding]) as [q2 Hq2].
  rewrite Hq2. cbn [app].
  destruct (is_none (content_or (CDestinationInfo fallback_info) _))
    eqn:Hdest.
  { left. exists q1, q2. reflexivity. }
  right. cbn [app].
  match goal with
  | |- context [generate_travel_plan agent_run ?a ?b ?c ?tr] =>
      destruct (generate_travel_plan_step a b c tr)
        as [trace' [plan [Hplan Hshape]]]; rewrite Hplan
  end.
  destruct Hshape as [[-> ->] | [q3 ->]].
  - cbn [is_none]. unfold liftW.
    destruct (partial_report _ _) as [e | report].
    + right. exists q1, q2, [], e. split; [left; reflexivity | reflexivity].
    + left. exists q1, q2, [], (CStr report).
      split; [left; reflexivity | reflexivity].
  - destruct (is_none plan) eqn:Hp.
    + unfold liftW.
      destruct (partial_report _ _) as [e | report].
      * right. exists q1, q2, [Ran travel_plan_agent q3], e.
        split; [right; eauto | reflexivity].
      * left. exists q1, q2, [Ran travel_plan_agent q3], (CStr report).
        split; [right; eauto | reflexivity].
    + left. exists q1, q2, [Ran travel_plan_agent q3], plan.
      split; [right; eauto | reflexivity].
Qed.

(** X16.  Whatever the agents do, a run consults them in the fixed order
    intent, flights, destination, itinerary, each at most once and none
    before the ones ahead of it: the agents run are the first [n] of the
    four, with [n] at least 1.  The navigation agent is never run. *)
Theorem steps_run_in_fixed_order (request : string) :
  exists n,
    (1 <= n <= 4)%nat
    /\ agents_run (fst (run agent_run request []))
       = firstn n [travel_info_agent; flight_search_agent;
                   destination_info_agent; travel_plan_agent].
Proof.
  destruct (run_cases request)
    as [H | [[mid [Hmid H]] | [[q1 [q2 H]]
       | [[q1 [q2 [mid [last [Hmid H]]]]] | [q1 [q2 [mid [e [Hmid H]]]]]]]]];
    rewrite H; clear H.
  - exists 1%nat. split; [lia | reflexivity].
  - destruct Hmid as [-> | [q ->]].
    + exists 1%nat. split; [lia | reflexivity].
    + exists 2%nat. split; [lia | reflexivity].
  - exists 3%nat. split; [lia | reflexivity].
  - destruct Hmid as [-> | [q ->]].
    + exists 3%nat. split; [lia | reflexivity].
    + exists 4%nat. split; [lia | reflexivity].
  - destruct Hmid as [-> | [q ->]].
    + exists 3%nat. split; [lia | reflexivity].
    + exists 4%nat. split; [lia | reflexivity].
Qed.

(** X17.  Every run first yields the "Extracting travel details..."
    notification.  A run that returns ends with a notification marked
    [workflow_completed], the only one so marked; a run that raises has
    yielded none. *)
Theorem run_ends_with_one_completion (request : string) :
  (exists rest,
      yields (fst (run agent_run request []))
      = mk_RunResponse (CStr "Extracting travel details...") run_response :: rest)
  /\ match snd (run agent_run request []) with
     | inr _ =>
         exists before last,
           yields (fst (run agent_run request [])) = (before ++ [last])%list
           /\ is_completed last = true
           /\ forallb (fun r => negb (is_completed r)) before = true
     | inl _ =>
         forallb (fun r => negb (is_completed r))
                 (yields (fst (run agent_run request []))) = true
     end.
Proof.
  destruct (run_cases request)
    as [H | [[mid [Hmid H]] | [[q1 [q2 H]]
       | [[q1 [q2 [mid [last [Hmid H]]]]] | [q1 [q2 [mid [e [Hmid H]]]]]]]]];
    rewrite H; clear H.
  - split; [eexists; reflexivity |].
    exists [mk_RunResponse (CStr "Extracting travel details...") run_response],
      (mk_RunResponse (CStr no_travel_info) workflow_completed).
    repeat split.
  - destruct Hmid as [-> | [q ->]];
      (split; [eexists; reflexivity |]);
      exists [mk_RunResponse (CStr "Extracting travel details...") run_response;
              mk_RunResponse (CStr "Searching for flights...") run_response],
        (mk_RunResponse (CStr no_flights) workflow_completed);
      repeat split.
  - split; [eexists; reflexivity |].
    exists [mk_RunResponse (CStr "Extracting travel details...") run_response;
            mk_RunResponse (CStr "Searching for flights...") run_response;
            mk_RunResponse
              (CStr "Finding accommodation, dining, and attractions...")
              run_response],
      (mk_RunResponse (CStr no_destination_info) workflow_completed).
    repeat split.
  - destruct Hmid as [-> | [q ->]];
      (split; [eexists; reflexivity |]);
      exists [mk_RunResponse (CStr "Extracting travel details...") run_response;
              mk_RunResponse (CStr "Searching for flights...") run_response;
              mk_RunResponse
                (CStr "Finding accommodation, dining, and attractions...")
                run_response;
              mk_RunResponse (CStr "Generating your complete travel plan...")
                             run_response],
        (mk_RunResponse last workflow_completed);
      repeat split.
  - destruct Hmid as [-> | [q ->]];
      (split; [eexists; reflexivity | reflexivity]).
Qed.


(** X18.  When an intent has been extracted and the flight-search agent
    raises or answers without content, the run stops after that step:
    its last notification is the apology about flights, the destination
    and itinerary agents are not run, and the run does not raise. *)
Theorem no_flights_stops_run (request : string) (t : TravelInfo) :
  (forall tr q,
      agent_run tr travel_info_agent q = Returns (Some (CTravelInfo t))) ->
  (forall tr q, gives_nothing (agent_run tr flight_search_agent q)) ->
  exists q,
    run agent_run request []
    = ([extracting; Ran travel_info_agent request; searching;
        Ran flight_search_agent q; completed (CStr no_flights)],
       inr tt).
Proof.
  intros Hti Hfs. unfold run, bindW, yield. cbn [app].
  rewrite extract_travel_info_content, Hti. cbn [is_none app].
  destruct (search_flights_on_intent t
              [extracting; Ran travel_info_agent request; searching])
    as [q1 Hq1].
  rewrite Hq1, (Hfs _ q1). exists q1. reflexivity.
Qed.

(** X19.  When intent, flight options and destination information have
    been obtained and the itinerary agent raises or answers without
    content, the run ends, without raising, on a report that puts the
    recommended flights, the best option and the four destination texts
    under their headings. *)
Theorem plan_failure_yields_report (request : string) (t : TravelInfo)
    (f : FlightDetails) (d : DestinationInfo) :
  (forall tr q,
      agent_run tr travel_info_agent q = Returns (Some (CTravelInfo t))) ->
  (forall tr q,
      agent_run tr flight_search_agent q = Returns (Some (CFlightDetails f))) ->
  (forall tr q,
      agent_run tr destination_info_agent q
      = Returns (Some (CDestinationInfo d))) ->
  (forall tr q, gives_nothing (agent_run tr travel_plan_agent q)) ->
  final_message (fst (run agent_run request []))
  = Some (mk_RunResponse
            (CStr ("Could not generate a complete travel plan. Here's what I found so far:"
                   ++ nl2 ++ "**Flight Options**: " ++ fd_recommended_flights f
                   ++ nl2 ++ "**Best Flight**: " ++ fd_best_option f
                   ++ nl2 ++ "**Accommodations**: " ++ di_accommodations d
                   ++ nl2 ++ "**Dining Options**: " ++ di_dining d
                   ++ nl2 ++ "**Attractions**: " ++ di_attractions d
                   ++ nl2 ++ "**Local Transportation**: " ++ di_transportation d))
            workflow_completed)
  /\ agents_run (fst (run agent_run request []))
     = [travel_info_agent; flight_search_agent; destination_info_agent;
        travel_plan_agent]
  /\ snd (run agent_run request []) = inr tt.
Proof.
  intros Hti Hfs Hdi Htp. unfold run, bindW, yield. cbn [app].
  rewrite extract_travel_info_content, Hti. cbn [is_none app].
  destruct (search_flights_on_intent t
              [extracting; Ran travel_info_agent request; searching])
    as [q1 Hq1].
  rewrite Hq1, Hfs. cbn [content_or is_none app].
  destruct (get_destination_info_on_intent t
              [extracting; Ran travel_info_agent request; searching;
               Ran flight_search_agent q1; finding]) as [q2 Hq2].
  rewrite Hq2, Hdi. cbn [content_or is_none app].
  destruct (generate_travel_plan_on_records t f d
              [extracting; Ran travel_info_agent request; searching;
               Ran flight_search_agent q1; finding;
               Ran destination_info_agent q2; generating]) as [q3 Hq3].
  rewrite Hq3, (Htp _ q3). cbn [is_none app].
  unfold liftW, partial_report. cbn [getattr bind ret].
  repeat split.
Qed.

(** X20.  When all four agents answer -- an intent, flight options,
    destination information and a plan -- the run yields the four
    progress notifications in order and ends, without raising, on the
    plan itself, marked [workflow_completed]. *)
Theorem full_run_yields_plan (request : string) (t : TravelInfo)
    (f : FlightDetails) (d : DestinationInfo) (plan : content) :
  (forall tr q,
      agent_run tr travel_info_agent q = Returns (Some (CTravelInfo t))) ->
  (forall tr q,
      agent_run tr flight_search_agent q = Returns (Some (CFlightDetails f))) ->
  (forall tr q,
      agent_run tr destination_info_agent q
      = Returns (Some (CDestinationInfo d))) ->
  (forall tr q, agent_run tr travel_plan_agent q = Returns (Some plan)) ->
  plan <> CNone ->
  yields (fst (run agent_run request []))
  = [mk_RunResponse (CStr "Extracting travel details...") run_response;
     mk_RunResponse (CStr "Searching for flights...") run_response;
     mk_RunResponse (CStr "Finding accommodation, dining, and attractions...")
                    run_response;
     mk_RunResponse (CStr "Generating your complete travel plan...")
                    run_response;
     mk_RunResponse plan workflow_completed]
  /\ agents_run (fst (run agent_run request []))
     = [travel_info_agent; flight_search_agent; destination_info_agent;
        travel_plan_agent]
  /\ snd (run agent_run request []) = inr tt.
Proof.
  intros Hti Hfs Hdi Htp Hplan. unfold run, bindW, yield. cbn [app].
  rewrite extract_travel_info_content, Hti. cbn [is_none app].
  destruct (search_flights_on_intent t
              [extracting; Ran travel_info_agent request; searching])
    as [q1 Hq1].
  rewrite Hq1, Hfs. cbn [content_or is_none app].
  destruct (get_destination_info_on_intent t
              [extracting; Ran travel_info_agent request; searching;
               Ran flight_search_agent q1; finding]) as [q2 Hq2].
  rewrite Hq2, Hdi. cbn [content_or is_none app].
  destruct (generate_travel_plan_on_records t f d
              [extracting; Ran travel_info_agent request; searching;
               Ran flight_search_agent q1; finding;
               Ran destination_info_agent q2; generating]) as [q3 Hq3].
  rewrite Hq3, Htp. cbn [content_or].
  destruct plan; [contradiction | | | |]; repeat split.
Qed.

(** X21.  [run] can raise.  When the flight-search agent answers with
    text instead of flight options (intent and destination information
    being obtained), the itinerary step finds nothing to serialise and
    does not run its agent, and composing the fallback report fails on
    the text: the run raises [AttributeError] after its fourth progress
    notification, without a completion notification. *)
Theorem text_for_flights_makes_run_raise (request text : string)
    (t : TravelInfo) (d : DestinationInfo) :
  (forall tr q,
      agent_run tr travel_info_agent q = Returns (Some (CTravelInfo t))) ->
  (forall tr q,
      agent_run tr flight_search_agent q = Returns (Some (CStr text))) ->
  (forall tr q,
      agent_run tr destination_info_agent q
      = Returns (Some (CDestinationInfo d))) ->
  snd (run agent_run request [])
  = inl (AttributeError "'str' object has no attribute 'recommended_flights'")
  /\ agents_run (fst (run agent_run request []))
     = [travel_info_agent; flight_search_agent; destination_info_agent]
  /\ final_message (fst (run agent_run request []))
     = Some (mk_RunResponse (CStr "Generating your complete travel plan...")
                            run_response).
Proof.
  intros Hti Hfs Hdi. unfold run, bindW, yield. cbn [app].
  rewrite extract_travel_info_content, Hti. cbn [is_none app].
  destruct (search_flights_on_intent t
              [extracting; Ran travel_info_agent request; searching])
    as [q1 Hq1].
  rewrite Hq1, Hfs. cbn [content_or is_none app].
  destruct (get_destination_info_on_intent t
              [extracting; Ran travel_info_agent request; searching;
               Ran flight_search_agent q1; finding]) as [q2 Hq2].
  rewrite Hq2, Hdi. cbn [content_or is_none app].
  repeat split.
Qed.

(** X23.  When the Intent Extractor's agent raises, gives no response or
    a response without content, the run consists of the first progress
    notification, the one run of that agent and the fixed apology for
    missing travel details; no other agent is run and nothing is raised. *)
Theorem missing_intent_stops_run (request : string) :
  gives_nothing (agent_run [extracting] travel_info_agent request) ->
  run agent_run request []
  = ([extracting; Ran travel_info_agent request;
      completed (CStr no_travel_info)], inr tt)
  /\ agents_run (fst (run agent_run request [])) = [travel_info_agent].
Proof.
  intros Hnothing.
  assert (Hrun : run agent_run request []
                 = ([extracting; Ran travel_info_agent request;
                     completed (CStr no_travel_info)], inr tt)).
  { unfold run, bindW, yield. cbn [app].
    rewrite extract_travel_info_content.
    unfold gives_nothing, content_or in Hnothing. rewrite Hnothing.
    reflexivity. }
  split; [exact Hrun |]. rewrite Hrun. reflexivity.
Qed.

End WorkflowFurther.

(** * The theorems at concrete inputs *)

(** C1, a run on which the claim as stated fails: three-letter codes, a
    well-formed departure date and a non-error answer, yet the result is
    an error text that does not read as JSON -- once because [adults] is
    0, once because the answer's offer lacks its [id]. *)
Lemma error_text_instead_of_json :
  String.length "JFK" = 3%nat /\ String.length "LHR" = 3%nat
  /\ strptime sample_repr "2025-07-01" = inr (mk_date 2025 7 1)
  /\ FlightToolkit.search_flights sample_repr sample_loads today one_offer
       "JFK" "LHR" "2025-07-01" None 0 "INR" 5 false None []
     = ([], inr "Validation error: Number of adults must be a positive integer")
  /\ ~ count_matches_flights
         "Validation error: Number of adults must be a positive integer"
  /\ snd (FlightToolkit.search_flights sample_repr sample_loads today empty_offer
            "JFK" "LHR" "2025-07-01" None 1 "INR" 5 false None [])
     = inr "An unexpected error occurred: 'id'"
  /\ ~ count_matches_flights "An unexpected error occurred: 'id'".
Proof.
  repeat split; try reflexivity.
  - intros [members [flights [H _]]]. vm_compute in H. discriminate H.
  - intros [members [flights [H _]]]. vm_compute in H. discriminate H.
Qed.

Lemma flight_results_count_matches_witness :
  exists text,
    FlightToolkit.search_flights sample_repr sample_loads today one_offer
      "JFK" "LHR" "2025-07-01" (Some "2025-07-09") 2 "INR" 5 false None []
    = ([request_kwargs "JFK" "LHR" "2025-07-01" (Some "2025-07-09") 2 "INR" 5
                       false None],
       inr text)
    /\ count_matches_flights text
    /\ (truthy (PList [sample_offer]) = false ->
        text = dumps 2 (PDict [("count", PInt 0); ("flights", PList [])])).
Proof.
  apply (flight_results_count_matches sample_repr sample_loads today one_offer
           "JFK" "LHR" "2025-07-01" (Some "2025-07-09") 2 "INR" 5 false None []
           (mk_date 2025 7 1) (PList [sample_offer])).
  - reflexivity.
  - reflexivity.
  - reflexivity.
  - right. exists (mk_date 2025 7 9). split; reflexivity.
  - lia.
  - reflexivity.
  - reflexivity.
  - reflexivity.
Defined.


Lemma airport_codes_validated_witness :
  (String.length "JF" <> 3 \/ String.length "LHR" <> 3)%nat
  /\ FlightToolkit.search_flights sample_repr sample_loads today one_offer
       "JF" "LHR" "2025-07-01" None 1 "INR" 5 false None []
     = ([], inr "Validation error: Airport codes must be 3-letter IATA codes").
Proof.
  assert (H : (String.length "JF" <> 3 \/ String.length "LHR" <> 3)%nat)
    by (left; discriminate).
  split; [exact H |].
  exact (airport_codes_validated sample_repr sample_loads today one_offer
           "JF" "LHR" "2025-07-01" None 1 "INR" 5 false None [] H).
Defined.

(** C4, a call on which the claim as stated fails: both dates parse and
    the return date is the earlier one, but the origin is empty, and the
    error returned is the one about airport codes. *)
Lemma earlier_return_with_empty_origin :
  strptime sample_repr "2025-07-10" = inr (mk_date 2025 7 10)
  /\ strptime sample_repr "2025-07-01" = inr (mk_date 2025 7 1)
  /\ date_ltb (mk_date 2025 7 1) (mk_date 2025 7 10) = true
  /\ FlightToolkit.search_flights sample_repr sample_loads today one_offer
       "" "LHR" "2025-07-10" (Some "2025-07-01") 1 "INR" 5 false None []
     = ([], inr "Validation error: Origin and destination airport codes are required")
  /\ FlightToolkit.search_flights sample_repr sample_loads today one_offer
       "" "LHR" "2025-07-10" (Some "2025-07-01") 1 "INR" 5 false None []
     <> ([], inr "Validation error: Return date must be after departure date").
Proof.
  repeat split; discriminate.
Qed.

Lemma return_before_departure_rejected_witness :
  exists message,
    FlightToolkit.search_flights sample_repr sample_loads today one_offer
      "JFK" "LHR" "2025-07-10" (Some "2025-07-01") 1 "INR" 5 false None []
    = ([], inr ("Validation error: " ++ message))
    /\ (String.length "JFK" = 3%nat -> String.length "LHR" = 3%nat ->
        message = "Return date must be after departure date").
Proof.
  apply (return_before_departure_rejected sample_repr sample_loads today one_offer
           "JFK" "LHR" "2025-07-10" "2025-07-01" 1 "INR" 5 false None []
           (mk_date 2025 7 10) (mk_date 2025 7 1)); reflexivity.
Defined.

Lemma empty_departure_date_defaults_witness :
  fst (FlightToolkit.search_flights sample_repr sample_loads today one_offer
         "JFK" "LHR" "" None 1 "INR" 5 false None [])
  = [request_kwargs "JFK" "LHR" "2025-06-02" None 1 "INR" 5 false None].
Proof.
  destruct (empty_departure_date_defaults sample_repr sample_loads today one_offer
              "JFK" "LHR" None 1 "INR" 5 false None [] eq_refl eq_refl)
    as [_ [_ Hsent]].
  exact (Hsent (mk_date 2025 6 2) eq_refl eq_refl).
Defined.

(** C6, an answer on which the claim as stated fails: the segment's
    [aircraft] is null, so it names no aircraft code, yet no N/A is
    rendered for it: reshaping the segment raises, no flight is
    returned, and [search_flights] answers with an error text. *)
Lemma null_aircraft_is_not_rendered :
  field "aircraft" null_aircraft_segment = Some PNone
  /\ aircraft_code null_aircraft_segment = None
  /\ process_segment null_aircraft_segment
     = inl (AttributeError "'NoneType' object has no attribute 'get'")
  /\ _process_flight_results (PList [null_aircraft_offer])
     = inl (AttributeError "'NoneType' object has no attribute 'get'")
  /\ snd (FlightToolkit.search_flights sample_repr sample_loads today
            null_aircraft "JFK" "LHR" "2025-07-01" None 1 "INR" 5 false None [])
     = inr "An unexpected error occurred: 'NoneType' object has no attribute 'get'".
Proof.
  repeat split.
Qed.

Lemma missing_optional_fields_render_na_witness :
  exists flights,
    _process_flight_results (PList [sample_offer])
    = inr (PDict [("count", PInt 1); ("flights", PList flights)])
    /\ Forall2 rendered_offer [sample_offer] flights.
Proof.
  exact (missing_optional_fields_render_na [sample_offer] eq_refl).
Defined.

Lemma invalid_travel_class_ignored_witness :
  ~ In "LUXURY" travel_classes
  /\ FlightToolkit.search_flights sample_repr sample_loads today one_offer
       "JFK" "LHR" "2025-07-01" None 1 "INR" 5 false (Some "LUXURY") []
     = FlightToolkit.search_flights sample_repr sample_loads today one_offer
         "JFK" "LHR" "2025-07-01" None 1 "INR" 5 false None [].
Proof.
  assert (H : ~ In "LUXURY" travel_classes).
  { intros [H | [H | [H | [H | []]]]]; discriminate H. }
  split; [exact H |].
  exact (proj1 (invalid_travel_class_ignored sample_repr sample_loads today
                  one_offer "JFK" "LHR" "2025-07-01" None 1 "INR" 5 false
                  "LUXURY" [] H)).
Defined.

(** C7, the run on which the code departs from the claim.  The Intent
    Extractor's agent answers with text, not with a [TravelInfo]: the
    step returns that text instead of [None], the run goes on to the
    flight-search step (which fails on the text before reaching its
    agent), and the final message is the apology about flights, not the
    one about missing travel details. *)
Theorem clarifying_questions_pass_as_intent :
  extract_travel_info asks_back "Plan me a holiday"
    [Yielded (mk_RunResponse (CStr "Extracting travel details...") run_response)]
  = ([Yielded (mk_RunResponse (CStr "Extracting travel details...") run_response);
      Ran travel_info_agent "Plan me a holiday"],
     inr (CStr "Which city would you like to visit, and when?"))
  /\ run asks_back "Plan me a holiday" []
     = ([Yielded (mk_RunResponse (CStr "Extracting travel details...") run_response);
         Ran travel_info_agent "Plan me a holiday";
         Yielded (mk_RunResponse (CStr "Searching for flights...") run_response);
         Yielded (mk_RunResponse (CStr no_flights) workflow_completed)],
        inr tt)
  /\ final_message (fst (run asks_back "Plan me a holiday" []))
     <> Some (mk_RunResponse (CStr no_travel_info) workflow_completed).
Proof.
  repeat split; discriminate.
Qed.

(** C8, the run on which the code departs from the claim.  The
    destination agent answers without content: the adapter returns
    [None] and not a record, and the run ends there -- its last message
    announces that it will continue with what it has, and the itinerary
    step never runs. *)
Theorem empty_destination_info_halts_run :
  snd (get_destination_info silent_destination (CTravelInfo sample_travel_info) [])
  = inr CNone
  /\ final_message (fst (run silent_destination "A week in Paris" []))
     = Some (mk_RunResponse (CStr no_destination_info) workflow_completed)
  /\ no_destination_info
     = "Could not find detailed information about your destination. Let's continue with what we have."
  /\ agents_run (fst (run silent_destination "A week in Paris" []))
     = [travel_info_agent; flight_search_agent; destination_info_agent].
Proof.
  repeat split.
Qed.

Lemma destination_failure_yields_placeholder_witness :
  snd (get_destination_info failing_destination (CTravelInfo sample_travel_info) [])
  = inr (CDestinationInfo fallback_info)
  /\ agents_run (fst (run failing_destination "A week in Paris" []))
     = [travel_info_agent; flight_search_agent; destination_info_agent;
        travel_plan_agent]
  /\ snd (run failing_destination "A week in Paris" []) = inr tt.
Proof.
  destruct (destination_failure_yields_placeholder failing_destination
              (CTravelInfo sample_travel_info) [] "A week in Paris"
              sample_travel_info past_flight)
    as [_ [Hfallback Hrun]].
  split.
  - destruct Hfallback as [trace' [d [H _]]].
    + intros query. exists (OtherError "API key missing"). reflexivity.
    + reflexivity.
  - destruct Hrun as [Hagents [_ Hend]].
    + reflexivity.
    + reflexivity.
    + intros tr query. exists (OtherError "API key missing"). reflexivity.
    + split; [exact Hagents | exact Hend].
Defined.

(** C9, a record on which the claim as stated fails: the agent answers
    with a departure date in 2020, the adapter returns the record as it
    is, and on 2025-06-01 its departure date precedes today. *)
Lemma past_departure_date_returned :
  snd (TourMoreAI.search_flights silent_destination
         (CTravelInfo sample_travel_info) [])
  = inr (CFlightDetails past_flight)
  /\ ~ departs_today_or_later sample_repr today past_flight.
Proof.
  split; [reflexivity |].
  intros [d [Hd Hlt]]. vm_compute in Hd. injection Hd as <-. discriminate Hlt.
Qed.

Lemma flight_options_are_the_agents_witness :
  snd (TourMoreAI.search_flights silent_destination
         (CTravelInfo sample_travel_info) [])
  = inr (CFlightDetails past_flight).
Proof.
  apply (flight_options_are_the_agents silent_destination sample_travel_info []
           past_flight).
  intros query. reflexivity.
Defined.

(** * The further properties at concrete inputs *)

Lemma validate_inputs_accepts_iff_witness :
  _validate_inputs sample_repr "JFK" "LHR" "2025-07-01" (Some "2025-07-01") 1
  = inr tt.
Proof.
  apply (validate_inputs_accepts_iff sample_repr "JFK" "LHR" "2025-07-01"
           (Some "2025-07-01") 1).
  split; [reflexivity |]. split; [reflexivity |]. split; [| split].
  - right. exists (mk_date 2025 7 1). reflexivity.
  - right. exists (mk_date 2025 7 1). split; [reflexivity |].
    right. exists (mk_date 2025 7 1). split; reflexivity.
  - lia.
Defined.

Lemma validation_failure_sends_nothing_witness :
  exists message,
    ValueError "Airport codes must be 3-letter IATA codes" = ValueError message
    /\ FlightToolkit.search_flights sample_repr sample_loads today one_offer
         "JFK" "LONDON" "2025-07-01" None 1 "INR" 5 false None []
       = ([], inr ("Validation error: " ++ message)).
Proof.
  apply (validation_failure_sends_nothing sample_repr sample_loads today
           one_offer "JFK" "LONDON" "2025-07-01" None 1 "INR" 5 false None []).
  reflexivity.
Defined.

Lemma unreadable_departure_date_message_witness :
  FlightToolkit.search_flights sample_repr sample_loads today one_offer
    "JFK" "LHR" "01/07/2025" None 1 "INR" 5 false None []
  = ([], inr "Validation error: Departure date must be in YYYY-MM-DD format").
Proof.
  apply (unreadable_departure_date_message sample_repr sample_loads today
           one_offer "JFK" "LHR" "01/07/2025" None 1 "INR" 5 false None []
           (ValueError
              "time data '01/07/2025' does not match format '%Y-%m-%d'")).
  - reflexivity.
  - reflexivity.
  - discriminate.
  - reflexivity.
Defined.

Lemma unreadable_return_date_message_witness :
  FlightToolkit.search_flights sample_repr sample_loads today one_offer
    "JFK" "LHR" "2025-07-01" (Some "must be after") 1 "INR" 5 false None []
  = ([], inr "Validation error: time data 'must be after' does not match format '%Y-%m-%d'").
Proof.
  apply (unreadable_return_date_message sample_repr sample_loads today
           one_offer "JFK" "LHR" "2025-07-01" "must be after" 1 "INR" 5 false
           None []
           (ValueError
              "time data 'must be after' does not match format '%Y-%m-%d'")).
  - reflexivity.
  - reflexivity.
  - right. exists (mk_date 2025 7 1). reflexivity.
  - discriminate.
  - reflexivity.
Defined.

Lemma adults_below_one_message_witness :
  FlightToolkit.search_flights sample_repr sample_loads today one_offer
    "JFK" "LHR" "2025-07-01" None 0 "INR" 5 false None []
  = ([], inr "Validation error: Number of adults must be a positive integer").
Proof.
  apply (adults_below_one_message sample_repr sample_loads today one_offer
           "JFK" "LHR" "2025-07-01" None 0 "INR" 5 false None []).
  - reflexivity.
  - reflexivity.
  - right. exists (mk_date 2025 7 1). reflexivity.
  - exact I.
  - lia.
Defined.

Lemma default_departure_is_tomorrow_witness :
  date_ltb today (mk_date 2025 6 2) = true
  /\ FlightToolkit.search_flights sample_repr sample_loads today one_offer
       "JFK" "LHR" "" None 1 "INR" 5 false None []
     = FlightToolkit.search_flights sample_repr sample_loads today one_offer
         "JFK" "LHR" "2025-06-02" None 1 "INR" 5 false None [].
Proof.
  apply (default_departure_is_tomorrow sample_repr sample_loads today one_offer
           "JFK" "LHR" None 1 "INR" 5 false None [] (mk_date 2025 6 2)).
  - reflexivity.
  - cbn. lia.
  - reflexivity.
  - intros r back H. discriminate H.
Defined.

Lemma count_is_number_of_flights_witness :
  _process_flight_results (PList [sample_offer; sample_offer])
  = inr (PDict [("count", PInt 2);
                ("flights", PList [reshaped_sample_offer;
                                   reshaped_sample_offer])])
  /\ exists flights,
       PDict [("count", PInt 2);
              ("flights", PList [reshaped_sample_offer; reshaped_sample_offer])]
       = PDict [("count", PInt (Z.of_nat (List.length flights)));
                ("flights", PList flights)].
Proof.
  split; [reflexivity |].
  apply (count_is_number_of_flights (PList [sample_offer; sample_offer])).
  reflexivity.
Defined.

Lemma one_bad_offer_fails_the_call_witness :
  FlightToolkit.search_flights sample_repr sample_loads today second_offer_empty
    "JFK" "LHR" "2025-07-01" None 1 "INR" 5 false None []
  = ([request_kwargs "JFK" "LHR" "2025-07-01" None 1 "INR" 5 false None],
     inr "An unexpected error occurred: 'id'").
Proof.
  apply (one_bad_offer_fails_the_call sample_repr sample_loads today
           second_offer_empty "JFK" "LHR" "2025-07-01" None 1 "INR" 5 false
           None [] [sample_offer] (PDict []) [sample_offer] (KeyError "id")).
  - reflexivity.
  - discriminate.
  - reflexivity.
  - reflexivity.
  - reflexivity.
Defined.

Lemma parse_error_response_falls_back_witness :
  _parse_error_response sample_repr sample_loads
    (mk_response_error "[503]" (Some (Some "<html>Service Unavailable</html>")))
  = "[503]".
Proof.
  apply (parse_error_response_falls_back sample_repr sample_loads
           (mk_response_error "[503]"
                              (Some (Some "<html>Service Unavailable</html>")))).
  right. right. right. exists "<html>Service Unavailable</html>".
  split; [reflexivity |]. left. reflexivity.
Defined.

Lemma search_places_needs_key_witness :
  search_places sample_repr None two_places "museums in Paris" []
  = ([], inr "Error: Google Maps API key is not configured.").
Proof.
  apply (search_places_needs_key sample_repr None two_places
           "museums in Paris" []).
  left. reflexivity.
Defined.

Lemma search_places_returns_string_witness :
  search_places sample_repr (Some "KEY") unreachable "museums in Paris" []
  = ([[("query", PStr "museums in Paris"); ("key", PStr "KEY")]],
     inr "Error searching places: Connection refused").
Proof.
  destruct (search_places_returns_string sample_repr (Some "KEY") unreachable
              "museums in Paris" []) as [_ Hraise].
  apply (Hraise "KEY" (OtherError "Connection refused")).
  - reflexivity.
  - discriminate.
  - reflexivity.
Defined.

Lemma search_places_reports_status_witness :
  search_places sample_repr (Some "KEY") request_denied "museums in Paris" []
  = ([[("query", PStr "museums in Paris"); ("key", PStr "KEY")]],
     inr "Error searching Google Maps: REQUEST_DENIED (The provided API key is invalid.)").
Proof.
  apply (search_places_reports_status sample_repr (Some "KEY") request_denied
           "museums in Paris" "KEY" []
           [("status", PStr "REQUEST_DENIED");
            ("error_message", PStr "The provided API key is invalid.")]).
  - reflexivity.
  - discriminate.
  - reflexivity.
  - discriminate.
Defined.

Lemma search_places_lists_first_ten_witness :
  search_places sample_repr (Some "KEY") two_places "museums in Paris" []
  = ([[("query", PStr "museums in Paris"); ("key", PStr "KEY")]],
     inr (dumps 2 (PList [place_summary louvre;
                          place_summary (PDict [("name", PStr "Cafe")])])))
  /\ List.length [place_summary louvre;
                  place_summary (PDict [("name", PStr "Cafe")])]
     = 2%nat.
Proof.
  apply (search_places_lists_first_ten sample_repr (Some "KEY") two_places
           "museums in Paris" "KEY" []
           [("status", PStr "OK");
            ("results", PList [louvre; PDict [("name", PStr "Cafe")]])]
           [louvre; PDict [("name", PStr "Cafe")]]).
  - reflexivity.
  - discriminate.
  - reflexivity.
  - reflexivity.
  - reflexivity.
  - reflexivity.
Defined.

Lemma no_flights_stops_run_witness :
  exists q,
    run flights_down "A week in Paris" []
    = ([Yielded (mk_RunResponse (CStr "Extracting travel details...")
                                run_response);
        Ran travel_info_agent "A week in Paris";
        Yielded (mk_RunResponse (CStr "Searching for flights...") run_response);
        Ran flight_search_agent q;
        Yielded (mk_RunResponse (CStr no_flights) workflow_completed)],
       inr tt).
Proof.
  apply (no_flights_stops_run flights_down "A week in Paris" sample_travel_info).
  - intros tr q. reflexivity.
  - intros tr q. reflexivity.
Defined.

Lemma plan_failure_yields_report_witness :
  agents_run (fst (run planner_down "A week in Paris" []))
  = [travel_info_agent; flight_search_agent; destination_info_agent;
     travel_plan_agent]
  /\ snd (run planner_down "A week in Paris" []) = inr tt.
Proof.
  destruct (plan_failure_yields_report planner_down "A week in Paris"
              sample_travel_info upcoming_flight paris) as [_ H].
  - intros tr q. reflexivity.
  - intros tr q. reflexivity.
  - intros tr q. reflexivity.
  - intros tr q. reflexivity.
  - exact H.
Defined.

Lemma full_run_yields_plan_witness :
  yields (fst (run all_answer "A week in Paris" []))
  = [mk_RunResponse (CStr "Extracting travel details...") run_response;
     mk_RunResponse (CStr "Searching for flights...") run_response;
     mk_RunResponse (CStr "Finding accommodation, dining, and attractions...")
                    run_response;
     mk_RunResponse (CStr "Generating your complete travel plan...")
                    run_response;
     mk_RunResponse (CStr "Day 1: arrive in Paris.") workflow_completed].
Proof.
  destruct (full_run_yields_plan all_answer "A week in Paris"
              sample_travel_info upcoming_flight paris
              (CStr "Day 1: arrive in Paris.")) as [H _].
  - intros tr q. reflexivity.
  - intros tr q. reflexivity.
  - intros tr q. reflexivity.
  - intros tr q. reflexivity.
  - discriminate.
  - exact H.
Defined.

Lemma text_for_flights_makes_run_raise_witness :
  snd (run flights_as_text "A week in Paris" [])
  = inl (AttributeError "'str' object has no attribute 'recommended_flights'").
Proof.
  destruct (text_for_flights_makes_run_raise flights_as_text "A week in Paris"
              "I found three flights." sample_travel_info paris) as [H _].
  - intros tr q. reflexivity.
  - intros tr q. reflexivity.
  - intros tr q. reflexivity.
  - exact H.
Defined.

Lemma one_bad_place_fails_the_search_witness :
  search_places sample_repr (Some "KEY") second_place_odd "cafes in Paris" []
  = ([[("query", PStr "cafes in Paris"); ("key", PStr "KEY")]],
     inr "Error searching places: sequence item 1: expected str instance, int found").
Proof.
  apply (one_bad_place_fails_the_search sample_repr (Some "KEY")
           second_place_odd "cafes in Paris" "KEY" []
           [("status", PStr "OK");
            ("results",
             PList [louvre;
                    PDict [("name", PStr "Cafe");
                           ("types", PList [PStr "cafe"; PInt 7])]])]
           [louvre;
            PDict [("name", PStr "Cafe");
                   ("types", PList [PStr "cafe"; PInt 7])]]
           [louvre] []
           (PDict [("name", PStr "Cafe");
                   ("types", PList [PStr "cafe"; PInt 7])])
           (TypeError "sequence item 1: expected str instance, int found")).
  - reflexivity.
  - discriminate.
  - reflexivity.
  - reflexivity.
  - reflexivity.
  - reflexivity.
  - reflexivity.
  - reflexivity.
Defined.

Lemma missing_intent_stops_run_witness :
  run extractor_down "A week in Paris" []
  = ([Yielded (mk_RunResponse (CStr "Extracting travel details...")
                              run_response);
      Ran travel_info_agent "A week in Paris";
      Yielded (mk_RunResponse (CStr no_travel_info) workflow_completed)],
     inr tt)
  /\ agents_run (fst (run extractor_down "A week in Paris" []))
     = [travel_info_agent].
Proof.
  apply (missing_intent_stops_run extractor_down "A week in Paris").
  reflexivity.
Defined.

Lemma process_segment_returns_iff_witness :
  exists out, process_segment sample_segment = inr out.
Proof.
  apply (process_segment_returns_iff sample_segment). reflexivity.
Defined.
